(** * SWAP_analysis: the cleaning routine and the plot filters of tools.py

    A shallow embedding of [cleanup_redox], [plot_redox] and [plot_temp]
    (src/tools.py) and the properties of the specification that concern
    them.

    Conventions of the embedding.
    - A pandas frame is rectangular; here it is a list of rows, each a list
      of cells, and a cell outside a row reads as the missing value, which is
      how the readers pad short rows.
    - float64 values are exact rationals plus the marker [NaN] (np.nan);
      rounding and infinities are not modelled.
    - Time stamps are nanoseconds since the epoch, as in datetime64[ns],
      plus [NaT].
    - The text parsers of pandas (numbers, date-times) are parameters of the
      development: every theorem holds for any parser. Two small parsers
      for the logger's own formats ([Logger]) serve the examples.
    - Exceptions are values of [PyErr]; a function that can raise returns
      [res].
    - A rename map can take the label Time from the time column and give it
      to a measurement column. The text cells of that column are then the
      index, and pandas reads the first and the last of them as dates for
      [date_range]. Cells that read as dates are not modelled: the bound is
      refused (ValueError), as it is for a cell that is no date. *)

From Stdlib Require Import ZArith QArith List String Ascii Bool Arith Lia.
From Stdlib Require Import Sorted.
Import ListNotations.

Local Open Scope string_scope.
Local Open Scope list_scope.

(** ** Values *)

(** A float64 value: a number or the missing-value marker. *)
Inductive num : Type :=
| NaN
| Val (q : Q).

(** A cell of an object-typed frame: text or a float. An empty field of a
    delimited file is [Num NaN]. *)
Inductive Cell : Type :=
| Str (s : string)
| Num (x : num).

(** An entry of a datetime index. *)
Inductive Timestamp : Type :=
| NaT
| At (ns : Z).

(** The exceptions the modelled code can meet. [IOError] is the one that
    line 44 builds. *)
Inductive PyErr : Type :=
| UnboundLocalError
| IndexError
| KeyError
| ValueError
| TypeError
| ReaderError
| IOError (msg : string).

Inductive res (A : Type) : Type :=
| Ok (a : A)
| Raise (e : PyErr).

Arguments Ok {A} a.
Arguments Raise {A} e.

Definition bind {A B} (m : res A) (k : A -> res B) : res B :=
  match m with
  | Ok a => k a
  | Raise e => Raise e
  end.

Notation "x <- m ;; k" := (bind m (fun x => k))
  (at level 61, m at next level, right associativity).
Notation "' pat <- m ;; k" := (bind m (fun x => match x with pat => k end))
  (at level 61, pat pattern, m at next level, right associativity).

Fixpoint mapM {A B} (f : A -> res B) (l : list A) : res (list B) :=
  match l with
  | [] => Ok []
  | a :: l' => b <- f a ;; bs <- mapM f l' ;; Ok (b :: bs)
  end.

Definition isnan (x : num) : bool :=
  match x with NaN => true | Val _ => false end.

(** Float addition: NaN is absorbing. *)
Definition num_add (x y : num) : num :=
  match x, y with
  | Val a, Val b => Val (a + b)
  | _, _ => NaN
  end.

(** Numerical equality of two entries of a table; the marker only matches
    the marker. *)
Definition num_eq (x y : num) : Prop :=
  match x, y with
  | NaN, NaN => True
  | Val a, Val b => (a == b)%Q
  | _, _ => False
  end.

Definition Timestamp_eqb (a b : Timestamp) : bool :=
  match a, b with
  | NaT, NaT => true
  | At x, At y => Z.eqb x y
  | _, _ => false
  end.

(** ** Frames *)

(** The frame bound to [dataframe] in lines 38-51: column labels and rows.
    Its row index is the default 0..n-1, so a row's label is its position. *)
Record DataFrame : Type := mkFrame {
  columns : list Cell;
  rows : list (list Cell)
}.

(** What a pandas reader finds at a path: nothing it can parse, or the grid
    of the file (first sheet), first line first. *)
Inductive FileContent : Type :=
| Unreadable
| Grid (lines : list (list Cell)).

(** A subset indexed by the stamps of the Time column, as it is before the
    reindexing (after line 77): the index and the labelled value columns. *)
Record Series : Type := mkSeries {
  sindex : list Timestamp;
  scols : list (string * list num)
}.

(** A subset after [set_index("Time")] (lines 74-77). When the one column
    called Time is the time column, the index is its stamps. When several
    columns are called Time the index has two levels, its entries are
    tuples; when the one column called Time is a measurement column (Time
    renamed away, a channel renamed to Time) the entries are the text
    cells of that column. In the last two cases the frame only travels to
    line 79 or 80, and its columns are not kept here. *)
Inductive Indexed : Type :=
| Stamped (s : Series)
| TwoLevel
| ByCells.

(** A cleaned table: an index of time stamps and labelled float columns,
    each column as long as the index. *)
Record Table : Type := mkTable {
  index : list Z;
  tcols : list (string * list num)
}.

(** ** Small list and string helpers *)

Definition endswith (s suffix : string) : bool :=
  let n := String.length s in
  let m := String.length suffix in
  if (m <=? n)%nat then String.eqb (substring (n - m) m s) suffix else false.

(** [re.search('^p', s)]: [p] is a prefix of [s] ([p] has no special
    character). *)
Definition startswith (p s : string) : bool := String.prefix p s.

Definition cell_is (s : string) (c : Cell) : bool :=
  match c with
  | Str t => String.eqb t s
  | Num _ => false
  end.

(** Position of the first element satisfying [p]. *)
Fixpoint find_index {A} (p : A -> bool) (l : list A) : option nat :=
  match l with
  | [] => None
  | a :: l' => if p a then Some 0%nat else option_map S (find_index p l')
  end.

(** [frame.iloc[:, j]] over rows. *)
Definition column (j : nat) (rs : list (list Cell)) : list Cell :=
  map (fun r => nth j r (Num NaN)) rs.

(** Positions of the columns carrying label [l]. *)
Definition positions (l : string) (labels : list Cell) : list nat :=
  filter (fun j => cell_is l (nth j labels (Num NaN))) (seq 0 (List.length labels)).

(** [frame[l]] handed to [pd.to_datetime] as one column (line 54). A label
    that is absent raises KeyError. A repeated label makes pandas hand back
    a sub-frame, which to_datetime cannot assemble into dates:
    ValueError. *)
Definition loc_column (l : string) (labels : list Cell) : res nat :=
  match positions l labels with
  | [] => Raise KeyError
  | [j] => Ok j
  | _ => Raise ValueError
  end.

Definition count_label (l : string) (labels : list string) : nat :=
  List.length (filter (String.eqb l) labels).

(** ** Reading the file, lines 38-44 *)

(** [pd.read_excel(file_path, sheet_name=0)]: the first row of the sheet
    becomes the column labels, the others are the rows. *)
Definition read_excel (c : FileContent) : res DataFrame :=
  match c with
  | Unreadable => Raise ReaderError
  | Grid [] => Ok (mkFrame [] [])
  | Grid (first :: others) => Ok (mkFrame first others)
  end.

(** Default labels 0, 1, ... of [header=None]. *)
Definition range_labels (n : nat) : list Cell :=
  map (fun j => Num (Val (inject_Z (Z.of_nat j)))) (seq 0 n).

(** A line without a field. *)
Definition is_blank (line : list Cell) : bool :=
  match line with
  | [] => true
  | _ :: _ => false
  end.

(** The lines the text reader parses: line 0 is skipped ([skiprows=[0]]),
    blank lines are dropped ([skip_blank_lines], the default). *)
Definition parsed_lines (lines : list (list Cell)) : list (list Cell) :=
  filter (fun line => negb (is_blank line)) (tl lines).

(** [pd.read_csv(file_path, skiprows=[0], header=None)]. The first parsed
    line fixes the number of columns. With no line left there are no
    columns to parse and the reader raises (EmptyDataError); a later line
    with more fields than the first raises too (ParserError). A shorter
    line is padded with missing values. *)
Definition read_csv (c : FileContent) : res DataFrame :=
  match c with
  | Unreadable => Raise ReaderError
  | Grid lines =>
      match parsed_lines lines with
      | [] => Raise ReaderError
      | r :: rs =>
          if forallb (fun line => (List.length line <=? List.length r)%nat) rs
          then Ok (mkFrame (range_labels (List.length r)) (r :: rs))
          else Raise ReaderError
      end
  end.

(** Lines 38-44. The result is the binding of the local [dataframe]:
    [None] when no assignment ran. In the [except] branch the IOError is
    built and dropped, and control falls through. *)
Definition load (file_path : string) (c : FileContent) : res (option DataFrame) :=
  if endswith file_path "xlsx" || endswith file_path "xls" then
    df <- read_excel c ;; Ok (Some df)
  else
    match read_csv c with
    | Ok df => Ok (Some df)
    | Raise _ =>
        let _ := IOError "File type is not of the expected type or recognized. File should be a csv or Excel" in
        Ok None
    end.

(** Reading a local name. *)
Definition lookup_local {A} (v : option A) : res A :=
  match v with
  | Some a => Ok a
  | None => Raise UnboundLocalError
  end.

(** [frame[mask].index[0]]: label of the first selected row. *)
Definition first_row (p : Cell -> bool) (col : list Cell) : res nat :=
  match find_index p col with
  | Some i => Ok i
  | None => Raise IndexError
  end.

(** ** Header and data region, lines 46-51 *)

Definition drop_cols : list string := ["batt_volt_Avg"; "RECORD"; "TIMESTAMP"].

(** Line 50: [frame[frame.loc[:, "RECORD"] == "0"].index[0]]. A label that
    is absent raises KeyError. With one RECORD column the comparison is a
    row mask, and the result is the label of the first row holding the
    text 0. With several, [loc] hands back a sub-frame and the comparison
    a frame of booleans; indexing by such a frame blanks cells and drops
    no row, so the first label is that of the first row, 0. *)
Definition first_record (labels : list Cell) (rs : list (list Cell)) : res nat :=
  match positions "RECORD" labels with
  | [] => Raise KeyError
  | [j] => first_row (cell_is "0") (column j rs)
  | _ => match rs with
         | [] => Raise IndexError
         | _ :: _ => Ok 0%nat
         end
  end.

(** Lines 48-51: the frame with the header row as labels and the rows
    before [start_data] dropped. *)
Definition locate (dataframe : DataFrame) : res DataFrame :=
  header <- first_row (cell_is "TIMESTAMP") (column 0 (rows dataframe)) ;;
  let labels := nth header (rows dataframe) [] in
  start_data <- first_record labels (rows dataframe) ;;
  Ok (mkFrame labels (skipn start_data (rows dataframe))).

(** ** The hourly grid, lines 79-83 *)

(** One hour, in nanoseconds. *)
Definition hour : Z := 3600000000000.

(** [pd.date_range(a, b, freq="h")]: a, a+1h, ... while not after b. *)
Definition date_range (a b : Z) : list Z :=
  if (b <? a)%Z then []
  else map (fun k => (a + Z.of_nat k * hour)%Z)
           (seq 0 (S (Z.to_nat ((b - a) / hour)))).

(** Lines 79-80: the range from [index[0]] to [index[-1]]. pandas refuses
    NaT as a bound. *)
Definition hourly_range (idx : list Timestamp) : res (list Z) :=
  match idx with
  | [] => Raise IndexError
  | first :: _ =>
      match first, last idx NaT with
      | At a, At b => Ok (date_range a b)
      | _, _ => Raise ValueError
      end
  end.

Fixpoint is_unique (l : list Timestamp) : bool :=
  match l with
  | [] => true
  | a :: l' => negb (existsb (Timestamp_eqb a) l') && is_unique l'
  end.

(** The value a reindexed column takes at label [t]. *)
Definition take (idx : list Timestamp) (col : list num) (t : Z) : num :=
  match find_index (Timestamp_eqb (At t)) idx with
  | Some i => nth i col NaN
  | None => NaN
  end.

(** Lines 82-83: [frame.reindex(new_index, fill_value=np.nan)]. pandas
    cannot reindex an axis with duplicate labels. *)
Definition reindex (s : Series) (new_index : list Z) : res Table :=
  if is_unique (sindex s) then
    Ok (mkTable new_index
          (map (fun lc => (fst lc, map (take (sindex s) (snd lc)) new_index))
               (scols s)))
  else Raise ValueError.

(** ** Renaming, lines 66-68 *)

Fixpoint dict_get (d : list (string * string)) (k : string) : option string :=
  match d with
  | [] => None
  | (k', v) :: d' => if String.eqb k' k then Some v else dict_get d' k
  end.

(** [frame.rename(columns=rename)] on one label; [None] and the empty
    dict are falsy and skip the renaming. *)
Definition rename_label (rename : option (list (string * string))) (l : string) : string :=
  match rename with
  | None | Some [] => l
  | Some d => match dict_get d l with Some v => v | None => l end
  end.

Section Cleaning.

(** pandas' reading of a text cell as a number; [None] when the text is
    not a number. *)
Variable str_to_num : string -> option num.

(** [pd.to_datetime] on one cell; [None] when it raises. *)
Variable to_datetime : Cell -> option Timestamp.

(** [pd.to_numeric(_, errors='coerce')] on one cell. *)
Definition to_numeric (c : Cell) : num :=
  match c with
  | Num x => x
  | Str s => match str_to_num s with Some x => x | None => NaN end
  end.

(** Line 54, right-hand side. *)
Definition time_column (df : DataFrame) : res (list Timestamp) :=
  j <- loc_column "TIMESTAMP" (columns df) ;;
  mapM (fun c => match to_datetime c with
                 | Some t => Ok t
                 | None => Raise ValueError
                 end)
       (column j (rows df)).

(** The labelled columns of a frame, left to right. *)
Definition labelled (df : DataFrame) : list (Cell * list Cell) :=
  map (fun j => (nth j (columns df) (Num NaN), column j (rows df)))
      (seq 0 (List.length (columns df))).

(** [frame.filter(regex='^prefix')]: the columns whose label, as text,
    starts with the prefix. The text of a float label is its decimal
    writing or nan, which starts with neither prefix. *)
Definition filter_prefix (prefix : string) (cols : list (Cell * list Cell))
  : list (string * list Cell) :=
  flat_map (fun lc => match fst lc with
                      | Str s => if startswith prefix s then [(s, snd lc)] else []
                      | Num _ => []
                      end) cols.

(** Lines 54-63: the Time column and the two subsets of raw columns.
    - 55-56: with two columns already called Time, [pop] hands a frame
      to [insert], which wants one column: ValueError.
    - 57: [drop] raises KeyError for a label that is not there. *)
Definition split (df : DataFrame)
  : res (list Timestamp * list (string * list Cell) * list (string * list Cell)) :=
  times <- time_column df ;;
  _ <- (if (2 <=? List.length (positions "Time" (columns df)))%nat
        then Raise ValueError else Ok tt) ;;
  _ <- (if forallb (fun l => negb (Nat.eqb (List.length (positions l (columns df))) 0)) drop_cols
        then Ok tt else Raise KeyError) ;;
  let kept := filter (fun lc => negb (cell_is "Time" (fst lc)
                                      || existsb (fun l => cell_is l (fst lc)) drop_cols))
                     (labelled df) in
  Ok (times, filter_prefix "redox" kept, filter_prefix "temp" kept).

(** The labels of a subset after lines 66-68, the Time column first:
    every label, Time included, goes through the renaming. *)
Definition renamed_labels (rename : option (list (string * string)))
    (cols : list (string * list Cell)) : list string :=
  rename_label rename "Time" :: map (fun lc => rename_label rename (fst lc)) cols.

Fixpoint distinct (l : list string) : bool :=
  match l with
  | [] => true
  | a :: l' => negb (existsb (String.eqb a) l') && distinct l'
  end.

(** The columns that the mask [columns != 'Time'] of lines 71-72 selects. *)
Definition selected (labels : list string) : list string :=
  filter (fun l => negb (String.eqb l "Time")) labels.

(** Line 71 or 72, the assignment [frame.loc[:, mask] = coerced]: pandas
    aligns the new values on the selected labels, and raises ValueError
    when two of these are equal. *)
Definition assign_coerced (rename : option (list (string * string)))
    (cols : list (string * list Cell)) : res unit :=
  if distinct (selected (renamed_labels rename cols)) then Ok tt
  else Raise ValueError.

(** The value columns of a subset indexed by the time column, after lines
    66-77; [offset] is what line 71 or 72 does to a coerced value.
    - 71-72: the columns not called Time are coerced and shifted.
    - 75, 77: a second coercion of the value columns. *)
Definition coerced_columns (offset : num -> num)
    (rename : option (list (string * string)))
    (cols : list (string * list Cell)) : list (string * list num) :=
  let renamed := map (fun lc => (rename_label rename (fst lc), snd lc)) cols in
  let coerced :=
    map (fun lc => if String.eqb (fst lc) "Time" then lc
                   else (fst lc, map (fun c => Num (offset (to_numeric c))) (snd lc)))
        renamed in
  map (fun lc => (fst lc, map to_numeric (snd lc))) coerced.

(** Lines 74-75 or 76-77: [set_index("Time")] raises KeyError when no
    column is called Time, and takes every column of that name into the
    index otherwise. *)
Definition set_index_Time (offset : num -> num)
    (rename : option (list (string * string)))
    (times : list Timestamp) (cols : list (string * list Cell)) : res Indexed :=
  match count_label "Time" (renamed_labels rename cols) with
  | 0%nat => Raise KeyError
  | 1%nat =>
      if String.eqb (rename_label rename "Time") "Time"
      then Ok (Stamped (mkSeries times (coerced_columns offset rename cols)))
      else Ok ByCells
  | _ => Ok TwoLevel
  end.

(** Lines 46-63. *)
Definition raw_subsets (dataframe : DataFrame)
  : res (list Timestamp * list (string * list Cell) * list (string * list Cell)) :=
  located <- locate dataframe ;;
  split located.

(** Lines 66-77, in the order of the statements: 71, 72, 74, 76. [offset]
    is the shift line 71 gives the redox values. *)
Definition clean_subsets (offset : num -> num)
    (rename : option (list (string * string)))
    (raw : list Timestamp * list (string * list Cell) * list (string * list Cell))
  : res (Indexed * Indexed) :=
  let '(times, redox, temp) := raw in
  _ <- assign_coerced rename redox ;;
  _ <- assign_coerced rename temp ;;
  df_redox <- set_index_Time offset rename times redox ;;
  df_temp <- set_index_Time (fun v => v) rename times temp ;;
  Ok (df_redox, df_temp).

(** Lines 79-80: [pd.date_range(frame.index[0], frame.index[-1], freq="h")].
    A tuple is no bound: TypeError. A text cell of a measurement column is
    read as a date; the model has it refused (ValueError), which is what
    happens to a number that does not read as a date. *)
Definition index_range (d : Indexed) : res (list Z) :=
  match d with
  | Stamped s => hourly_range (sindex s)
  | TwoLevel => Raise TypeError
  | ByCells => Raise ValueError
  end.

(** Lines 82-83 on a subset that got its range. *)
Definition reindex_subset (d : Indexed) (new_index : list Z) : res Table :=
  match d with
  | Stamped s => reindex s new_index
  | TwoLevel => Raise TypeError
  | ByCells => Raise ValueError
  end.

(** Lines 79-83. *)
Definition regularize (s : Indexed * Indexed) : res (Table * Table) :=
  date_range_redox <- index_range (fst s) ;;
  date_range_temp <- index_range (snd s) ;;
  df_redox <- reindex_subset (fst s) date_range_redox ;;
  df_temp <- reindex_subset (snd s) date_range_temp ;;
  Ok (df_redox, df_temp).

(** Lines 46-77: the two subsets as they stand before the reindexing. *)
Definition prepare_with (offset : num -> num) (dataframe : DataFrame)
    (rename : option (list (string * string))) : res (Indexed * Indexed) :=
  raw <- raw_subsets dataframe ;;
  clean_subsets offset rename raw.

(** Lines 46-85 on the frame that was read. *)
Definition clean_with (offset : num -> num) (dataframe : DataFrame)
    (rename : option (list (string * string))) : res (Table * Table) :=
  s <- prepare_with offset dataframe rename ;;
  regularize s.

(** The whole function, with the shift of line 71 as a parameter;
    [content] is what the readers find at [file_path]. *)
Definition cleanup_with (offset : num -> num) (file_path : string)
    (content : FileContent) (rename : option (list (string * string)))
  : res (Table * Table) :=
  binding <- load file_path content ;;
  dataframe <- lookup_local binding ;;
  clean_with offset dataframe rename.

(** [cleanup_redox]: line 71 adds [correction]. *)
Definition cleanup_redox (file_path : string) (content : FileContent)
    (correction : num) (rename : option (list (string * string)))
  : res (Table * Table) :=
  cleanup_with (fun v => num_add v correction) file_path content rename.

(** The state of [cleanup_redox] after line 77. *)
Definition after_set_index (file_path : string) (content : FileContent)
    (correction : num) (rename : option (list (string * string)))
  : res (Indexed * Indexed) :=
  binding <- load file_path content ;;
  dataframe <- lookup_local binding ;;
  prepare_with (fun v => num_add v correction) dataframe rename.

(** A subset read as a series of stamps; the other kinds of index do not
    pass line 79 or 80. *)
Definition stamped (d : Indexed) : res Series :=
  match d with
  | Stamped s => Ok s
  | TwoLevel => Raise TypeError
  | ByCells => Raise ValueError
  end.

(** The subsets of [cleanup_redox] before the reindexing (after line 77),
    when both are indexed by the stamps of the Time column. *)
Definition before_reindex (file_path : string) (content : FileContent)
    (correction : num) (rename : option (list (string * string)))
  : res (Series * Series) :=
  s <- after_set_index file_path content correction rename ;;
  df_redox <- stamped (fst s) ;;
  df_temp <- stamped (snd s) ;;
  Ok (df_redox, df_temp).

(** The parsed raw values: the same cleaning with nothing added in
    line 71. *)
Definition parsed_raw (file_path : string) (content : FileContent)
    (rename : option (list (string * string))) : res (Table * Table) :=
  cleanup_with (fun v => v) file_path content rename.

End Cleaning.

(** ** The plot functions *)

(** One call of [ax.plot(x, y, label=...)]. *)
Record Line : Type := mkLine {
  xs : list Z;
  ys : list num;
  label : string
}.

(** [l[mask]]: the entries where the mask holds. *)
Fixpoint select {A} (mask : list bool) (l : list A) : list A :=
  match mask, l with
  | b :: mask', a :: l' => if b then a :: select mask' l' else select mask' l'
  | _, _ => []
  end.

(** [frame[mask]] on a table. *)
Definition select_rows (mask : list bool) (df : Table) : Table :=
  mkTable (select mask (index df))
          (map (fun lc => (fst lc, select mask (snd lc))) (tcols df)).

(** [index > bound] and [index <= bound] on one entry; every comparison
    with NaT is false. *)
Definition after (bound : Timestamp) (t : Z) : bool :=
  match bound with At b => (b <? t)%Z | NaT => false end.

Definition not_after (bound : Timestamp) (t : Z) : bool :=
  match bound with At b => (t <=? b)%Z | NaT => false end.

(** The columns a frame yields for a label: all that carry it. *)
Definition labelled_as (node : string) (cols : list (string * list num)) : list (list num) :=
  map snd (filter (fun lc => String.eqb (fst lc) node) cols).

(** [frame[node]]: KeyError for a label that is not there. *)
Definition getitem (df : Table) (node : string) : res (list (list num)) :=
  match labelled_as node (tcols df) with
  | [] => Raise KeyError
  | cs => Ok cs
  end.

(** [frame[name] = col]: overwrite every column of that name, or append. *)
Definition setitem (df : Table) (name : string) (col : list num) : Table :=
  match labelled_as name (tcols df) with
  | [] => mkTable (index df) (tcols df ++ [(name, col)])
  | _ => mkTable (index df)
           (map (fun lc => if String.eqb (fst lc) name then (name, col) else lc) (tcols df))
  end.

(** pandas' mean with [skipna]: the marker counts as 0 in the sum and is
    left out of the count; an empty count gives the marker. *)
Definition nansum (vs : list num) : Q :=
  fold_left (fun acc v => (acc + match v with Val q => q | NaN => 0 end)%Q) vs 0%Q.

Definition count_valid (vs : list num) : nat :=
  List.length (filter (fun v => negb (isnan v)) vs).

Definition nanmean (vs : list num) : num :=
  match count_valid vs with
  | 0%nat => NaN
  | n => Val (nansum vs / inject_Z (Z.of_nat n))
  end.

(** Row [i] across a list of columns. *)
Definition row_at (cols : list (list num)) (i : nat) : list num :=
  map (fun c => nth i c NaN) cols.

(** [frame.mean(axis=1)] over the given columns of a frame with [n] rows. *)
Definition mean_axis1 (n : nat) (cols : list (list num)) : list num :=
  map (fun i => nanmean (row_at cols i)) (seq 0 n).

(** One plotted line for each column found under each node, in order. *)
Definition plot_nodes (df : Table) (nodes : list string) : res (list Line) :=
  lines <- mapM (fun node =>
                   cs <- getitem df node ;;
                   Ok (map (fun c => mkLine (index df) c node) cs)) nodes ;;
  Ok (List.concat lines).

(** [frame.loc[:, nodes]]: every column under every node, KeyError if a
    node is missing. *)
Definition loc_nodes (df : Table) (nodes : list string) : res (list (list num)) :=
  css <- mapM (getitem df) nodes ;; Ok (List.concat css).

(** Lines 196-216 of [plot_temp], on the filtered frame: the mean column is
    computed, stored under mean_temperature and read back for the one
    plot call, or every node is plotted. *)
Definition draw_temp (df_temp : Table) (temp_nodes : list string) (mean : bool)
  : res (list Line) :=
  if mean then
    named <- loc_nodes df_temp temp_nodes ;;
    let mean_temp := mean_axis1 (List.length (index df_temp)) named in
    let df_temp := setitem df_temp "mean_temperature" mean_temp in
    cs <- getitem df_temp "mean_temperature" ;;
    Ok (map (fun c => mkLine (index df_temp) c "Mean temperature") cs)
  else
    plot_nodes df_temp temp_nodes.

Section Plotting.

(** How pandas reads a date text compared with a datetime index; [None]
    when it cannot, and the comparison raises TypeError. *)
Variable str_to_datetime : string -> option Timestamp.

(** Lines 120 and 194. *)
Definition date_mask (idx : list Z) (start_date end_date : string) : res (list bool) :=
  match str_to_datetime start_date, str_to_datetime end_date with
  | Some s, Some e => Ok (map (fun t => after s t && not_after e t) idx)
  | _, _ => Raise TypeError
  end.

(** [plot_redox]: the lines drawn on the axes (lines 120-128). *)
Definition plot_redox (df_redox : Table) (redox_nodes : list string)
    (start_date end_date : string) : res (list Line) :=
  mask <- date_mask (index df_redox) start_date end_date ;;
  let df_redox_plot := select_rows mask df_redox in
  plot_nodes df_redox_plot redox_nodes.

(** [plot_temp]: the lines drawn on the axes (lines 194-216). *)
Definition plot_temp (df_temp : Table) (temp_nodes : list string)
    (start_date end_date : string) (mean : bool) : res (list Line) :=
  mask <- date_mask (index df_temp) start_date end_date ;;
  let df_temp := select_rows mask df_temp in
  draw_temp df_temp temp_nodes mean.

End Plotting.

(** ** Reference notions used in the statements *)

(** The arithmetic mean of a list of numbers. *)
Definition arithmetic_mean (qs : list Q) : Q :=
  (fold_right Qplus 0 qs / inject_Z (Z.of_nat (List.length qs)))%Q.

(** The numbers of a row that are not missing. *)
Definition present (vs : list num) : list Q :=
  flat_map (fun v => match v with Val q => [q] | NaN => [] end) vs.

(** Consecutive entries are one hour apart. *)
Definition hourly (l : list Z) : Prop :=
  forall i, (S i < List.length l)%nat ->
            nth (S i) l 0%Z = (nth i l 0 + hour)%Z.

Definition strictly_increasing (l : list Z) : Prop :=
  forall i j, (i < j < List.length l)%nat -> (nth i l 0 < nth j l 0)%Z.

(** The index runs from the first to the last stamp of the source. *)
Definition spans (src : list Timestamp) (l : list Z) : Prop :=
  hd_error (map At l) = hd_error src /\ last (map At l) NaT = last src NaT.

(** Same index, same labels, entries related by [R]. *)
Definition cols_rel (R : num -> num -> Prop) (a b : list (string * list num)) : Prop :=
  Forall2 (fun x y => fst x = fst y /\ Forall2 R (snd x) (snd y)) a b.

Definition table_rel (R : num -> num -> Prop) (a b : Table) : Prop :=
  index a = index b /\ cols_rel R (tcols a) (tcols b).

(** ** The tables of the pilot study, lines 243-276 *)

(** Renames each soil node of the Constructed Wetland pilot study. *)
Definition CW_rename : list (string * string) :=
  [
    ("redox_raw_Avg(1)", "CW1S1-1"); ("redox_raw_Avg(2)", "CW1S1-2"); ("redox_raw_Avg(3)", "CW1S1-3");
    ("redox_raw_Avg(4)", "CW1S1-4"); ("redox_raw_Avg(5)", "CW1S2-1"); ("redox_raw_Avg(6)", "CW1S2-2");
    ("redox_raw_Avg(7)", "CW1S2-3"); ("redox_raw_Avg(8)", "CW1S2-4"); ("redox_raw_Avg(9)", "CW1S3-1");
    ("redox_raw_Avg(10)", "CW1S3-2"); ("redox_raw_Avg(11)", "CW1S3-3"); ("redox_raw_Avg(12)", "CW1S3-4");
    ("redox_raw_Avg(13)", "CW1S4-1"); ("redox_raw_Avg(14)", "CW1S4-2"); ("redox_raw_Avg(15)", "CW1S4-3");
    ("redox_raw_Avg(16)", "CW1S4-4"); ("redox_raw_Avg(17)", "CW2S1-1"); ("redox_raw_Avg(18)", "CW2S1-2");
    ("redox_raw_Avg(19)", "CW2S1-3"); ("redox_raw_Avg(20)", "CW2S1-4"); ("redox_raw_Avg(21)", "CW2S2-1");
    ("redox_raw_Avg(22)", "CW2S2-2"); ("redox_raw_Avg(23)", "CW2S2-3"); ("redox_raw_Avg(24)", "CW2S2-4");
    ("redox_raw_Avg(25)", "CW2S3-1"); ("redox_raw_Avg(26)", "CW2S3-2"); ("redox_raw_Avg(27)", "CW2S3-3");
    ("redox_raw_Avg(28)", "CW2S3-4"); ("redox_raw_Avg(29)", "CW2S4-1"); ("redox_raw_Avg(30)", "CW2S4-2");
    ("redox_raw_Avg(31)", "CW2S4-3"); ("redox_raw_Avg(32)", "CW2S4-4"); ("redox_raw_Avg(33)", "CW3S1-1");
    ("redox_raw_Avg(34)", "CW3S1-2"); ("redox_raw_Avg(35)", "CW3S1-3"); ("redox_raw_Avg(36)", "CW3S1-4");
    ("redox_raw_Avg(37)", "CW3S2-1"); ("redox_raw_Avg(38)", "CW3S2-2"); ("redox_raw_Avg(39)", "CW3S2-3");
    ("redox_raw_Avg(40)", "CW3S2-4"); ("redox_raw_Avg(41)", "CW3S3-1"); ("redox_raw_Avg(42)", "CW3S3-2");
    ("redox_raw_Avg(43)", "CW3S3-3"); ("redox_raw_Avg(44)", "CW3S3-4"); ("redox_raw_Avg(45)", "CW3S4-1");
    ("redox_raw_Avg(46)", "CW3S4-2"); ("redox_raw_Avg(47)", "CW3S4-3"); ("redox_raw_Avg(48)", "CW3S4-4");
    ("temp_C_Avg(1)", "CW1S1"); ("temp_C_Avg(2)", "CW1S2"); ("temp_C_Avg(3)", "CW1S3");
    ("temp_C_Avg(4)", "CW1S4"); ("temp_C_Avg(5)", "CW2S1"); ("temp_C_Avg(6)", "CW2S2");
    ("temp_C_Avg(7)", "CW2S3"); ("temp_C_Avg(8)", "CW2S4"); ("temp_C_Avg(9)", "CW3S1");
    ("temp_C_Avg(10)", "CW3S2"); ("temp_C_Avg(11)", "CW3S3"); ("temp_C_Avg(12)", "CW3S4") ].

(** The nodes of each wetland and depth. *)
Definition node_dictionary : list (string * list string) :=
  [
    ("CW1_20cm", ["CW1S1-1"; "CW1S2-1"; "CW1S3-1"; "CW1S4-1"]);
    ("CW1_40cm", ["CW1S1-2"; "CW1S2-2"; "CW1S3-2"; "CW1S4-2"]);
    ("CW1_60cm", ["CW1S1-3"; "CW1S2-3"; "CW1S3-3"; "CW1S4-3"]);
    ("CW1_80cm", ["CW1S1-4"; "CW1S2-4"; "CW1S3-4"; "CW1S4-4"]);
    ("CW2_20cm", ["CW2S1-1"; "CW2S2-1"; "CW2S3-1"; "CW2S4-1"]);
    ("CW2_40cm", ["CW2S1-2"; "CW2S2-2"; "CW2S3-2"; "CW2S4-2"]);
    ("CW2_60cm", ["CW2S1-3"; "CW2S2-3"; "CW2S3-3"; "CW2S4-3"]);
    ("CW2_80cm", ["CW2S1-4"; "CW2S2-4"; "CW2S3-4"; "CW2S4-4"]);
    ("CW3_20cm", ["CW3S1-1"; "CW3S2-1"; "CW3S3-1"; "CW3S4-1"]);
    ("CW3_40cm", ["CW3S1-2"; "CW3S2-2"; "CW3S3-2"; "CW3S4-2"]);
    ("CW3_60cm", ["CW3S1-3"; "CW3S2-3"; "CW3S3-3"; "CW3S4-3"]);
    ("CW3_80cm", ["CW3S1-4"; "CW3S2-4"; "CW3S3-4"; "CW3S4-4"]) ].


(** ** Parsers for the logger's formats, used in the examples *)

Module Logger.

Definition digit (c : ascii) : option Z :=
  let n := nat_of_ascii c in
  if ((48 <=? n) && (n <=? 57))%nat then Some (Z.of_nat (n - 48)) else None.

Fixpoint digits (s : string) (acc : Z) : option Z :=
  match s with
  | EmptyString => Some acc
  | String c s' =>
      match digit c with
      | Some d => digits s' (10 * acc + d)%Z
      | None => None
      end
  end.

(** A non-empty run of decimal digits. *)
Definition natural (s : string) : option Z :=
  match s with
  | EmptyString => None
  | _ => digits s 0
  end.

(** Splits at the first occurrence of [c]. *)
Fixpoint split_at (c : ascii) (s : string) : string * option string :=
  match s with
  | EmptyString => (EmptyString, None)
  | String a s' =>
      if Ascii.eqb a c then (EmptyString, Some s')
      else let r := split_at c s' in (String a (fst r), snd r)
  end.

(** Unsigned decimal writing: digits, optionally a point and digits. *)
Definition unsigned_decimal (s : string) : option Q :=
  match split_at "." s with
  | (whole, None) => option_map inject_Z (natural whole)
  | (whole, Some frac) =>
      match natural whole, natural frac with
      | Some w, Some f =>
          Some (Qred (inject_Z w + Qmake f (Pos.of_nat (Nat.pow 10 (String.length frac)))))
      | _, _ => None
      end
  end.

(** Numbers as the logger writes them: plain decimals with an optional
    minus sign, and NAN for a failed reading. *)
Definition str_to_num (s : string) : option num :=
  if String.eqb s "NAN" then Some NaN
  else match s with
       | String "-" s' => option_map (fun q => Val (Qred (- q))) (unsigned_decimal s')
       | _ => option_map Val (unsigned_decimal s)
       end.

(** Days from 1970-01-01 to the given civil date (proleptic Gregorian). *)
Definition days_from_civil (y m d : Z) : Z :=
  let y' := if (m <=? 2)%Z then (y - 1)%Z else y in
  let era := (y' / 400)%Z in
  let yoe := (y' - era * 400)%Z in
  let mp := if (2 <? m)%Z then (m - 3)%Z else (m + 9)%Z in
  let doy := ((153 * mp + 2) / 5 + d - 1)%Z in
  let doe := (yoe * 365 + yoe / 4 - yoe / 100 + doy)%Z in
  (era * 146097 + doe - 719468)%Z.

Definition field (s : string) (start len : nat) : option Z :=
  natural (substring start len s).

Definition date_part (s : string) : option Z :=
  match field s 0 4, field s 5 2, field s 8 2 with
  | Some y, Some m, Some d =>
      if String.eqb (substring 4 1 s) "-" && String.eqb (substring 7 1 s) "-"
         && (1 <=? m)%Z && (m <=? 12)%Z && (1 <=? d)%Z && (d <=? 31)%Z
      then Some (days_from_civil y m d) else None
  | _, _, _ => None
  end.

Definition time_part (s : string) : option Z :=
  match field s 0 2, field s 3 2, field s 6 2 with
  | Some h, Some m, Some sec =>
      if String.eqb (substring 2 1 s) ":" && String.eqb (substring 5 1 s) ":"
         && (h <? 24)%Z && (m <? 60)%Z && (sec <? 60)%Z
      then Some ((h * 60 + m) * 60 + sec)%Z else None
  | _, _, _ => None
  end.

(** YYYY-MM-DD, optionally followed by a blank and hh:mm:ss. *)
Definition str_to_datetime (s : string) : option Timestamp :=
  match String.length s with
  | 10%nat => option_map (fun d => At (d * 86400 * 1000000000)%Z) (date_part s)
  | 19%nat =>
      match date_part (substring 0 10 s), time_part (substring 11 8 s) with
      | Some d, Some t =>
          if String.eqb (substring 10 1 s) " "
          then Some (At ((d * 86400 + t) * 1000000000)%Z) else None
      | _, _ => None
      end
  | _ => None
  end.

(** [pd.to_datetime] on a cell of the TIMESTAMP column: date-time text,
    or an empty cell, which gives NaT. *)
Definition to_datetime (c : Cell) : option Timestamp :=
  match c with
  | Str s => str_to_datetime s
  | Num NaN => Some NaT
  | Num (Val _) => None
  end.

End Logger.

(** ** A small logger file *)

Module Sample.

Definition heading : list (list Cell) :=
  [ [Str "TOA5"; Str "S9081"; Str "CR1000X"; Num NaN; Num NaN];
    [Str "TIMESTAMP"; Str "RECORD"; Str "batt_volt_Avg";
     Str "redox_raw_Avg(1)"; Str "temp_C_Avg(1)"];
    [Str "TS"; Str "RN"; Str "Volts"; Str "mV"; Str "Deg C"];
    [Num NaN; Num NaN; Str "Avg"; Str "Avg"; Str "Avg"] ].

(** Two readings one hour apart, then one three hours later; one redox
    cell is not a number. *)
Definition gap_file : FileContent :=
  Grid (heading ++
    [ [Str "2024-09-01 00:00:00"; Str "0"; Str "12.5"; Str "-234.5"; Str "18.2"];
      [Str "2024-09-01 01:00:00"; Str "1"; Str "12.5"; Str "bad"; Str "18.0"];
      [Str "2024-09-01 04:00:00"; Str "2"; Str "12.4"; Str "-230"; Str "NAN"] ]).

(** The last reading is half an hour off the hourly grid of the first. *)
Definition offgrid_file : FileContent :=
  Grid (heading ++
    [ [Str "2024-09-01 00:00:00"; Str "0"; Str "12.5"; Str "-234.5"; Str "18.2"];
      [Str "2024-09-01 01:30:00"; Str "1"; Str "12.5"; Str "-231"; Str "18.0"] ]).

(** The header line is there, the RECORD column never holds "0". *)
Definition no_zero_record : DataFrame :=
  mkFrame (range_labels 5)
    [ [Str "TIMESTAMP"; Str "RECORD"; Str "batt_volt_Avg";
       Str "redox_raw_Avg(1)"; Str "temp_C_Avg(1)"];
      [Str "2024-09-01 00:00:00"; Str "7"; Str "12.5"; Str "-234.5"; Str "18.2"] ].

(** The same frame as it is read from a delimited file. *)
Definition no_zero_file : FileContent :=
  Grid ([Str "TOA5"; Str "S9081"; Str "CR1000X"; Num NaN; Num NaN]
          :: rows no_zero_record).

(** 2024-09-01 00:00:00. *)
Definition t0 : Z := 1725148800000000000.

Definition temperatures : Table :=
  mkTable [t0; t0 + hour; t0 + 2 * hour; t0 + 3 * hour]%Z
    [ ("CW1S1", [Val 18; Val 17; NaN; Val 16]);
      ("CW1S2", [Val 20; NaN; NaN; Val (33 # 2)]);
      ("CW1S3", [Val 19; Val 18; NaN; Val 15]) ].

End Sample.

(** ** Further notions used in the statements *)

(** Entry [i] of column [k]. *)
Definition value_at (cols : list (string * list num)) (k i : nat) : option num :=
  match nth_error cols k with
  | Some lc => nth_error (snd lc) i
  | None => None
  end.

Definition cell_at (cols : list (string * list Cell)) (k j : nat) : option Cell :=
  match nth_error cols k with
  | Some lc => nth_error (snd lc) j
  | None => None
  end.

(** A table with [c] added to every entry. *)
Definition shift (c : num) (T : Table) : Table :=
  mkTable (index T)
          (map (fun lc => (fst lc, map (fun v => num_add v c) (snd lc))) (tcols T)).

(** What the hourly index is to the stamps of its source: empty when the
    last stamp precedes the first; otherwise it starts at the first stamp
    and stops at the last hourly step that is not after the last stamp,
    which is the last stamp exactly when that one lies a whole number of
    hours after the first. *)
Definition anchored (src : list Timestamp) (l : list Z) : Prop :=
  exists a b,
    hd_error src = Some (At a) /\ last src NaT = At b /\
    ((b < a)%Z -> l = []) /\
    ((a <= b)%Z ->
       hd_error l = Some a /\
       (last l a <= b < last l a + hour)%Z /\
       (last l a = b <-> ((b - a) mod hour = 0)%Z)).

(** A table is the reindexing of a series: same labels; at a stamp of the
    table that the source lacks every column holds the marker, and at a
    stamp that the source has every column holds the source's value. *)
Definition reindexed (s : Series) (T : Table) : Prop :=
  map fst (tcols T) = map fst (scols s) /\
  forall k i t,
    (k < List.length (scols s))%nat ->
    nth_error (index T) i = Some t ->
    (~ In (At t) (sindex s) -> value_at (tcols T) k i = Some NaN) /\
    (forall j v, nth_error (sindex s) j = Some (At t) ->
                 value_at (scols s) k j = Some v ->
                 value_at (tcols T) k i = Some v).

(** The half-open window (s, e]. *)
Definition in_window (s e t : Z) : bool := ((s <? t) && (t <=? e))%Z.

(** The rows of a table whose stamp lies in the window. *)
Definition rows_in_window (s e : Z) (df : Table) : Table :=
  mkTable (filter (in_window s e) (index df))
          (map (fun lc =>
                  (fst lc,
                   map snd (filter (fun p => in_window s e (fst p))
                                   (combine (index df) (snd lc)))))
               (tcols df)).

(** No row starts with the text TIMESTAMP. *)
Definition no_timestamp_row (df : DataFrame) : Prop :=
  forall r, In r (rows df) -> nth 0 r (Num NaN) <> Str "TIMESTAMP".

(** Row [h] is the first that starts with TIMESTAMP; its cells are the
    labels. *)
Definition header_row (df : DataFrame) (h : nat) (labels : list Cell) : Prop :=
  nth_error (rows df) h = Some labels /\
  nth 0 labels (Num NaN) = Str "TIMESTAMP" /\
  forall h' r, (h' < h)%nat -> nth_error (rows df) h' = Some r ->
               nth 0 r (Num NaN) <> Str "TIMESTAMP".

(** Column [j] is the one labelled RECORD. *)
Definition record_column (labels : list Cell) (j : nat) : Prop :=
  nth_error labels j = Some (Str "RECORD") /\
  forall j', nth_error labels j' = Some (Str "RECORD") -> j' = j.

(** There is a header and a RECORD column, and no row holds the text 0
    in it. *)
Definition no_record_zero (df : DataFrame) : Prop :=
  exists h labels j,
    header_row df h labels /\ record_column labels j /\
    forall r, In r (rows df) -> nth j r (Num NaN) <> Str "0".

(** The columns a list of nodes names, in order. *)
Definition named_columns (nodes : list string) (df : Table) : list (list num) :=
  List.concat (map (fun n => labelled_as n (tcols df)) nodes).

(** The arithmetic mean of the entries that are not missing; missing when
    there is none. *)
Definition mean_of_present (vs : list num) : num :=
  match present vs with
  | [] => NaN
  | qs => Val (arithmetic_mean qs)
  end.

(** The renaming keeps the label Time on the time column and gives it to
    no other column: [set_index] then makes the stamps the index. *)
Definition keeps_time (rename : option (list (string * string)))
    (labels : list string) : bool :=
  String.eqb (rename_label rename "Time") "Time"
  && forallb (fun l => negb (String.eqb (rename_label rename l) "Time")) labels.

(** The index [set_index("Time")] builds when the renaming does not keep
    Time: none (KeyError) without a column of that name, the cells of a
    measurement column when it is the only one, two levels otherwise. *)
Definition other_index (rename : option (list (string * string)))
    (labels : list string) : res Indexed :=
  match count_label "Time" (map (rename_label rename) ("Time" :: labels)) with
  | 0%nat => Raise KeyError
  | 1%nat => Ok ByCells
  | _ => Ok TwoLevel
  end.

(** What one subset is after line 77: the Time index, every label renamed,
    every cell coerced and shifted. *)
Definition cleaned (str_to_num : string -> option num) (offset : num -> num)
    (rename : option (list (string * string)))
    (times : list Timestamp) (cols : list (string * list Cell)) : Series :=
  mkSeries times
    (map (fun lc => (rename_label rename (fst lc),
                     map (fun c => offset (to_numeric str_to_num c)) (snd lc))) cols).

(** The index of a cleaned table against the stamps of its source. *)
Definition hourly_grid_of (src : list Timestamp) (l : list Z) : Prop :=
  hourly l /\ strictly_increasing l /\ NoDup l /\ anchored src l.

(** Whether a computation returns, and the exception if not. *)
Definition outcome {A} (m : res A) : res unit :=
  match m with
  | Ok _ => Ok tt
  | Raise e => Raise e
  end.

(** ** The script CW_redox.py *)

(** [d[k]] on a dict: KeyError for a missing key. *)
Fixpoint dict_getitem {V} (d : list (string * V)) (k : string) : res V :=
  match d with
  | [] => Raise KeyError
  | (k', v) :: d' => if String.eqb k' k then Ok v else dict_getitem d' k
  end.

Module Script.

(** Lines 14, 17, 32 and 34 of CW_redox.py. *)
Definition file_path : string := "./S9081 HMVT CR1000X_measurements.dat".

Definition correction : num := Val 200.

Definition temp_nodes : list string :=
  ["CW1S1"; "CW1S2"; "CW1S3"; "CW1S4"; "CW2S1"; "CW2S2"; "CW2S3"; "CW2S4";
   "CW3S1"; "CW3S2"; "CW3S3"].

Definition start_date : string := "2024-09-01".

Definition end_date : string := "2025-03-04".

End Script.

(** The script: the file is cleaned with the renaming of the pilot study,
    then three figures are drawn; the third holds the redox lines and, on a
    twin axis, the mean temperature. The result lists the lines of each
    figure. [plot_temp] filters into a copy, so the frame of the second
    call is the one of the first. *)
Definition CW_redox (str_to_num : string -> option num)
    (to_datetime : Cell -> option Timestamp)
    (str_to_datetime : string -> option Timestamp)
    (content : FileContent) : res (list (list Line)) :=
  tables <- cleanup_redox str_to_num to_datetime
              Script.file_path content Script.correction (Some CW_rename) ;;
  let df_redox := fst tables in
  let df_temp := snd tables in
  redox_nodes <- dict_getitem node_dictionary "CW2_80cm" ;;
  fig1 <- plot_redox str_to_datetime df_redox redox_nodes
            Script.start_date Script.end_date ;;
  fig2 <- plot_temp str_to_datetime df_temp Script.temp_nodes
            Script.start_date Script.end_date false ;;
  ax1 <- plot_redox str_to_datetime df_redox redox_nodes
           Script.start_date Script.end_date ;;
  ax2 <- plot_temp str_to_datetime df_temp Script.temp_nodes
           Script.start_date Script.end_date true ;;
  Ok [fig1; fig2; ax1 ++ ax2].

(** A file with the channels the script plots. *)
Definition pilot_file : FileContent :=
  Grid
    [ [ Str "TOA5"; Str "S9081"; Num NaN; Num NaN; Num NaN; Num NaN; Num NaN;
         Num NaN; Num NaN; Num NaN; Num NaN; Num NaN; Num NaN; Num NaN;
         Num NaN; Num NaN; Num NaN; Num NaN ];
      [ Str "TIMESTAMP"; Str "RECORD"; Str "batt_volt_Avg";
         Str "redox_raw_Avg(20)"; Str "redox_raw_Avg(24)";
         Str "redox_raw_Avg(28)"; Str "redox_raw_Avg(32)";
         Str "temp_C_Avg(1)"; Str "temp_C_Avg(2)"; Str "temp_C_Avg(3)";
         Str "temp_C_Avg(4)"; Str "temp_C_Avg(5)"; Str "temp_C_Avg(6)";
         Str "temp_C_Avg(7)"; Str "temp_C_Avg(8)"; Str "temp_C_Avg(9)";
         Str "temp_C_Avg(10)"; Str "temp_C_Avg(11)" ];
      [ Str "2024-09-01 00:00:00"; Str "0"; Str "12.5"; Str "-230";
         Str "-231"; Str "-232"; Str "-233"; Str "10.5"; Str "11.5";
         Str "12.5"; Str "13.5"; Str "14.5"; Str "15.5"; Str "16.5";
         Str "17.5"; Str "18.5"; Str "19.5"; Str "20.5" ];
      [ Str "2024-09-01 01:00:00"; Str "1"; Str "12.5"; Str "-231";
         Str "-232"; Str "-233"; Str "-234"; Str "11.5"; Str "12.5";
         Str "13.5"; Str "14.5"; Str "15.5"; Str "16.5"; Str "17.5";
         Str "18.5"; Str "19.5"; Str "20.5"; Str "21.5" ];
      [ Str "2024-09-01 03:00:00"; Str "2"; Str "12.5"; Str "-232";
         Str "-233"; Str "-234"; Str "-235"; Str "12.5"; Str "13.5";
         Str "14.5"; Str "15.5"; Str "16.5"; Str "17.5"; Str "18.5";
         Str "19.5"; Str "20.5"; Str "21.5"; Str "22.5" ] ].

(** A file without the battery column. *)
Definition no_battery_file : FileContent :=
  Grid
    [ [Str "TOA5"; Str "S9081"; Num NaN];
      [Str "TIMESTAMP"; Str "RECORD"; Str "redox_raw_Avg(1)"];
      [Str "2024-09-01 00:00:00"; Str "0"; Str "-234.5"] ].

(** A file whose second stamp is not a date. *)
Definition bad_stamp_file : FileContent :=
  Grid (Sample.heading ++
    [ [Str "2024-09-01 00:00:00"; Str "0"; Str "12.5"; Str "-234.5"; Str "18.2"];
      [Str "yesterday"; Str "1"; Str "12.5"; Str "-231"; Str "18.0"] ]).

(** A file that holds the same stamp twice. *)
Definition twice_file : FileContent :=
  Grid (Sample.heading ++
    [ [Str "2024-09-01 00:00:00"; Str "0"; Str "12.5"; Str "-234.5"; Str "18.2"];
      [Str "2024-09-01 00:00:00"; Str "1"; Str "12.5"; Str "-231"; Str "18.0"];
      [Str "2024-09-01 02:00:00"; Str "2"; Str "12.5"; Str "-231"; Str "18.0"] ]).

(** A file with a reading every hour. *)
Definition regular_file : FileContent :=
  Grid (Sample.heading ++
    [ [Str "2024-09-01 00:00:00"; Str "0"; Str "12.5"; Str "-234.5"; Str "18.2"];
      [Str "2024-09-01 01:00:00"; Str "1"; Str "12.5"; Str "-231"; Str "18.0"];
      [Str "2024-09-01 02:00:00"; Str "2"; Str "12.5"; Str "-230"; Str "17.9"] ]).

(** A file whose last line has one field more than the header line. *)
Definition ragged_file : FileContent :=
  Grid (Sample.heading ++
    [ [Str "2024-09-01 00:00:00"; Str "0"; Str "12.5"; Str "-234.5"; Str "18.2"];
      [Str "2024-09-01 01:00:00"; Str "1"; Str "12.5"; Str "-231"; Str "18.0";
       Str "extra"] ]).

(** The gap file with an empty line before the data and one inside. *)
Definition blank_line_file : FileContent :=
  Grid (Sample.heading ++
    [ [];
      [Str "2024-09-01 00:00:00"; Str "0"; Str "12.5"; Str "-234.5"; Str "18.2"];
      [Str "2024-09-01 01:00:00"; Str "1"; Str "12.5"; Str "bad"; Str "18.0"];
      [];
      [Str "2024-09-01 04:00:00"; Str "2"; Str "12.4"; Str "-230"; Str "NAN"] ]).

(** The header of a logger with all 48 redox and 12 temperature channels. *)
Definition full_header : list Cell :=
  [ Str "TIMESTAMP"; Str "RECORD"; Str "batt_volt_Avg";
    Str "redox_raw_Avg(1)"; Str "redox_raw_Avg(2)"; Str "redox_raw_Avg(3)";
    Str "redox_raw_Avg(4)"; Str "redox_raw_Avg(5)"; Str "redox_raw_Avg(6)";
    Str "redox_raw_Avg(7)"; Str "redox_raw_Avg(8)"; Str "redox_raw_Avg(9)";
    Str "redox_raw_Avg(10)"; Str "redox_raw_Avg(11)";
    Str "redox_raw_Avg(12)"; Str "redox_raw_Avg(13)";
    Str "redox_raw_Avg(14)"; Str "redox_raw_Avg(15)";
    Str "redox_raw_Avg(16)"; Str "redox_raw_Avg(17)";
    Str "redox_raw_Avg(18)"; Str "redox_raw_Avg(19)";
    Str "redox_raw_Avg(20)"; Str "redox_raw_Avg(21)";
    Str "redox_raw_Avg(22)"; Str "redox_raw_Avg(23)";
    Str "redox_raw_Avg(24)"; Str "redox_raw_Avg(25)";
    Str "redox_raw_Avg(26)"; Str "redox_raw_Avg(27)";
    Str "redox_raw_Avg(28)"; Str "redox_raw_Avg(29)";
    Str "redox_raw_Avg(30)"; Str "redox_raw_Avg(31)";
    Str "redox_raw_Avg(32)"; Str "redox_raw_Avg(33)";
    Str "redox_raw_Avg(34)"; Str "redox_raw_Avg(35)";
    Str "redox_raw_Avg(36)"; Str "redox_raw_Avg(37)";
    Str "redox_raw_Avg(38)"; Str "redox_raw_Avg(39)";
    Str "redox_raw_Avg(40)"; Str "redox_raw_Avg(41)";
    Str "redox_raw_Avg(42)"; Str "redox_raw_Avg(43)";
    Str "redox_raw_Avg(44)"; Str "redox_raw_Avg(45)";
    Str "redox_raw_Avg(46)"; Str "redox_raw_Avg(47)";
    Str "redox_raw_Avg(48)"; Str "temp_C_Avg(1)"; Str "temp_C_Avg(2)";
    Str "temp_C_Avg(3)"; Str "temp_C_Avg(4)"; Str "temp_C_Avg(5)";
    Str "temp_C_Avg(6)"; Str "temp_C_Avg(7)"; Str "temp_C_Avg(8)";
    Str "temp_C_Avg(9)"; Str "temp_C_Avg(10)"; Str "temp_C_Avg(11)";
    Str "temp_C_Avg(12)" ].

(** A file with that header and one reading, every channel at the same
    value. *)
Definition full_file : FileContent :=
  Grid
    [ [Str "TOA5"];
      full_header;
      Str "2024-09-01 00:00:00" :: Str "0" :: repeat (Str "12.5") 61 ].

(** ** Notions for the further properties *)

(** A table with its labels renamed. *)
Definition relabel (rename : option (list (string * string))) (T : Table) : Table :=
  mkTable (index T)
          (map (fun lc => (rename_label rename (fst lc), snd lc)) (tcols T)).

(** The text labels of a header that start with [prefix], left to right. *)
Definition header_labels (prefix : string) (labels : list Cell) : list string :=
  flat_map (fun c => match c with
                     | Str s => if startswith prefix s then [s] else []
                     | Num _ => []
                     end) labels.

(** Every column is as long as the index. *)
Definition rectangular (T : Table) : Prop :=
  Forall (fun lc => List.length (snd lc) = List.length (index T)) (tcols T).

(** Every node is the label of some column. *)
Definition nodes_present (df : Table) (nodes : list string) : bool :=
  forallb (fun n => existsb (fun lc => String.eqb (fst lc) n) (tcols df)) nodes.

(** The first column under a label. *)
Definition column_of (n : string) (df : Table) : list num :=
  hd [] (labelled_as n (tcols df)).

(** No value of the dict is [v]. *)
Definition avoids (v : string) (rename : option (list (string * string))) : bool :=
  match rename with
  | None => true
  | Some d => forallb (fun kv => negb (String.eqb (snd kv) v)) d
  end.

(** * Properties *)

(** ** The error monad *)

Lemma bind_Ok {A B} (m : res A) (k : A -> res B) (b : B) :
  bind m k = Ok b -> exists a, m = Ok a /\ k a = Ok b.
Proof.
  destruct m as [a|e]; simpl; intros H; [eauto | discriminate].
Qed.

Ltac inv_bind H :=
  let a := fresh "a" in
  let Ha := fresh "Ha" in
  apply bind_Ok in H; destruct H as (a & Ha & H).

(** ** Lists *)

Lemma nth_map_seq {A} (f : nat -> A) (n i : nat) (d : A) :
  (i < n)%nat -> nth i (map f (seq 0 n)) d = f i.
Proof.
  intros Hi. rewrite nth_indep with (d' := f 0%nat)
    by (rewrite length_map, length_seq; lia).
  rewrite map_nth, seq_nth by lia. reflexivity.
Qed.

(** ** The hourly range *)

Lemma hour_pos : (0 < hour)%Z.
Proof. reflexivity. Qed.

Lemma date_range_length (a b : Z) :
  (a <= b)%Z -> List.length (date_range a b) = S (Z.to_nat ((b - a) / hour)).
Proof.
  intros H. unfold date_range.
  destruct (Z.ltb_spec b a); [lia|].
  now rewrite length_map, length_seq.
Qed.

Lemma date_range_nth (a b : Z) (i : nat) :
  (i < List.length (date_range a b))%nat ->
  nth i (date_range a b) 0%Z = (a + Z.of_nat i * hour)%Z.
Proof.
  unfold date_range. destruct (Z.ltb_spec b a); [simpl; lia|].
  rewrite length_map, length_seq. intros Hi.
  rewrite nth_map_seq by lia. reflexivity.
Qed.

Lemma date_range_hourly (a b : Z) : hourly (date_range a b).
Proof.
  intros i Hi. rewrite !date_range_nth by lia. lia.
Qed.

Lemma date_range_increasing (a b : Z) : strictly_increasing (date_range a b).
Proof.
  intros i j Hij. rewrite !date_range_nth by lia.
  pose proof hour_pos. nia.
Qed.

Lemma increasing_NoDup (l : list Z) : strictly_increasing l -> NoDup l.
Proof.
  intros H. apply NoDup_nth with (d := 0%Z). intros i j Hi Hj E.
  destruct (Nat.lt_trichotomy i j) as [Hlt|[->|Hlt]]; [|reflexivity|].
  - specialize (H i j). lia.
  - specialize (H j i). lia.
Qed.

Lemma date_range_empty (a b : Z) : (b < a)%Z -> date_range a b = [].
Proof.
  intros H. unfold date_range. destruct (Z.ltb_spec b a); [reflexivity|lia].
Qed.

Lemma date_range_hd (a b : Z) : (a <= b)%Z -> hd_error (date_range a b) = Some a.
Proof.
  intros H. unfold date_range. destruct (Z.ltb_spec b a); [lia|].
  simpl. f_equal. lia.
Qed.

Lemma date_range_last (a b : Z) :
  (a <= b)%Z ->
  last (date_range a b) a = (a + (b - a) / hour * hour)%Z.
Proof.
  intros H.
  assert (Hn : date_range a b <> []).
  { intros E. apply (f_equal (@List.length Z)) in E.
    rewrite date_range_length in E by lia. discriminate. }
  destruct (exists_last Hn) as (l' & x & E).
  pose proof (date_range_length a b H) as Hlen.
  pose proof (date_range_nth a b (Z.to_nat ((b - a) / hour))) as Hnth.
  rewrite Hlen in Hnth. specialize (Hnth (Nat.lt_succ_diag_r _)).
  rewrite E in Hlen, Hnth |- *. rewrite last_last.
  rewrite length_app in Hlen. simpl in Hlen.
  rewrite app_nth2 in Hnth by lia.
  replace (Z.to_nat ((b - a) / hour) - List.length l')%nat with 0%nat in Hnth by lia.
  simpl in Hnth. rewrite Hnth.
  pose proof hour_pos.
  rewrite Z2Nat.id by (apply Z.div_pos; lia). reflexivity.
Qed.

Lemma date_range_anchor (a b : Z) :
  (a <= b)%Z ->
  hd_error (date_range a b) = Some a /\
  (last (date_range a b) a <= b < last (date_range a b) a + hour)%Z /\
  (last (date_range a b) a = b <-> ((b - a) mod hour = 0)%Z).
Proof.
  intros H. split; [now apply date_range_hd|].
  rewrite date_range_last by assumption.
  pose proof hour_pos as Hh.
  pose proof (Z.div_mod (b - a) hour ltac:(lia)) as Hdm.
  pose proof (Z.mod_pos_bound (b - a) hour Hh) as Hb.
  split; [|split]; nia.
Qed.

Lemma hourly_range_Ok (idx : list Timestamp) (l : list Z) :
  hourly_range idx = Ok l ->
  exists a b, hd_error idx = Some (At a) /\ last idx NaT = At b /\ l = date_range a b.
Proof.
  unfold hourly_range. destruct idx as [|first rest]; [discriminate|].
  destruct first as [|a]; [discriminate|].
  destruct (last (At a :: rest) NaT) as [|b] eqn:E; [discriminate|].
  intros H. injection H as <-. exists a, b. auto.
Qed.

Lemma hourly_range_anchored (idx : list Timestamp) (l : list Z) :
  hourly_range idx = Ok l -> anchored idx l.
Proof.
  intros H. apply hourly_range_Ok in H. destruct H as (a & b & Hh & Hl & ->).
  exists a, b. repeat split; auto using date_range_empty; now apply date_range_anchor.
Qed.

Lemma reindex_Ok (s : Series) (new_index : list Z) (T : Table) :
  reindex s new_index = Ok T ->
  is_unique (sindex s) = true /\
  T = mkTable new_index
        (map (fun lc => (fst lc, map (take (sindex s) (snd lc)) new_index)) (scols s)).
Proof.
  unfold reindex. destruct (is_unique (sindex s)); [|discriminate].
  intros H. injection H as <-. auto.
Qed.

(** ** Labels *)

Lemma count_label_0 (l : string) (labels : list string) :
  count_label l labels = 0%nat -> forall x, In x labels -> String.eqb x l = false.
Proof.
  unfold count_label. induction labels as [|y labels IH]; simpl; [tauto|].
  destruct (String.eqb l y) eqn:E; simpl; [discriminate|].
  intros H x [<-|Hx]; [now rewrite String.eqb_sym | auto].
Qed.

Lemma count_label_cons (l x : string) (labels : list string) :
  count_label l (x :: labels)
  = ((if String.eqb l x then 1 else 0) + count_label l labels)%nat.
Proof.
  unfold count_label. simpl. now destruct (String.eqb l x).
Qed.

(** ** Looking a stamp up in an index *)

Lemma Timestamp_eqb_eq (a b : Timestamp) : Timestamp_eqb a b = true <-> a = b.
Proof.
  destruct a as [|x], b as [|y]; simpl; split; intros H;
    try reflexivity; try discriminate.
  - apply Z.eqb_eq in H. now subst.
  - injection H as ->. apply Z.eqb_refl.
Qed.

Lemma find_index_absent (x : Timestamp) (l : list Timestamp) :
  ~ In x l -> find_index (Timestamp_eqb x) l = None.
Proof.
  induction l as [|a l IH]; simpl; intros H; [reflexivity|].
  destruct (Timestamp_eqb x a) eqn:E.
  - apply Timestamp_eqb_eq in E. subst. tauto.
  - rewrite IH by tauto. reflexivity.
Qed.

Lemma existsb_present (x : Timestamp) (l : list Timestamp) :
  In x l -> existsb (Timestamp_eqb x) l = true.
Proof.
  intros H. apply existsb_exists. exists x. split; [assumption|].
  now apply Timestamp_eqb_eq.
Qed.

Lemma find_index_unique (x : Timestamp) (l : list Timestamp) (j : nat) :
  is_unique l = true -> nth_error l j = Some x ->
  find_index (Timestamp_eqb x) l = Some j.
Proof.
  revert j. induction l as [|a l IH]; intros [|j]; simpl; try discriminate.
  - intros _ H. injection H as ->.
    now rewrite (proj2 (Timestamp_eqb_eq x x) eq_refl).
  - intros Hu Hj. apply andb_prop in Hu. destruct Hu as (Ha & Hu).
    destruct (Timestamp_eqb x a) eqn:E.
    + apply Timestamp_eqb_eq in E. subst a.
      rewrite existsb_present in Ha by (eapply nth_error_In; eauto). discriminate.
    + rewrite (IH j Hu Hj). reflexivity.
Qed.

Lemma take_shift (g : num -> num) (idx : list Timestamp) (col : list num) (t : Z) :
  g NaN = NaN -> take idx (map g col) t = g (take idx col t).
Proof.
  intros Hg. unfold take. destruct (find_index _ idx) as [i|]; [|now rewrite Hg].
  rewrite <- Hg at 1. apply map_nth.
Qed.

Lemma reindex_reindexed (s : Series) (l : list Z) (T : Table) :
  reindex s l = Ok T -> reindexed s T.
Proof.
  intros H. apply reindex_Ok in H. destruct H as (Hu & ->). split; simpl.
  - rewrite map_map. reflexivity.
  - intros k i t Hk Hi. unfold value_at.
    rewrite nth_error_map.
    destruct (nth_error (scols s) k) as [[lb col]|] eqn:Ek;
      [|apply nth_error_None in Ek; lia].
    simpl. rewrite nth_error_map, Hi. simpl. split.
    + intros Hn. unfold take. now rewrite find_index_absent.
    + intros j v Hj Hv. unfold take. rewrite (find_index_unique _ _ _ Hu Hj).
      f_equal. now apply nth_error_nth.
Qed.

Lemma num_add_0 (v : num) : num_eq (num_add v (Val 0)) v.
Proof.
  destruct v as [|q]; simpl; [exact I | apply Qplus_0_r].
Qed.

Lemma shift_0 (T : Table) : table_rel num_eq (shift (Val 0) T) T.
Proof.
  split; [reflexivity|]. unfold shift, cols_rel. simpl.
  induction (tcols T) as [|[l col] cols IH]; simpl; constructor; auto.
  simpl. split; [reflexivity|].
  induction col; simpl; constructor; auto using num_add_0.
Qed.

(** ** Scanning a column *)

Lemma cell_is_true (s : string) (c : Cell) : cell_is s c = true <-> c = Str s.
Proof.
  destruct c as [t|x]; simpl; split; intros H; try discriminate.
  - apply String.eqb_eq in H. now subst.
  - injection H as ->. apply String.eqb_refl.
Qed.

Lemma cell_is_false (s : string) (c : Cell) : c <> Str s -> cell_is s c = false.
Proof.
  intros H. destruct (cell_is s c) eqn:E; [|reflexivity].
  apply cell_is_true in E. contradiction.
Qed.

Lemma find_index_none {A} (p : A -> bool) (l : list A) :
  (forall x, In x l -> p x = false) -> find_index p l = None.
Proof.
  induction l as [|a l IH]; simpl; intros H; [reflexivity|].
  rewrite (H a) by auto. rewrite IH by auto. reflexivity.
Qed.

Lemma find_index_first {A} (p : A -> bool) (l : list A) (h : nat) (x : A) :
  nth_error l h = Some x -> p x = true ->
  (forall h' y, (h' < h)%nat -> nth_error l h' = Some y -> p y = false) ->
  find_index p l = Some h.
Proof.
  revert h. induction l as [|a l IH]; intros [|h]; simpl; try discriminate.
  - intros E Hx _. injection E as ->. now rewrite Hx.
  - intros E Hx Hb. rewrite (Hb 0%nat a) by (simpl; auto with arith).
    rewrite (IH h E Hx); [reflexivity|].
    intros h' y Hh' Hy. apply (Hb (S h') y); [lia | exact Hy].
Qed.

Lemma filter_seq_none (p : nat -> bool) (start n : nat) :
  (forall j, (start <= j < start + n)%nat -> p j = false) ->
  filter p (seq start n) = [].
Proof.
  revert start. induction n as [|n IH]; intros start H; simpl; [reflexivity|].
  rewrite H by lia. apply IH. intros j Hj. apply H. lia.
Qed.

Lemma filter_seq_one (p : nat -> bool) (start n j : nat) :
  (start <= j < start + n)%nat -> p j = true ->
  (forall j', (start <= j' < start + n)%nat -> p j' = true -> j' = j) ->
  filter p (seq start n) = [j].
Proof.
  revert start. induction n as [|n IH]; intros start Hj Hp Hu; [lia|].
  simpl. destruct (Nat.eq_dec start j) as [->|Hne].
  - rewrite Hp. f_equal. apply filter_seq_none. intros j' Hj'.
    destruct (p j') eqn:E; [|reflexivity].
    apply Hu in E; lia.
  - destruct (p start) eqn:E.
    + apply Hu in E; lia.
    + apply IH; [lia | assumption |]. intros j' Hj'. apply Hu. lia.
Qed.

Lemma positions_record (labels : list Cell) (j : nat) :
  record_column labels j -> positions "RECORD" labels = [j].
Proof.
  intros (Hj & Hu). unfold positions. apply filter_seq_one.
  - pose proof (proj1 (nth_error_Some labels j)) as H.
    rewrite Hj in H. specialize (H ltac:(discriminate)). lia.
  - apply cell_is_true. now apply nth_error_nth.
  - intros j' Hj' E. apply cell_is_true in E. apply Hu.
    rewrite <- E. apply nth_error_nth'. lia.
Qed.

Lemma locate_fails (df : DataFrame) :
  no_timestamp_row df \/ no_record_zero df -> locate df = Raise IndexError.
Proof.
  unfold locate, first_row. intros [H|(h & labels & j & (Hh & Ht & Hb) & Hr & Hz)].
  - rewrite find_index_none; [reflexivity|].
    intros x Hx. unfold column in Hx. apply in_map_iff in Hx.
    destruct Hx as (r & <- & Hr). apply cell_is_false. now apply H.
  - rewrite (find_index_first _ _ h (nth 0 labels (Num NaN))).
    + simpl. rewrite (nth_error_nth _ _ _ Hh).
      unfold first_record. rewrite (positions_record _ _ Hr).
      unfold first_row. rewrite find_index_none; [reflexivity|].
      intros x Hx. unfold column in Hx. apply in_map_iff in Hx.
      destruct Hx as (r & <- & Hin). apply cell_is_false. now apply Hz.
    + unfold column. rewrite nth_error_map, Hh. reflexivity.
    + now apply cell_is_true.
    + intros h' y Hh' Hy. unfold column in Hy. rewrite nth_error_map in Hy.
      destruct (nth_error (rows df) h') as [r|] eqn:Er; [|discriminate].
      injection Hy as <-. apply cell_is_false. eapply Hb; eauto.
Qed.

Lemma cleaned_value str_to_num offset rn times cols k j c :
  cell_at cols k j = Some c ->
  value_at (scols (cleaned str_to_num offset rn times cols)) k j
  = Some (offset (to_numeric str_to_num c)).
Proof.
  unfold cell_at, value_at, cleaned. simpl. rewrite nth_error_map.
  destruct (nth_error cols k) as [[l col]|]; [|discriminate]. simpl.
  rewrite nth_error_map. now intros ->.
Qed.

Section Properties.

Variable str_to_num : string -> option num.
Variable to_datetime : Cell -> option Timestamp.

Local Abbreviation to_numeric := (to_numeric str_to_num).
Local Abbreviation clean_subsets := (clean_subsets str_to_num).
Local Abbreviation set_index_Time := (set_index_Time str_to_num).
Local Abbreviation coerced_columns := (coerced_columns str_to_num).
Local Abbreviation cleaned := (cleaned str_to_num).
Local Abbreviation raw_subsets := (raw_subsets to_datetime).
Local Abbreviation prepare_with := (prepare_with str_to_num to_datetime).
Local Abbreviation clean_with := (clean_with str_to_num to_datetime).
Local Abbreviation cleanup_with := (cleanup_with str_to_num to_datetime).
Local Abbreviation cleanup_redox := (cleanup_redox str_to_num to_datetime).
Local Abbreviation after_set_index := (after_set_index str_to_num to_datetime).
Local Abbreviation before_reindex := (before_reindex str_to_num to_datetime).
Local Abbreviation parsed_raw := (parsed_raw str_to_num to_datetime).

Lemma count_label_forallb (g : string -> string) (l : string) (labels : list string) :
  forallb (fun x => negb (String.eqb (g x) l)) labels
  = Nat.eqb (count_label l (map g labels)) 0.
Proof.
  unfold count_label. induction labels as [|y labels IH]; simpl; [reflexivity|].
  rewrite (String.eqb_sym (g y) l). destruct (String.eqb l (g y)); simpl; auto.
Qed.

Lemma renamed_labels_map rename (cols : list (string * list Cell)) :
  renamed_labels rename cols = map (rename_label rename) ("Time" :: map fst cols).
Proof. unfold renamed_labels. simpl. now rewrite map_map. Qed.

Lemma other_index_not_stamped rename labels s :
  other_index rename labels <> Ok (Stamped s).
Proof.
  unfold other_index.
  now destruct (count_label "Time" (map (rename_label rename) ("Time" :: labels)))
    as [|[|n]].
Qed.

Lemma coerced_columns_keeps offset rename cols :
  keeps_time rename (map fst cols) = true ->
  coerced_columns offset rename cols
  = map (fun lc => (rename_label rename (fst lc),
                    map (fun c => offset (to_numeric c)) (snd lc))) cols.
Proof.
  unfold keeps_time, coerced_columns. intros H. apply andb_true_iff in H.
  destruct H as (_ & H). rewrite forallb_forall in H.
  rewrite !map_map. apply map_ext_in. intros [l c] Hin. cbn [fst snd].
  specialize (H l (in_map fst _ _ Hin)). apply negb_true_iff in H.
  cbn [fst snd] in H. rewrite H. cbn [fst snd]. f_equal.
  rewrite map_map. reflexivity.
Qed.

Lemma set_index_Time_eq offset rename times cols :
  set_index_Time offset rename times cols
  = if keeps_time rename (map fst cols)
    then Ok (Stamped (cleaned offset rename times cols))
    else other_index rename (map fst cols).
Proof.
  destruct (keeps_time rename (map fst cols)) eqn:K.
  - unfold set_index_Time. unfold cleaned. rewrite <- (coerced_columns_keeps _ _ _ K).
    unfold keeps_time in K. apply andb_true_iff in K. destruct K as (K1 & K2).
    rewrite count_label_forallb in K2. apply Nat.eqb_eq in K2.
    rewrite renamed_labels_map, map_cons, count_label_cons, K2.
    rewrite (String.eqb_sym "Time"), K1. reflexivity.
  - unfold set_index_Time, other_index. rewrite renamed_labels_map.
    unfold keeps_time in K. rewrite count_label_forallb in K.
    rewrite map_cons, count_label_cons in *.
    rewrite (String.eqb_sym "Time").
    destruct (String.eqb (rename_label rename "Time") "Time");
      destruct (count_label "Time" (map (rename_label rename) (map fst cols)))
        as [|[|n]]; try reflexivity; discriminate.
Qed.

Lemma filter_forallb {A} (f : A -> bool) (l : list A) :
  forallb f l = true -> filter f l = l.
Proof.
  induction l as [|a l IH]; simpl; [reflexivity|].
  destruct (f a); simpl; [|discriminate]. intros H. now rewrite IH.
Qed.

Lemma forallb_over_map {A B} (f : B -> bool) (g : A -> B) (l : list A) :
  forallb f (map g l) = forallb (fun x => f (g x)) l.
Proof.
  induction l as [|a l IH]; simpl; [reflexivity | now rewrite IH].
Qed.

Lemma selected_keeps rename (cols : list (string * list Cell)) :
  keeps_time rename (map fst cols) = true ->
  selected (renamed_labels rename cols) = map (rename_label rename) (map fst cols).
Proof.
  unfold keeps_time. intros K. apply andb_true_iff in K. destruct K as (K1 & K2).
  rewrite renamed_labels_map. unfold selected. simpl. rewrite K1. simpl.
  apply filter_forallb. rewrite forallb_over_map. exact K2.
Qed.

Lemma assign_coerced_labels rename (cols cols' : list (string * list Cell)) :
  map fst cols' = map fst cols -> assign_coerced rename cols' = assign_coerced rename cols.
Proof.
  intros H. unfold assign_coerced. now rewrite !renamed_labels_map, H.
Qed.

(** ** The stages of [cleanup_redox] *)

Lemma cleanup_with_stages offset p c rn :
  cleanup_with offset p c rn
  = (binding <- load p c ;;
     dataframe <- lookup_local binding ;;
     raw <- raw_subsets dataframe ;;
     s <- clean_subsets offset rn raw ;;
     regularize s).
Proof.
  unfold cleanup_with, clean_with, prepare_with.
  destruct (load p c) as [[df|]|e]; simpl; try reflexivity.
  destruct (raw_subsets df); reflexivity.
Qed.

Lemma regularize_stamped dr dt r t :
  regularize (dr, dt) = Ok (r, t) ->
  exists sr st, dr = Stamped sr /\ dt = Stamped st.
Proof.
  unfold regularize. cbn [fst snd]. intros H.
  destruct dr as [sr| |]; try discriminate.
  inv_bind H. destruct dt as [st| |]; try discriminate. eauto.
Qed.

Lemma cleanup_redox_Ok p c corr rn r t :
  cleanup_redox p c corr rn = Ok (r, t) ->
  exists sr st,
    before_reindex p c corr rn = Ok (sr, st) /\
    regularize (Stamped sr, Stamped st) = Ok (r, t).
Proof.
  unfold cleanup_redox, cleanup_with, before_reindex, after_set_index, clean_with.
  destruct (load p c) as [[df|]|e]; cbn [bind lookup_local]; try discriminate.
  destruct (prepare_with (fun v => num_add v corr) df rn) as [[dr dt]|e];
    cbn [bind]; [|discriminate].
  intros H. destruct (regularize_stamped _ _ _ _ H) as (sr & st & -> & ->).
  exists sr, st. split; [reflexivity | exact H].
Qed.

Lemma cleanup_redox_after p c corr rn sr st :
  before_reindex p c corr rn = Ok (sr, st) ->
  cleanup_redox p c corr rn = regularize (Stamped sr, Stamped st).
Proof.
  unfold cleanup_redox, cleanup_with, before_reindex, after_set_index, clean_with.
  destruct (load p c) as [[df|]|e]; cbn [bind lookup_local]; try discriminate.
  destruct (prepare_with (fun v => num_add v corr) df rn) as [[dr dt]|e];
    cbn [bind]; [|discriminate].
  destruct dr as [s1| |]; cbn [bind fst snd stamped]; try discriminate.
  destruct dt as [s2| |]; cbn [bind fst snd stamped]; try discriminate.
  intros H. injection H as -> ->. reflexivity.
Qed.

Lemma clean_subsets_Ok offset rn times redox temp sr st :
  clean_subsets offset rn (times, redox, temp) = Ok (Stamped sr, Stamped st) ->
  keeps_time rn (map fst redox) = true /\
  keeps_time rn (map fst temp) = true /\
  sr = cleaned offset rn times redox /\
  st = cleaned (fun v => v) rn times temp.
Proof.
  unfold clean_subsets. rewrite !set_index_Time_eq. intros H.
  inv_bind H. inv_bind H. inv_bind H. inv_bind H. injection H as -> ->.
  destruct (keeps_time rn (map fst redox));
    [|now apply other_index_not_stamped in Ha1].
  destruct (keeps_time rn (map fst temp));
    [|now apply other_index_not_stamped in Ha2].
  injection Ha1 as <-. injection Ha2 as <-. auto.
Qed.

Lemma clean_subsets_distinct offset rn times redox temp sr st :
  clean_subsets offset rn (times, redox, temp) = Ok (Stamped sr, Stamped st) ->
  distinct (map (rename_label rn) (map fst redox)) = true /\
  distinct (map (rename_label rn) (map fst temp)) = true.
Proof.
  intros H. destruct (clean_subsets_Ok _ _ _ _ _ _ _ H) as (Kr & Kt & _).
  unfold clean_subsets, assign_coerced in H.
  rewrite (selected_keeps _ _ Kr), (selected_keeps _ _ Kt) in H.
  destruct (distinct (map (rename_label rn) (map fst redox))); [|discriminate].
  destruct (distinct (map (rename_label rn) (map fst temp))); [|discriminate].
  auto.
Qed.

Lemma clean_subsets_keeps offset rn times redox temp :
  keeps_time rn (map fst redox) = true ->
  keeps_time rn (map fst temp) = true ->
  clean_subsets offset rn (times, redox, temp)
  = if distinct (map (rename_label rn) (map fst redox))
       && distinct (map (rename_label rn) (map fst temp))
    then Ok (Stamped (cleaned offset rn times redox),
             Stamped (cleaned (fun v => v) rn times temp))
    else Raise ValueError.
Proof.
  intros Kr Kt. unfold clean_subsets, assign_coerced.
  rewrite !set_index_Time_eq, (selected_keeps _ _ Kr), (selected_keeps _ _ Kt), Kr, Kt.
  destruct (distinct (map (rename_label rn) (map fst redox))); [|reflexivity].
  destruct (distinct (map (rename_label rn) (map fst temp))); reflexivity.
Qed.

Lemma after_set_index_Ok p c corr rn dr dt :
  after_set_index p c corr rn = Ok (dr, dt) ->
  exists df times redox temp,
    load p c = Ok (Some df) /\
    raw_subsets df = Ok (times, redox, temp) /\
    clean_subsets (fun v => num_add v corr) rn (times, redox, temp) = Ok (dr, dt).
Proof.
  unfold after_set_index, prepare_with. intros H.
  inv_bind H. inv_bind H. inv_bind H.
  destruct a as [df|]; [|discriminate]. injection Ha0 as ->.
  destruct a1 as [[times redox] temp].
  exists a0, times, redox, temp. auto.
Qed.

Lemma before_reindex_after p c corr rn sr st :
  before_reindex p c corr rn = Ok (sr, st) <->
  after_set_index p c corr rn = Ok (Stamped sr, Stamped st).
Proof.
  unfold before_reindex.
  destruct (after_set_index p c corr rn) as [[dr dt]|e]; cbn [bind fst snd];
    [|split; discriminate].
  destruct dr as [s1| |]; cbn [bind stamped]; try (split; discriminate).
  destruct dt as [s2| |]; cbn [bind stamped]; try (split; discriminate).
  split; intros H; injection H as -> ->; reflexivity.
Qed.

Lemma before_reindex_Ok p c corr rn sr st :
  before_reindex p c corr rn = Ok (sr, st) ->
  exists df times redox temp,
    load p c = Ok (Some df) /\
    raw_subsets df = Ok (times, redox, temp) /\
    keeps_time rn (map fst redox) = true /\
    keeps_time rn (map fst temp) = true /\
    sr = cleaned (fun v => num_add v corr) rn times redox /\
    st = cleaned (fun v => v) rn times temp.
Proof.
  intros H. apply before_reindex_after, after_set_index_Ok in H.
  destruct H as (df & times & redox & temp & Hl & Hr & H).
  apply clean_subsets_Ok in H. exists df, times, redox, temp. tauto.
Qed.

Lemma regularize_Ok sr st r t :
  regularize (Stamped sr, Stamped st) = Ok (r, t) ->
  exists lr lt,
    hourly_range (sindex sr) = Ok lr /\ hourly_range (sindex st) = Ok lt /\
    reindex sr lr = Ok r /\ reindex st lt = Ok t.
Proof.
  unfold regularize. simpl. intros H.
  inv_bind H. inv_bind H. inv_bind H. inv_bind H. injection H as <- <-.
  eauto 8.
Qed.

Lemma hourly_grid sr l T :
  hourly_range (sindex sr) = Ok l -> reindex sr l = Ok T ->
  hourly_grid_of (sindex sr) (index T).
Proof.
  intros Hl HT. apply reindex_Ok in HT. destruct HT as (_ & ->). simpl.
  pose proof (hourly_range_anchored _ _ Hl) as Ha.
  apply hourly_range_Ok in Hl. destruct Hl as (a & b & _ & _ & ->).
  repeat split; auto using date_range_hourly, date_range_increasing,
    increasing_NoDup.
Qed.

(** C1, as the code has it. Each table [cleanup_redox] returns has an
    index that is strictly increasing in steps of one hour, without
    duplicates; it starts at the first stamp of its subset and stops at
    the last hourly step not after the subset's last stamp, which is that
    stamp exactly when it lies a whole number of hours after the first;
    it is empty when the last stamp precedes the first. *)
Theorem cleanup_redox_hourly_index p c corr rn r t :
  cleanup_redox p c corr rn = Ok (r, t) ->
  exists sr st,
    before_reindex p c corr rn = Ok (sr, st) /\
    hourly_grid_of (sindex sr) (index r) /\
    hourly_grid_of (sindex st) (index t).
Proof.
  intros H. apply cleanup_redox_Ok in H. destruct H as (sr & st & Ha & H).
  exists sr, st. split; [assumption|].
  apply regularize_Ok in H. destruct H as (lr & lt & Hr & Ht & Rr & Rt).
  eauto using hourly_grid.
Qed.

(** C10. The two tables [cleanup_redox] returns have the same index:
    both subsets carry the one Time column, so the two hourly ranges are
    computed from the same first and last stamps. *)
Theorem cleanup_redox_same_index p c corr rn r t :
  cleanup_redox p c corr rn = Ok (r, t) -> index r = index t.
Proof.
  intros H. apply cleanup_redox_Ok in H. destruct H as (sr & st & Ha & H).
  apply before_reindex_Ok in Ha.
  destruct Ha as (df & times & redox & temp & _ & _ & _ & _ & -> & ->).
  apply regularize_Ok in H. destruct H as (lr & lt & Hr & Ht & Rr & Rt).
  simpl in Hr, Ht. rewrite Hr in Ht. injection Ht as <-.
  apply reindex_Ok in Rr, Rt. destruct Rr as (_ & ->), Rt as (_ & ->).
  reflexivity.
Qed.

(** C2, as the code has it. The reindexing of [cleanup_redox] gives the
    marker to every hour of the computed range that the source data lack,
    in every column, and keeps the value the source holds at every stamp
    of the source that lies on the computed range. (A row of the source
    whose stamp is not on the range is not in the table.) *)
Theorem cleanup_redox_reindexing p c corr rn r t :
  cleanup_redox p c corr rn = Ok (r, t) ->
  exists sr st,
    before_reindex p c corr rn = Ok (sr, st) /\
    reindexed sr r /\ reindexed st t.
Proof.
  intros H. apply cleanup_redox_Ok in H. destruct H as (sr & st & Ha & H).
  exists sr, st. split; [assumption|].
  apply regularize_Ok in H. destruct H as (lr & lt & _ & _ & Rr & Rt).
  eauto using reindex_reindexed.
Qed.

Lemma regularize_shift corr rn times redox (d : Indexed) :
  regularize (Stamped (cleaned (fun v => num_add v corr) rn times redox), d)
  = match regularize (Stamped (cleaned (fun v => v) rn times redox), d) with
    | Ok (R, T) => Ok (shift corr R, T)
    | Raise e => Raise e
    end.
Proof.
  unfold regularize, reindex_subset, index_range, reindex. cbn [fst snd sindex cleaned].
  destruct (hourly_range times) as [l|e]; cbn [bind]; [|reflexivity].
  destruct d as [s| |]; cbn [bind]; try reflexivity.
  destruct (hourly_range (sindex s)) as [l'|e]; cbn [bind]; [|reflexivity].
  destruct (is_unique times); cbn [bind]; [|reflexivity].
  destruct (is_unique (sindex s)); cbn [bind]; [|reflexivity].
  unfold shift, cleaned. cbn [index tcols scols]. do 3 f_equal.
  rewrite !map_map. apply map_ext. intros [lb col]. cbn [fst snd]. f_equal.
  rewrite map_map. apply map_ext. intros t.
  rewrite <- (map_map to_numeric (fun v => num_add v corr)).
  now rewrite take_shift.
Qed.

Lemma regularize_unstamped (dr dt : Indexed) :
  (forall s, dr <> Stamped s) ->
  regularize (dr, dt) = match dr with
                        | TwoLevel => Raise TypeError
                        | _ => Raise ValueError
                        end.
Proof.
  intros H. destruct dr as [s| |]; [now elim (H s) | reflexivity | reflexivity].
Qed.

Lemma cleanup_redox_shift p c corr rn :
  cleanup_redox p c corr rn
  = match parsed_raw p c rn with
    | Ok (R, T) => Ok (shift corr R, T)
    | Raise e => Raise e
    end.
Proof.
  unfold cleanup_redox, parsed_raw. rewrite !cleanup_with_stages.
  destruct (load p c) as [[df|]|e]; simpl; try reflexivity.
  destruct (raw_subsets df) as [[[times redox] temp]|e]; simpl; [|reflexivity].
  unfold clean_subsets.
  destruct (assign_coerced rn redox) as [[]|e]; cbn [bind]; [|reflexivity].
  destruct (assign_coerced rn temp) as [[]|e]; cbn [bind]; [|reflexivity].
  rewrite !set_index_Time_eq.
  destruct (keeps_time rn (map fst redox)); cbn [bind].
  - destruct (if keeps_time rn (map fst temp)
              then Ok (Stamped (cleaned (fun v => v) rn times temp))
              else other_index rn (map fst temp)) as [dt|e]; cbn [bind]; [|reflexivity].
    apply regularize_shift.
  - destruct (other_index rn (map fst redox)) as [dr|e] eqn:E; cbn [bind]; [|reflexivity].
    destruct (if keeps_time rn (map fst temp)
              then Ok (Stamped (cleaned (fun v => v) rn times temp))
              else other_index rn (map fst temp)) as [dt|e]; cbn [bind]; [|reflexivity].
    rewrite regularize_unstamped.
    + now destruct dr.
    + intros s ->. now apply other_index_not_stamped in E.
Qed.

Lemma regularize_outcome sr st sr' st' :
  sindex sr' = sindex sr -> sindex st' = sindex st ->
  outcome (regularize (Stamped sr', Stamped st'))
  = outcome (regularize (Stamped sr, Stamped st)).
Proof.
  unfold regularize, reindex_subset, index_range, reindex. simpl. intros -> ->.
  destruct (hourly_range (sindex sr)); simpl; [|reflexivity].
  destruct (hourly_range (sindex st)); simpl; [|reflexivity].
  destruct (is_unique (sindex sr)); simpl; [|reflexivity].
  destruct (is_unique (sindex st)); reflexivity.
Qed.

Lemma regularize_outcome_other sr sr' (d : Indexed) :
  (forall s, d <> Stamped s) -> sindex sr' = sindex sr ->
  outcome (regularize (Stamped sr', d)) = outcome (regularize (Stamped sr, d)).
Proof.
  unfold regularize, reindex_subset, index_range. cbn [fst snd]. intros H ->.
  destruct (hourly_range (sindex sr)); cbn [bind]; [|reflexivity].
  destruct d as [s| |]; [now elim (H s) | reflexivity | reflexivity].
Qed.

Lemma finish_outcome offset rn times redox temp redox' temp' :
  map fst redox' = map fst redox -> map fst temp' = map fst temp ->
  outcome (s <- clean_subsets offset rn (times, redox', temp') ;; regularize s)
  = outcome (s <- clean_subsets offset rn (times, redox, temp) ;; regularize s).
Proof.
  intros Hr Ht. unfold clean_subsets.
  rewrite (assign_coerced_labels rn _ _ Hr), (assign_coerced_labels rn _ _ Ht).
  destruct (assign_coerced rn redox) as [[]|e]; cbn [bind]; [|reflexivity].
  destruct (assign_coerced rn temp) as [[]|e]; cbn [bind]; [|reflexivity].
  rewrite !set_index_Time_eq, Hr, Ht.
  destruct (keeps_time rn (map fst redox)); cbn [bind].
  - destruct (keeps_time rn (map fst temp)); cbn [bind].
    + now apply regularize_outcome.
    + destruct (other_index rn (map fst temp)) as [dt|e] eqn:E; cbn [bind];
        [|reflexivity].
      apply regularize_outcome_other; [|reflexivity].
      intros s ->. now apply other_index_not_stamped in E.
  - destruct (other_index rn (map fst redox)) as [dr|e] eqn:E; cbn [bind];
      [|reflexivity].
    assert (Hd : forall s, dr <> Stamped s)
      by (intros s ->; now apply other_index_not_stamped in E).
    destruct (keeps_time rn (map fst temp)); cbn [bind].
    + now rewrite !regularize_unstamped.
    + destruct (other_index rn (map fst temp)); reflexivity.
Qed.

Lemma cleanup_redox_from_raw p c corr rn df raw :
  load p c = Ok (Some df) -> raw_subsets df = Ok raw ->
  cleanup_redox p c corr rn
  = (s <- clean_subsets (fun v => num_add v corr) rn raw ;; regularize s).
Proof.
  intros Hl Hr. unfold cleanup_redox. rewrite cleanup_with_stages, Hl. simpl.
  now rewrite Hr.
Qed.

Lemma unparsable_is_NaN s : str_to_num s = None -> to_numeric (Str s) = NaN.
Proof. intros H. simpl. now rewrite H. Qed.

Lemma before_reindex_from_raw p c corr rn df times redox temp sr st :
  load p c = Ok (Some df) -> raw_subsets df = Ok (times, redox, temp) ->
  before_reindex p c corr rn = Ok (sr, st) ->
  sr = cleaned (fun v => num_add v corr) rn times redox /\
  st = cleaned (fun v => v) rn times temp.
Proof.
  intros Hl Hr H. apply before_reindex_Ok in H.
  destruct H as (df' & times' & redox' & temp' & Hl' & Hr' & _ & _ & -> & ->).
  rewrite Hl in Hl'. injection Hl' as <-. rewrite Hr in Hr'.
  injection Hr' as <- <- <-. auto.
Qed.

(** C4. Let the file be read and its two subsets of raw columns be
    found. Then the text of the measurement cells never decides whether
    [cleanup_redox] raises: with any other cells under the same labels
    the rest of the function returns or raises just as it does on the
    file. Every cell of either subset that is not parsable as a number is
    the marker after the coercion (line 77), and in the table that is
    returned it is the marker at the row of its stamp. *)
Theorem coercion_never_raises p c corr rn df times redox temp :
  load p c = Ok (Some df) ->
  raw_subsets df = Ok (times, redox, temp) ->
  (forall redox' temp',
      map fst redox' = map fst redox -> map fst temp' = map fst temp ->
      outcome (s <- clean_subsets (fun v => num_add v corr) rn (times, redox', temp') ;;
               regularize s)
      = outcome (cleanup_redox p c corr rn)) /\
  (forall sr st,
      before_reindex p c corr rn = Ok (sr, st) ->
      forall k j s,
        str_to_num s = None ->
        (cell_at redox k j = Some (Str s) -> value_at (scols sr) k j = Some NaN) /\
        (cell_at temp k j = Some (Str s) -> value_at (scols st) k j = Some NaN)) /\
  (forall r t,
      cleanup_redox p c corr rn = Ok (r, t) ->
      forall k j s i ts,
        str_to_num s = None ->
        nth_error times j = Some (At ts) ->
        (cell_at redox k j = Some (Str s) ->
         nth_error (index r) i = Some ts -> value_at (tcols r) k i = Some NaN) /\
        (cell_at temp k j = Some (Str s) ->
         nth_error (index t) i = Some ts -> value_at (tcols t) k i = Some NaN)).
Proof.
  intros Hl Hraw.
  assert (Hser : forall sr st,
             before_reindex p c corr rn = Ok (sr, st) ->
             forall k j s,
               str_to_num s = None ->
               (cell_at redox k j = Some (Str s) -> value_at (scols sr) k j = Some NaN) /\
               (cell_at temp k j = Some (Str s) -> value_at (scols st) k j = Some NaN)).
  { intros sr st H k j s Hs.
    destruct (before_reindex_from_raw _ _ _ _ _ _ _ _ _ _ Hl Hraw H) as (-> & ->).
    split; intros Hc.
    - rewrite (cleaned_value _ _ _ _ _ _ _ _ Hc), (unparsable_is_NaN _ Hs).
      reflexivity.
    - rewrite (cleaned_value _ _ _ _ _ _ _ _ Hc), (unparsable_is_NaN _ Hs).
      reflexivity. }
  split; [|split; [exact Hser|]].
  { intros redox' temp' Er Et.
    rewrite (cleanup_redox_from_raw _ _ corr rn _ _ Hl Hraw).
    now apply finish_outcome. }
  intros r t H k j s i ts Hs Hj.
  apply cleanup_redox_Ok in H. destruct H as (sr & st & Ha & H).
  pose proof (Hser sr st Ha k j s Hs) as (Vr & Vt).
  destruct (before_reindex_from_raw _ _ _ _ _ _ _ _ _ _ Hl Hraw Ha) as (Er & Et).
  apply regularize_Ok in H. destruct H as (lr & lt & _ & _ & Rr & Rt).
  apply reindex_reindexed in Rr, Rt.
  destruct Rr as (_ & Rr), Rt as (_ & Rt).
  assert (Hlen : forall cols k', cell_at cols k' j = Some (Str s) ->
                                 (k' < List.length cols)%nat).
  { intros cols k' Hc. unfold cell_at in Hc. apply nth_error_Some.
    destruct (nth_error cols k'); discriminate. }
  split; intros Hc Hi.
  - apply (proj2 (Rr k i ts
                    ltac:(rewrite Er; simpl; rewrite length_map; now apply Hlen) Hi)
                 j NaN); [rewrite Er; exact Hj | now apply Vr].
  - apply (proj2 (Rt k i ts
                    ltac:(rewrite Et; simpl; rewrite length_map; now apply Hlen) Hi)
                 j NaN); [rewrite Et; exact Hj | now apply Vt].
Qed.

(** C5. On a parsed table without a row whose first cell is TIMESTAMP,
    or with a header and a RECORD column but no row holding the text 0
    in it, [cleanup_redox] raises IndexError; it returns no table. *)
Theorem missing_header_or_start_raises p c corr rn df :
  load p c = Ok (Some df) ->
  no_timestamp_row df \/ no_record_zero df ->
  cleanup_redox p c corr rn = Raise IndexError.
Proof.
  intros Hl H. unfold cleanup_redox. rewrite cleanup_with_stages, Hl. simpl.
  unfold raw_subsets. now rewrite (locate_fails df H).
Qed.

Lemma clean_with_rows offset rn df df' :
  rows df' = rows df -> clean_with offset df' rn = clean_with offset df rn.
Proof.
  intros H. unfold clean_with, prepare_with, raw_subsets, locate. now rewrite H.
Qed.

(** C7. Whatever the path, the frame that is scanned for TIMESTAMP holds
    the lines of the file after the first, and only those: all of them
    for a spreadsheet, those with a field for a delimited file. The text
    reader binds no frame exactly when no such line is left or one of
    them has more fields than the first of them. The first line has no
    effect on what [cleanup_redox] returns. *)
Theorem first_line_skipped p first others corr rn :
  match load p (Grid (first :: others)) with
  | Ok (Some df) =>
      rows df = if endswith p "xlsx" || endswith p "xls" then others
                else filter (fun line => negb (is_blank line)) others
  | Ok None =>
      endswith p "xlsx" || endswith p "xls" = false /\
      match filter (fun line => negb (is_blank line)) others with
      | [] => True
      | r :: rs => exists line,
                     In line rs /\ (List.length r < List.length line)%nat
      end
  | Raise _ => False
  end /\
  forall first',
    cleanup_redox p (Grid (first' :: others)) corr rn
    = cleanup_redox p (Grid (first :: others)) corr rn.
Proof.
  split.
  - unfold load, read_csv, parsed_lines. cbn [tl].
    destruct (endswith p "xlsx" || endswith p "xls"); cbn [read_excel bind rows];
      [reflexivity|].
    destruct (filter (fun line => negb (is_blank line)) others) as [|r rs];
      [auto|].
    destruct (forallb (fun line => (List.length line <=? List.length r)%nat) rs) eqn:E;
      [reflexivity|].
    split; [reflexivity|].
    clear -E. induction rs as [|x rs IH]; simpl in E; [discriminate|].
    destruct (List.length x <=? List.length r)%nat eqn:L; simpl in E.
    + destruct (IH E) as (line & Hin & Hlt). exists line. split; [now right | exact Hlt].
    + exists x. split; [now left|]. apply Nat.leb_gt in L. exact L.
  - intros first'. unfold cleanup_redox, cleanup_with, load.
    destruct (endswith p "xlsx" || endswith p "xls"); simpl.
    + now apply clean_with_rows.
    + reflexivity.
Qed.

(** The failure of the delimited-text reader is dropped by the bare
    [except]: no frame is bound, and line 48 raises UnboundLocalError. *)
Lemma parse_failure_swallowed p c corr rn e :
  endswith p "xlsx" || endswith p "xls" = false ->
  read_csv c = Raise e ->
  load p c = Ok None /\ cleanup_redox p c corr rn = Raise UnboundLocalError.
Proof.
  intros Hp Hc. unfold cleanup_redox, cleanup_with, load. rewrite Hp, Hc. auto.
Qed.

End Properties.

(** ** The date window *)

Lemma select_filter {A} (f : A -> bool) (l : list A) :
  select (map f l) l = filter f l.
Proof.
  induction l as [|a l IH]; simpl; [reflexivity|].
  rewrite IH. reflexivity.
Qed.

Lemma select_combine {A B} (f : A -> bool) (idx : list A) (col : list B) :
  select (map f idx) col
  = map snd (filter (fun p => f (fst p)) (combine idx col)).
Proof.
  revert col. induction idx as [|a idx IH]; intros [|b col]; simpl; try reflexivity.
  rewrite IH. now destruct (f a).
Qed.

Lemma select_rows_window (s e : Z) (df : Table) :
  select_rows (map (fun t => after (At s) t && not_after (At e) t) (index df)) df
  = rows_in_window s e df.
Proof.
  unfold select_rows, rows_in_window. f_equal.
  - apply (select_filter (in_window s e)).
  - apply map_ext. intros [l col]. simpl. f_equal.
    apply (select_combine (in_window s e)).
Qed.

Lemma in_window_spec (s e t : Z) : in_window s e t = true <-> (s < t <= e)%Z.
Proof.
  unfold in_window. rewrite andb_true_iff, Z.ltb_lt, Z.leb_le. tauto.
Qed.

(** ** The mean of a row *)

Lemma count_valid_present (vs : list num) :
  count_valid vs = List.length (present vs).
Proof.
  unfold count_valid, present. induction vs as [|[|q] vs IH]; simpl; auto.
Qed.

Lemma nansum_from (vs : list num) (acc : Q) :
  (fold_left (fun a v => a + match v with Val q => q | NaN => 0 end) vs acc
   == acc + fold_right Qplus 0 (present vs))%Q.
Proof.
  revert acc. induction vs as [|[|q] vs IH]; intros acc; simpl.
  - ring.
  - rewrite IH. ring.
  - rewrite IH. ring.
Qed.

Lemma nanmean_spec (vs : list num) : num_eq (nanmean vs) (mean_of_present vs).
Proof.
  unfold nanmean, mean_of_present. rewrite count_valid_present.
  destruct (present vs) as [|q qs] eqn:E; simpl List.length; [exact I|].
  unfold num_eq, arithmetic_mean. apply Qdiv_comp; [|reflexivity].
  unfold nansum. rewrite nansum_from, E. ring.
Qed.

(** ** Columns under a label *)

Lemma labelled_as_map {g : list num -> list num} (n : string)
    (cols : list (string * list num)) :
  labelled_as n (map (fun lc => (fst lc, g (snd lc))) cols)
  = map g (labelled_as n cols).
Proof.
  unfold labelled_as. induction cols as [|[l c] cols IH]; simpl; [reflexivity|].
  destruct (String.eqb l n); simpl; now rewrite IH.
Qed.

Lemma labelled_as_window (n : string) (s e : Z) (df : Table) :
  labelled_as n (tcols (rows_in_window s e df))
  = map (fun c => map snd (filter (fun p => in_window s e (fst p))
                                  (combine (index df) c)))
        (labelled_as n (tcols df)).
Proof.
  exact (labelled_as_map
           (g := fun c => map snd (filter (fun p => in_window s e (fst p))
                                          (combine (index df) c)))
           n (tcols df)).
Qed.

Lemma labelled_as_replace (n : string) (col : list num)
    (cols : list (string * list num)) :
  labelled_as n (map (fun lc => if String.eqb (fst lc) n then (n, col) else lc) cols)
  = map (fun _ => col) (labelled_as n cols).
Proof.
  unfold labelled_as. induction cols as [|[l c] cols IH]; simpl; [reflexivity|].
  destruct (String.eqb l n) eqn:E; simpl.
  - rewrite String.eqb_refl. simpl. now rewrite IH.
  - rewrite E. exact IH.
Qed.

Lemma labelled_as_app (n : string) (a b : list (string * list num)) :
  labelled_as n (a ++ b) = labelled_as n a ++ labelled_as n b.
Proof.
  unfold labelled_as. now rewrite filter_app, map_app.
Qed.

Lemma getitem_setitem (df : Table) (n : string) (col : list num) :
  (List.length (labelled_as n (tcols df)) <= 1)%nat ->
  getitem (setitem df n col) n = Ok [col] /\ index (setitem df n col) = index df.
Proof.
  intros H. unfold getitem, setitem.
  destruct (labelled_as n (tcols df)) as [|c0 [|c1 cs]] eqn:E; simpl in H; try lia.
  - simpl. rewrite labelled_as_app, E. unfold labelled_as. simpl.
    now rewrite String.eqb_refl.
  - simpl. now rewrite labelled_as_replace, E.
Qed.

Lemma loc_nodes_named (df : Table) (nodes : list string) :
  (forall n, In n nodes -> labelled_as n (tcols df) <> []) ->
  loc_nodes df nodes = Ok (named_columns nodes df).
Proof.
  intros H. unfold loc_nodes, named_columns.
  assert (E : mapM (getitem df) nodes
              = Ok (map (fun n => labelled_as n (tcols df)) nodes)).
  { induction nodes as [|n nodes IH]; simpl; [reflexivity|].
    unfold getitem at 1.
    destruct (labelled_as n (tcols df)) eqn:En;
      [exfalso; apply (H n); simpl; auto|].
    simpl. rewrite IH by (intros; apply H; simpl; auto). reflexivity. }
  now rewrite E.
Qed.

Section PlotProperties.

Variable str_to_datetime : string -> option Timestamp.

Local Abbreviation date_mask := (date_mask str_to_datetime).
Local Abbreviation plot_redox := (plot_redox str_to_datetime).
Local Abbreviation plot_temp := (plot_temp str_to_datetime).

Lemma date_mask_window idx start_date end_date s e :
  str_to_datetime start_date = Some (At s) ->
  str_to_datetime end_date = Some (At e) ->
  date_mask idx start_date end_date
  = Ok (map (fun t => after (At s) t && not_after (At e) t) idx).
Proof.
  intros Hs He. unfold date_mask. now rewrite Hs, He.
Qed.

Lemma plot_temp_window df nodes start_date end_date mean s e :
  str_to_datetime start_date = Some (At s) ->
  str_to_datetime end_date = Some (At e) ->
  plot_temp df nodes start_date end_date mean
  = draw_temp (rows_in_window s e df) nodes mean.
Proof.
  intros Hs He. unfold plot_temp.
  rewrite (date_mask_window _ _ _ _ _ Hs He). cbn [bind].
  now rewrite select_rows_window.
Qed.

(** C8. With start and end dates read as the stamps [s] and [e], both
    plot functions draw from exactly the rows whose stamp lies in the
    window (s, e]: a row stamped [s] is left out, and a row stamped [e]
    is kept (the window holds [e] when [s] is before [e]). *)
Theorem plots_filter_half_open df nodes start_date end_date mean s e :
  str_to_datetime start_date = Some (At s) ->
  str_to_datetime end_date = Some (At e) ->
  plot_redox df nodes start_date end_date
  = plot_nodes (rows_in_window s e df) nodes /\
  plot_temp df nodes start_date end_date mean
  = draw_temp (rows_in_window s e df) nodes mean /\
  (forall t, In t (index (rows_in_window s e df))
             <-> In t (index df) /\ (s < t <= e)%Z) /\
  ~ In s (index (rows_in_window s e df)) /\
  ((s < e)%Z -> In e (index df) -> In e (index (rows_in_window s e df))).
Proof.
  intros Hs He.
  assert (Hin : forall t, In t (index (rows_in_window s e df))
                          <-> In t (index df) /\ (s < t <= e)%Z).
  { intros t. simpl. rewrite filter_In, in_window_spec. tauto. }
  split; [|split; [|split; [|split]]].
  - unfold plot_redox. rewrite (date_mask_window _ _ _ _ _ Hs He). cbn [bind].
    now rewrite select_rows_window.
  - now apply plot_temp_window.
  - exact Hin.
  - intros H. apply Hin in H. lia.
  - intros Hlt Hi. apply Hin. split; [assumption | lia].
Qed.

(** C9. With [mean] set, and every node a column of the table,
    [plot_temp] draws one line, labelled Mean temperature, over the
    filtered rows; at each row its value is the arithmetic mean of the
    values that are not missing in the columns named by [temp_nodes],
    and the marker when all of them are missing. (A table holds at most
    one column called mean_temperature beforehand.) *)
Theorem mean_temperature_line df temp_nodes start_date end_date s e :
  str_to_datetime start_date = Some (At s) ->
  str_to_datetime end_date = Some (At e) ->
  (forall n, In n temp_nodes -> labelled_as n (tcols df) <> []) ->
  (List.length (labelled_as "mean_temperature" (tcols df)) <= 1)%nat ->
  exists ys,
    plot_temp df temp_nodes start_date end_date true
    = Ok [mkLine (index (rows_in_window s e df)) ys "Mean temperature"] /\
    List.length ys = List.length (index (rows_in_window s e df)) /\
    forall i, (i < List.length (index (rows_in_window s e df)))%nat ->
      num_eq (nth i ys NaN)
             (mean_of_present (row_at (named_columns temp_nodes (rows_in_window s e df)) i)).
Proof.
  intros Hs He Hn Hm.
  set (W := rows_in_window s e df).
  exists (mean_axis1 (List.length (index W)) (named_columns temp_nodes W)).
  split; [|split].
  - rewrite (plot_temp_window _ _ _ _ _ _ _ Hs He). fold W. unfold draw_temp.
    rewrite loc_nodes_named.
    + cbn [bind].
      destruct (getitem_setitem W "mean_temperature"
                  (mean_axis1 (List.length (index W)) (named_columns temp_nodes W)))
        as (Hg & Hi).
      * unfold W. rewrite labelled_as_window, length_map. exact Hm.
      * rewrite Hg, Hi. reflexivity.
    + intros n Hin. unfold W. rewrite labelled_as_window.
      intros E. apply map_eq_nil in E.
      now apply (Hn n).
  - unfold mean_axis1. now rewrite length_map, length_seq.
  - intros i Hi. unfold mean_axis1. rewrite nth_map_seq by assumption.
    apply nanmean_spec.
Qed.

End PlotProperties.

(** * The properties on the sample files *)

(** C6, at a file the delimited-text reader cannot parse. The failure is
    not reported to the caller: the IOError that line 44 builds is never
    raised, execution goes on, and what the caller gets is the
    UnboundLocalError of line 48 reading the unassigned [dataframe]. *)
Theorem unparsable_text_file_unbound :
  load "S9081 HMVT CR1000X_measurements.dat" Unreadable = Ok None /\
  cleanup_redox Logger.str_to_num Logger.to_datetime
    "S9081 HMVT CR1000X_measurements.dat" Unreadable (Val 200) None
  = Raise UnboundLocalError.
Proof.
  split; reflexivity.
Qed.

(** C1 as stated fails on a file whose last stamp is half an hour off the
    hourly grid of the first: the index of the redox table stops before
    the last stamp of its subset. *)
Lemma hourly_index_misses_last_stamp :
  exists r t sr st,
    cleanup_redox Logger.str_to_num Logger.to_datetime
      "log.dat" Sample.offgrid_file (Val 200) None = Ok (r, t) /\
    before_reindex Logger.str_to_num Logger.to_datetime
      "log.dat" Sample.offgrid_file (Val 200) None = Ok (sr, st) /\
    ~ spans (sindex sr) (index r).
Proof.
  do 4 eexists. split; [vm_compute; reflexivity|].
  split; [vm_compute; reflexivity|].
  unfold spans. intros [_ H]. vm_compute in H. discriminate.
Qed.

(** C2 as stated fails on the same file: the source holds a redox value
    at its second stamp, 01:30, and the table has no row for that stamp. *)
Lemma reindexing_drops_offgrid_row :
  exists r t sr st ts q,
    cleanup_redox Logger.str_to_num Logger.to_datetime
      "log.dat" Sample.offgrid_file (Val 200) None = Ok (r, t) /\
    before_reindex Logger.str_to_num Logger.to_datetime
      "log.dat" Sample.offgrid_file (Val 200) None = Ok (sr, st) /\
    nth_error (sindex sr) 1 = Some (At ts) /\
    value_at (scols sr) 0 1 = Some (Val q) /\
    ~ In ts (index r).
Proof.
  do 6 eexists. split; [vm_compute; reflexivity|].
  split; [vm_compute; reflexivity|].
  split; [vm_compute; reflexivity|].
  split; [vm_compute; reflexivity|].
  simpl. intros [H|[H|[]]]; discriminate.
Qed.

(** The gap file, cleaned with the renaming of the pilot study. *)
Lemma cleanup_redox_hourly_index_witness :
  exists r t,
    cleanup_redox Logger.str_to_num Logger.to_datetime
      "log.dat" Sample.gap_file (Val 200) (Some CW_rename) = Ok (r, t) /\
    exists sr st,
      before_reindex Logger.str_to_num Logger.to_datetime
        "log.dat" Sample.gap_file (Val 200) (Some CW_rename) = Ok (sr, st) /\
      hourly_grid_of (sindex sr) (index r) /\
      hourly_grid_of (sindex st) (index t).
Proof.
  do 2 eexists. split; [vm_compute; reflexivity|].
  apply (cleanup_redox_hourly_index Logger.str_to_num Logger.to_datetime
           "log.dat" Sample.gap_file (Val 200) (Some CW_rename)).
  vm_compute. reflexivity.
Defined.

(** Both tables of the gap file have the same five hourly stamps. *)
Lemma cleanup_redox_same_index_witness :
  exists r t,
    cleanup_redox Logger.str_to_num Logger.to_datetime
      "log.dat" Sample.gap_file (Val 200) (Some CW_rename) = Ok (r, t) /\
    index r = index t.
Proof.
  do 2 eexists. split; [vm_compute; reflexivity|].
  apply (cleanup_redox_same_index Logger.str_to_num Logger.to_datetime
           "log.dat" Sample.gap_file (Val 200) (Some CW_rename)).
  vm_compute. reflexivity.
Defined.

(** The gap file: hours 02:00 and 03:00 are filled in. *)
Lemma cleanup_redox_reindexing_witness :
  exists r t,
    cleanup_redox Logger.str_to_num Logger.to_datetime
      "log.dat" Sample.gap_file (Val 200) (Some CW_rename) = Ok (r, t) /\
    exists sr st,
      before_reindex Logger.str_to_num Logger.to_datetime
        "log.dat" Sample.gap_file (Val 200) (Some CW_rename) = Ok (sr, st) /\
      reindexed sr r /\ reindexed st t.
Proof.
  do 2 eexists. split; [vm_compute; reflexivity|].
  apply (cleanup_redox_reindexing Logger.str_to_num Logger.to_datetime
           "log.dat" Sample.gap_file (Val 200) (Some CW_rename)).
  vm_compute. reflexivity.
Defined.

(** The gap file holds the text bad in a redox cell. *)
Lemma coercion_never_raises_witness :
  exists df times redox temp,
    load "log.dat" Sample.gap_file = Ok (Some df) /\
    raw_subsets Logger.to_datetime df = Ok (times, redox, temp) /\
    cell_at redox 0 1 = Some (Str "bad") /\
    Logger.str_to_num "bad" = None /\
    (forall redox' temp',
        map fst redox' = map fst redox -> map fst temp' = map fst temp ->
        outcome (s <- clean_subsets Logger.str_to_num (fun v => num_add v (Val 200)) None
                        (times, redox', temp') ;;
                 regularize s)
        = outcome (cleanup_redox Logger.str_to_num Logger.to_datetime
                     "log.dat" Sample.gap_file (Val 200) None)) /\
    (forall sr st,
        before_reindex Logger.str_to_num Logger.to_datetime
          "log.dat" Sample.gap_file (Val 200) None = Ok (sr, st) ->
        forall k j s,
          Logger.str_to_num s = None ->
          (cell_at redox k j = Some (Str s) -> value_at (scols sr) k j = Some NaN) /\
          (cell_at temp k j = Some (Str s) -> value_at (scols st) k j = Some NaN)) /\
    (forall r t,
        cleanup_redox Logger.str_to_num Logger.to_datetime
          "log.dat" Sample.gap_file (Val 200) None = Ok (r, t) ->
        forall k j s i ts,
          Logger.str_to_num s = None ->
          nth_error times j = Some (At ts) ->
          (cell_at redox k j = Some (Str s) ->
           nth_error (index r) i = Some ts -> value_at (tcols r) k i = Some NaN) /\
          (cell_at temp k j = Some (Str s) ->
           nth_error (index t) i = Some ts -> value_at (tcols t) k i = Some NaN)).
Proof.
  do 4 eexists. split; [reflexivity|].
  split; [vm_compute; reflexivity|].
  split; [reflexivity|]. split; [reflexivity|].
  eapply (coercion_never_raises Logger.str_to_num Logger.to_datetime
            "log.dat" Sample.gap_file (Val 200) None);
    [reflexivity | vm_compute; reflexivity].
Defined.

(** A file whose RECORD column starts at 7. *)
Lemma missing_header_or_start_raises_witness :
  load "log.dat" Sample.no_zero_file = Ok (Some Sample.no_zero_record) /\
  no_record_zero Sample.no_zero_record /\
  cleanup_redox Logger.str_to_num Logger.to_datetime
    "log.dat" Sample.no_zero_file (Val 200) None = Raise IndexError.
Proof.
  assert (H : no_record_zero Sample.no_zero_record).
  { exists 0%nat, (nth 0 (rows Sample.no_zero_record) []), 1%nat.
    split; [|split].
    - split; [reflexivity|]. split; [reflexivity|]. intros h' r Hh'. lia.
    - split; [reflexivity|].
      intros [|[|[|[|[|[|j']]]]]] E; try reflexivity; simpl in E; discriminate.
    - intros r [<-|[<-|[]]]; simpl; discriminate. }
  split; [reflexivity|]. split; [exact H|].
  apply (missing_header_or_start_raises Logger.str_to_num Logger.to_datetime
           "log.dat" Sample.no_zero_file (Val 200) None Sample.no_zero_record);
    [reflexivity | right; exact H].
Defined.

(** Four hourly rows, window from the first stamp to the last: the first
    row is left out. *)
Lemma plots_filter_half_open_witness :
  Logger.str_to_datetime "2024-09-01" = Some (At Sample.t0) /\
  Logger.str_to_datetime "2024-09-01 03:00:00" = Some (At (Sample.t0 + 3 * hour)) /\
  plot_redox Logger.str_to_datetime Sample.temperatures ["CW1S1"]
    "2024-09-01" "2024-09-01 03:00:00"
  = plot_nodes (rows_in_window Sample.t0 (Sample.t0 + 3 * hour) Sample.temperatures)
      ["CW1S1"] /\
  index (rows_in_window Sample.t0 (Sample.t0 + 3 * hour) Sample.temperatures)
  = [Sample.t0 + hour; Sample.t0 + 2 * hour; Sample.t0 + 3 * hour]%Z.
Proof.
  assert (Hs : Logger.str_to_datetime "2024-09-01" = Some (At Sample.t0))
    by (vm_compute; reflexivity).
  assert (He : Logger.str_to_datetime "2024-09-01 03:00:00"
               = Some (At (Sample.t0 + 3 * hour)))
    by (vm_compute; reflexivity).
  pose proof (plots_filter_half_open Logger.str_to_datetime Sample.temperatures
                ["CW1S1"] "2024-09-01" "2024-09-01 03:00:00" false
                Sample.t0 (Sample.t0 + 3 * hour)%Z Hs He) as (Hp & _).
  split; [exact Hs|]. split; [exact He|].
  split; [exact Hp | vm_compute; reflexivity].
Defined.

(** The mean of two columns over the same window; the middle row is
    missing in both. *)
Lemma mean_temperature_line_witness :
  exists ys,
    plot_temp Logger.str_to_datetime Sample.temperatures ["CW1S1"; "CW1S2"]
      "2024-09-01" "2024-09-01 03:00:00" true
    = Ok [mkLine [Sample.t0 + hour; Sample.t0 + 2 * hour; Sample.t0 + 3 * hour]%Z
            ys "Mean temperature"] /\
    num_eq (nth 0 ys NaN) (Val 17) /\
    num_eq (nth 1 ys NaN) NaN /\
    num_eq (nth 2 ys NaN) (Val (65 # 4)).
Proof.
  destruct (mean_temperature_line Logger.str_to_datetime Sample.temperatures
              ["CW1S1"; "CW1S2"] "2024-09-01" "2024-09-01 03:00:00"
              Sample.t0 (Sample.t0 + 3 * hour)%Z) as (ys & Hp & Hl & Hv).
  - vm_compute. reflexivity.
  - vm_compute. reflexivity.
  - intros n [<-|[<-|[]]]; vm_compute; discriminate.
  - vm_compute. lia.
  - exists ys. split; [rewrite Hp; vm_compute; reflexivity|].
    set (W := rows_in_window Sample.t0 (Sample.t0 + 3 * hour) Sample.temperatures) in *.
    assert (E0 : mean_of_present (row_at (named_columns ["CW1S1"; "CW1S2"] W) 0) = Val 17)
      by (vm_compute; reflexivity).
    assert (E1 : mean_of_present (row_at (named_columns ["CW1S1"; "CW1S2"] W) 1) = NaN)
      by (vm_compute; reflexivity).
    assert (E2 : mean_of_present (row_at (named_columns ["CW1S1"; "CW1S2"] W) 2)
                 = Val (65 # 4))
      by (vm_compute; reflexivity).
    assert (Hn : List.length (index W) = 3%nat) by (vm_compute; reflexivity).
    rewrite <- E0, <- E1, <- E2.
    repeat split; apply Hv; rewrite Hn; lia.
Defined.

(** * Further properties of the cleaning *)

Lemma mapM_length {A B} (f : A -> res B) (l : list A) (l' : list B) :
  mapM f l = Ok l' -> List.length l' = List.length l.
Proof.
  revert l'. induction l as [|a l IH]; simpl; intros l' H.
  - injection H as <-. reflexivity.
  - inv_bind H. inv_bind H. injection H as <-. simpl. f_equal. eauto.
Qed.

Lemma find_index_map {A B} (p : B -> bool) (f : A -> B) (l : list A) :
  find_index p (map f l) = find_index (fun a => p (f a)) l.
Proof.
  induction l as [|a l IH]; simpl; [reflexivity|]. now rewrite IH.
Qed.

Lemma find_index_split {A} (p : A -> bool) (l : list A) (i : nat) :
  find_index p l = Some i ->
  exists pre x post,
    l = pre ++ x :: post /\ List.length pre = i /\ p x = true /\
    forall y, In y pre -> p y = false.
Proof.
  revert i. induction l as [|a l IH]; simpl; intros i H; [discriminate|].
  destruct (p a) eqn:Ea.
  - injection H as <-. exists [], a, l. simpl. tauto.
  - destruct (find_index p l) as [i'|]; [|discriminate]. injection H as <-.
    destruct (IH i' eq_refl) as (pre & x & post & -> & Hl & Hx & Hpre).
    exists (a :: pre), x, post. simpl. repeat split; auto.
    intros y [<-|Hy]; auto.
Qed.

Lemma skipn_pre {A} (pre post : list A) : skipn (List.length pre) (pre ++ post) = post.
Proof.
  induction pre; simpl; auto.
Qed.

Lemma map_nth_seq_id {A} (l : list A) (d : A) :
  map (fun j => nth j l d) (seq 0 (List.length l)) = l.
Proof.
  apply nth_ext with (d := d) (d' := d).
  - now rewrite length_map, length_seq.
  - rewrite length_map, length_seq. intros i Hi. now rewrite nth_map_seq.
Qed.

Lemma positions_one (s : string) (labels : list Cell) (j : nat) :
  positions s labels = [j] ->
  nth_error labels j = Some (Str s) /\
  forall j', nth_error labels j' = Some (Str s) -> j' = j.
Proof.
  unfold positions. intros H.
  assert (Hin : forall j', In j' [j] <->
                  In j' (seq 0 (List.length labels))
                  /\ cell_is s (nth j' labels (Num NaN)) = true)
    by (intros j'; rewrite <- H; apply filter_In).
  split.
  - destruct (proj1 (Hin j) (or_introl eq_refl)) as (Hs & Hc).
    apply in_seq in Hs. apply cell_is_true in Hc. rewrite <- Hc.
    apply nth_error_nth'. lia.
  - intros j' Hj'. assert (Hlt : (j' < List.length labels)%nat)
      by (apply nth_error_Some; rewrite Hj'; discriminate).
    destruct (proj2 (Hin j')) as [<-|[]]; [|reflexivity].
    split; [apply in_seq; lia|]. apply cell_is_true. now apply nth_error_nth.
Qed.

Lemma loc_column_Ok (s : string) (labels : list Cell) (j : nat) :
  loc_column s labels = Ok j -> positions s labels = [j].
Proof.
  unfold loc_column. destruct (positions s labels) as [|j0 [|j1 js]];
    try discriminate. now intros [= ->].
Qed.

Lemma positions_In (s : string) (labels : list Cell) (j : nat) :
  In j (positions s labels) -> nth_error labels j = Some (Str s).
Proof.
  unfold positions. intros H. apply filter_In in H. destruct H as (Hs & Hc).
  apply in_seq in Hs. apply cell_is_true in Hc. rewrite <- Hc.
  apply nth_error_nth'. lia.
Qed.

(** X1. When lines 48-51 succeed, the labels are the cells of the first
    row that starts with TIMESTAMP, and a column is labelled RECORD. When
    it is the only one, the rows that are kept are the first row holding
    the text 0 in that column and all rows after it; no row before it
    holds that text there. *)
Theorem locate_drops_preamble (df loc : DataFrame) :
  locate df = Ok loc ->
  exists h,
    header_row df h (columns loc) /\
    (exists j, nth_error (columns loc) j = Some (Str "RECORD")) /\
    forall j, record_column (columns loc) j ->
      exists pre first rest,
        rows df = pre ++ first :: rest /\
        rows loc = first :: rest /\
        nth j first (Num NaN) = Str "0" /\
        forall r, In r pre -> nth j r (Num NaN) <> Str "0".
Proof.
  unfold locate, first_row. intros H.
  destruct (find_index (cell_is "TIMESTAMP") (column 0 (rows df))) as [h|] eqn:Eh;
    [|discriminate].
  cbn [bind] in H. inv_bind H. injection H as <-. cbn [columns rows].
  unfold column in Eh. rewrite find_index_map in Eh.
  destruct (find_index_split _ _ _ Eh) as (hpre & hrow & hpost & Erows & Hlen & Hx & Hpre).
  assert (Hnth : nth h (rows df) [] = hrow).
  { rewrite Erows, <- Hlen, app_nth2, Nat.sub_diag by lia. reflexivity. }
  rewrite Hnth in Ha |- *. exists h. split; [|split].
  - split; [|split].
    + rewrite Erows, <- Hlen, nth_error_app2, Nat.sub_diag by lia. reflexivity.
    + now apply cell_is_true.
    + intros h' r Hh' Hr. rewrite Erows, nth_error_app1 in Hr by lia.
      apply nth_error_In in Hr. specialize (Hpre r Hr). intros E.
      apply cell_is_true in E. congruence.
  - unfold first_record in Ha.
    destruct (positions "RECORD" hrow) as [|j0 js] eqn:Ep; [discriminate|].
    exists j0. apply positions_In. rewrite Ep. now left.
  - intros j Hj. unfold first_record, first_row in Ha.
    rewrite (positions_record _ _ Hj) in Ha.
    destruct (find_index (cell_is "0") (column j (rows df))) as [sd|] eqn:Es;
      [|discriminate].
    injection Ha as <-.
    unfold column in Es. rewrite find_index_map in Es.
    destruct (find_index_split _ _ _ Es) as (pre & first & rest & Erows' & Hlen' & Hf & Hp).
    exists pre, first, rest. split; [|split; [|split]].
    + exact Erows'.
    + rewrite Erows' at 1. rewrite <- Hlen'. apply skipn_pre.
    + now apply cell_is_true.
    + intros r Hr E. apply cell_is_true in E. rewrite (Hp r Hr) in E. discriminate.
Qed.

(** ** The columns that are kept *)

Lemma filter_prefix_fst (p : string) (cols : list (Cell * list Cell)) :
  map fst (filter_prefix p cols) = header_labels p (map fst cols).
Proof.
  unfold filter_prefix, header_labels.
  induction cols as [|[[s|x] col] cols IH]; simpl; auto.
  destruct (startswith p s); simpl; now rewrite IH.
Qed.

Lemma filter_prefix_In (p : string) (cols : list (Cell * list Cell))
    (lc : string * list Cell) :
  In lc (filter_prefix p cols) -> exists c, In (c, snd lc) cols.
Proof.
  unfold filter_prefix. rewrite in_flat_map. intros ([c col] & Hin & H).
  simpl in H. destruct c as [s|x]; [|contradiction].
  destruct (startswith p s); [|contradiction].
  destruct H as [<-|[]]. simpl. eauto.
Qed.

Lemma header_labels_cons (p : string) (c : Cell) (l : list Cell) :
  header_labels p (c :: l) = header_labels p [c] ++ header_labels p l.
Proof.
  unfold header_labels. simpl. now rewrite app_nil_r.
Qed.

Lemma header_labels_filter (p : string) (g : Cell * list Cell -> bool)
    (L : list (Cell * list Cell)) :
  (forall lc, g lc = false -> header_labels p [fst lc] = []) ->
  header_labels p (map fst (filter g L)) = header_labels p (map fst L).
Proof.
  intros Hg. induction L as [|lc L IH]; [reflexivity|].
  cbn [filter map]. rewrite (header_labels_cons p (fst lc) (map fst L)).
  destruct (g lc) eqn:E.
  - cbn [map]. now rewrite header_labels_cons, IH.
  - now rewrite (Hg lc E), IH.
Qed.

Lemma dropped_without_prefix (p : string) (c : Cell) :
  p = "redox" \/ p = "temp" ->
  cell_is "Time" c || existsb (fun l => cell_is l c) drop_cols = true ->
  header_labels p [c] = [].
Proof.
  intros Hp H. destruct c as [s|x]; [|reflexivity].
  simpl in H.
  destruct (String.eqb_spec s "Time") as [->|_];
    [destruct Hp as [->| ->]; reflexivity|].
  destruct (String.eqb_spec s "batt_volt_Avg") as [->|_];
    [destruct Hp as [->| ->]; reflexivity|].
  destruct (String.eqb_spec s "RECORD") as [->|_];
    [destruct Hp as [->| ->]; reflexivity|].
  destruct (String.eqb_spec s "TIMESTAMP") as [->|_];
    [destruct Hp as [->| ->]; reflexivity|].
  discriminate.
Qed.

Lemma labelled_fst (to_datetime : Cell -> option Timestamp) (df : DataFrame) :
  map fst (labelled df) = columns df.
Proof.
  unfold labelled. rewrite map_map. simpl. apply map_nth_seq_id.
Qed.

Lemma labelled_length (df : DataFrame) (c : Cell) (col : list Cell) :
  In (c, col) (labelled df) -> List.length col = List.length (rows df).
Proof.
  unfold labelled. rewrite in_map_iff. intros (j & E & _).
  injection E as _ <-. unfold column. apply length_map.
Qed.

Section MoreCleaning.

Variable str_to_num : string -> option num.
Variable to_datetime : Cell -> option Timestamp.

Local Abbreviation to_numeric := (to_numeric str_to_num).
Local Abbreviation clean_subsets := (clean_subsets str_to_num).
Local Abbreviation cleaned := (cleaned str_to_num).
Local Abbreviation time_column := (time_column to_datetime).
Local Abbreviation split := (split to_datetime).
Local Abbreviation raw_subsets := (raw_subsets to_datetime).
Local Abbreviation cleanup_with := (cleanup_with str_to_num to_datetime).
Local Abbreviation cleanup_redox := (cleanup_redox str_to_num to_datetime).
Local Abbreviation before_reindex := (before_reindex str_to_num to_datetime).

Lemma split_Ok loc times redox temp :
  split loc = Ok (times, redox, temp) ->
  time_column loc = Ok times /\
  List.length times = List.length (rows loc) /\
  map fst redox = header_labels "redox" (columns loc) /\
  map fst temp = header_labels "temp" (columns loc) /\
  (forall lc, In lc redox \/ In lc temp ->
              List.length (snd lc) = List.length (rows loc)).
Proof.
  unfold split. intros H. inv_bind H. inv_bind H. inv_bind H.
  injection H as <- <- <-.
  split; [assumption|]. split.
  - unfold time_column in Ha. inv_bind Ha. apply mapM_length in Ha.
    rewrite Ha. unfold column. apply length_map.
  - rewrite !filter_prefix_fst.
    rewrite !header_labels_filter, (labelled_fst to_datetime).
    + split; [reflexivity|]. split; [reflexivity|].
      intros lc [Hin|Hin]; apply filter_prefix_In in Hin;
        destruct Hin as (c & Hin); apply filter_In in Hin;
        destruct Hin as (Hin & _); apply (labelled_length _ _ _ Hin).
    + intros lc E. apply negb_false_iff in E.
      apply dropped_without_prefix; auto.
    + intros lc E. apply negb_false_iff in E.
      apply dropped_without_prefix; auto.
Qed.

Lemma cleanup_with_Ok offset p c rn r t :
  cleanup_with offset p c rn = Ok (r, t) ->
  exists df loc times redox temp lr,
    load p c = Ok (Some df) /\ locate df = Ok loc /\
    split loc = Ok (times, redox, temp) /\
    keeps_time rn (map fst redox) = true /\
    keeps_time rn (map fst temp) = true /\
    hourly_range times = Ok lr /\ is_unique times = true /\
    r = mkTable lr (map (fun lc => (fst lc, map (take times (snd lc)) lr))
                        (scols (cleaned offset rn times redox))) /\
    t = mkTable lr (map (fun lc => (fst lc, map (take times (snd lc)) lr))
                        (scols (cleaned (fun v => v) rn times temp))).
Proof.
  rewrite cleanup_with_stages. unfold raw_subsets.
  destruct (load p c) as [[df|]|e] eqn:El; cbn [bind lookup_local];
    try discriminate.
  destruct (locate df) as [loc|e] eqn:Eloc; cbn [bind]; try discriminate.
  destruct (split loc) as [[[times redox] temp]|e] eqn:Es; cbn [bind];
    try discriminate.
  intros H. inv_bind H. destruct a as [dr dt].
  destruct (regularize_stamped _ _ _ _ H) as (sr & st & -> & ->).
  apply clean_subsets_Ok in Ha. destruct Ha as (Kr & Kt & -> & ->).
  apply regularize_Ok in H. destruct H as (lr & lt & Hr & Ht & Rr & Rt).
  simpl in Hr, Ht. rewrite Hr in Ht. injection Ht as <-.
  apply reindex_Ok in Rr, Rt. destruct Rr as (Hu & ->), Rt as (_ & ->).
  exists df, loc, times, redox, temp, lr. simpl. repeat split; auto.
Qed.

(** X3. The labels of the redox table are, in the order of the header,
    the renamed header labels that start with redox, and those of the
    temperature table the renamed header labels that start with temp;
    TIMESTAMP, RECORD, batt_volt_Avg and Time give no column. *)
Theorem cleanup_redox_labels p c corr rn r t :
  cleanup_redox p c corr rn = Ok (r, t) ->
  exists df loc,
    load p c = Ok (Some df) /\ locate df = Ok loc /\
    map fst (tcols r) = map (rename_label rn) (header_labels "redox" (columns loc)) /\
    map fst (tcols t) = map (rename_label rn) (header_labels "temp" (columns loc)).
Proof.
  intros H. apply cleanup_with_Ok in H.
  destruct H as (df & loc & times & redox & temp & lr & Hl & Hloc & Hs & _ & _ & _ & _ & -> & ->).
  apply split_Ok in Hs. destruct Hs as (_ & _ & Hr & Ht & _).
  exists df, loc. simpl. rewrite !map_map. simpl.
  rewrite <- Hr, <- Ht, !map_map. auto.
Qed.

(** X4. The number of rows of a returned table is the number of whole
    hours from the first to the last stamp of the subset, plus one; there
    is no row when the last stamp precedes the first. *)
Theorem cleanup_redox_row_count p c corr rn r t :
  cleanup_redox p c corr rn = Ok (r, t) ->
  exists sr st a b,
    before_reindex p c corr rn = Ok (sr, st) /\
    hd_error (sindex sr) = Some (At a) /\ last (sindex sr) NaT = At b /\
    Z.of_nat (List.length (index r))
    = (if (b <? a)%Z then 0 else (b - a) / hour + 1)%Z /\
    List.length (index t) = List.length (index r).
Proof.
  intros H. apply cleanup_redox_Ok in H. destruct H as (sr & st & Ha & H).
  pose proof (before_reindex_Ok _ _ _ _ _ _ _ _ Ha)
    as (df & times & redox & temp & _ & _ & _ & _ & Er & Et).
  apply regularize_Ok in H. destruct H as (lr & lt & Hr & Ht & Rr & Rt).
  assert (Elt : lt = lr).
  { rewrite Er in Hr. rewrite Et in Ht. simpl in Hr, Ht. congruence. }
  subst lt.
  apply reindex_Ok in Rr, Rt. destruct Rr as (_ & ->), Rt as (_ & ->).
  apply hourly_range_Ok in Hr. destruct Hr as (a & b & Hh & Hl & ->).
  exists sr, st, a, b. simpl. repeat split; auto.
  destruct (Z.ltb_spec b a).
  - now rewrite date_range_empty.
  - rewrite date_range_length by assumption.
    pose proof hour_pos. rewrite Nat2Z.inj_succ, Z2Nat.id; [lia|].
    apply Z.div_pos; lia.
Qed.

End MoreCleaning.

(** ** Renaming *)

Lemma avoids_rename_label (v : string) (rn : option (list (string * string))) (l : string) :
  avoids v rn = true -> rename_label rn l = v -> l = v.
Proof.
  destruct rn as [d|]; [|now simpl]. simpl. intros Hd.
  destruct d as [|kv d0]; [now simpl|]. remember (kv :: d0) as d eqn:Ed.
  clear Ed kv d0. unfold rename_label.
  assert (Hget : forall w, dict_get d l = Some w -> w <> v).
  { clear -Hd. induction d as [|[k w0] d IH]; simpl; [discriminate|].
    simpl in Hd. apply andb_prop in Hd. destruct Hd as (Hw & Hd).
    intros w. destruct (String.eqb k l).
    - intros [= <-]. apply negb_true_iff in Hw. now apply String.eqb_neq in Hw.
    - now apply IH. }
  destruct d as [|kv d0]; [auto|].
  destruct (dict_get (kv :: d0) l) as [w|] eqn:E; [|auto].
  intros ->. now elim (Hget v).
Qed.

Lemma keeps_time_avoiding (rn : option (list (string * string))) (labels : list string) :
  rename_label rn "Time" = "Time" -> avoids "Time" rn = true ->
  keeps_time None labels = true -> keeps_time rn labels = true.
Proof.
  intros Ht Ha Hn. unfold keeps_time in *. rewrite Ht, String.eqb_refl. simpl in *.
  rewrite forallb_forall in *. intros l Hl. specialize (Hn l Hl).
  apply negb_true_iff in Hn. apply negb_true_iff. apply String.eqb_neq.
  apply String.eqb_neq in Hn. intros E. apply Hn.
  now apply (avoids_rename_label "Time" rn).
Qed.

Lemma lists_unique (l : list Z) : NoDup l -> is_unique (map At l) = true.
Proof.
  induction 1 as [|a l Hni Hnd IH]; simpl; [reflexivity|].
  rewrite IH, andb_true_r. apply negb_true_iff.
  destruct (existsb (Timestamp_eqb (At a)) (map At l)) eqn:E; [|reflexivity].
  apply existsb_exists in E. destruct E as (x & Hx & Ex).
  apply Timestamp_eqb_eq in Ex. subst x. apply in_map_iff in Hx.
  destruct Hx as (y & [= ->] & Hy). contradiction.
Qed.

Lemma hourly_nth (l : list Z) (i : nat) :
  hourly l -> (i < List.length l)%nat ->
  nth i l 0%Z = (nth 0 l 0 + Z.of_nat i * hour)%Z.
Proof.
  intros H. induction i as [|i IH]; intros Hi; [simpl; lia|].
  rewrite (H i Hi), IH by lia. lia.
Qed.

Lemma hourly_date_range (a : Z) (l : list Z) :
  hourly (a :: l) -> date_range a (last (a :: l) a) = a :: l.
Proof.
  intros H. pose proof hour_pos as Hh.
  assert (Hlast : last (a :: l) a = (a + Z.of_nat (List.length l) * hour)%Z).
  { destruct (exists_last (l := a :: l) ltac:(discriminate)) as (l' & x & E).
    rewrite E, last_last.
    pose proof (hourly_nth (a :: l) (List.length l) H ltac:(simpl; lia)) as Hn.
    assert (Hlen : List.length l = List.length l').
    { apply (f_equal (@List.length Z)) in E. rewrite length_app in E.
      simpl in E. lia. }
    rewrite E in Hn at 1. rewrite Hlen in Hn at 1.
    rewrite app_nth2, Nat.sub_diag in Hn by lia. simpl in Hn. exact Hn. }
  assert (Hle : (a <= last (a :: l) a)%Z) by (rewrite Hlast; nia).
  assert (Hq : ((last (a :: l) a - a) / hour = Z.of_nat (List.length l))%Z).
  { rewrite Hlast. replace (a + Z.of_nat (List.length l) * hour - a)%Z
      with (Z.of_nat (List.length l) * hour)%Z by lia.
    apply Z.div_mul. lia. }
  apply nth_ext with (d := 0%Z) (d' := 0%Z).
  - rewrite date_range_length, Hq, Nat2Z.id by assumption. reflexivity.
  - intros i Hi. rewrite date_range_nth by assumption.
    rewrite date_range_length, Hq, Nat2Z.id in Hi by assumption.
    rewrite (hourly_nth (a :: l) i H) by (simpl; lia). reflexivity.
Qed.

Lemma hourly_increasing (l : list Z) : hourly l -> strictly_increasing l.
Proof.
  intros H i j Hij. rewrite (hourly_nth l i H), (hourly_nth l j H) by lia.
  pose proof hour_pos. nia.
Qed.

Lemma take_own_index (l : list Z) (col : list num) :
  NoDup l -> List.length col = List.length l ->
  map (take (map At l) col) l = col.
Proof.
  intros Hnd Hlen. apply nth_ext with (d := NaN) (d' := NaN).
  - now rewrite length_map.
  - rewrite length_map. intros i Hi.
    rewrite nth_indep with (d' := take (map At l) col 0%Z) by (now rewrite length_map).
    rewrite map_nth. unfold take.
    rewrite (find_index_unique _ _ i (lists_unique l Hnd)); [reflexivity|].
    rewrite nth_error_map, (nth_error_nth' l 0%Z Hi). reflexivity.
Qed.

Lemma last_map_At_default (a d : Z) (l : list Z) :
  last (At a :: map At l) NaT = At (last (a :: l) d).
Proof.
  revert a. induction l as [|b l IH]; intros a; [reflexivity|].
  change (last (At a :: map At (b :: l)) NaT) with (last (At b :: map At l) NaT).
  change (last (a :: b :: l) d) with (last (b :: l) d).
  apply IH.
Qed.

Lemma last_map_At (a : Z) (l : list Z) :
  last (At a :: map At l) NaT = At (last (a :: l) a).
Proof. apply last_map_At_default. Qed.

Lemma reindex_own (l : list Z) (cols : list (string * list num)) :
  NoDup l ->
  (forall lc, In lc cols -> List.length (snd lc) = List.length l) ->
  map (fun lc => (fst lc, map (take (map At l) (snd lc)) l)) cols = cols.
Proof.
  intros Hnd Hlen. rewrite <- (map_id cols) at 2. apply map_ext_in.
  intros [lb col] Hin. cbn [fst snd]. f_equal.
  apply take_own_index; [assumption|]. apply (Hlen _ Hin).
Qed.

Lemma mapM_fails {A B} (f : A -> res B) (l : list A) (e : PyErr) :
  (forall x e', f x = Raise e' -> e' = e) ->
  (exists x, In x l /\ exists e', f x = Raise e') ->
  mapM f l = Raise e.
Proof.
  intros Hf (x & Hx & e' & He). induction l as [|a l IH]; [contradiction|].
  simpl. destruct (f a) as [b|e0] eqn:Ea; simpl.
  - destruct Hx as [->|Hx]; [congruence|]. now rewrite IH.
  - f_equal. eauto.
Qed.

Lemma locate_rows (df loc : DataFrame) : locate df = Ok loc -> rows loc <> [].
Proof.
  unfold locate, first_row, first_record. intros H.
  destruct (find_index (cell_is "TIMESTAMP") (column 0 (rows df))); [|discriminate].
  cbn [bind] in H. inv_bind H. injection H as <-. cbn [rows].
  destruct (positions "RECORD" (nth n (rows df) [])) as [|j [|j' js]];
    [discriminate | |].
  - unfold first_row in Ha.
    destruct (find_index (cell_is "0") (column j (rows df))) as [sd|] eqn:Es;
      [|discriminate].
    injection Ha as <-.
    unfold column in Es. rewrite find_index_map in Es.
    destruct (find_index_split _ _ _ Es) as (pre & first & rest & -> & <- & _).
    now rewrite skipn_pre.
  - destruct (rows df); [discriminate|]. injection Ha as <-. discriminate.
Qed.

Lemma header_labels_In (p s : string) (labels : list Cell) :
  In s (header_labels p labels) -> startswith p s = true.
Proof.
  unfold header_labels. rewrite in_flat_map. intros ([t|x] & _ & H); [|contradiction].
  destruct (startswith p t) eqn:E; [|contradiction].
  destruct H as [<-|[]]. exact E.
Qed.

(** ** Distinct labels *)

Lemma distinct_NoDup (l : list string) : distinct l = true <-> NoDup l.
Proof.
  induction l as [|a l IH]; simpl.
  - split; [constructor | reflexivity].
  - rewrite andb_true_iff, negb_true_iff, IH. split.
    + intros (Hn & Hd). constructor; [|assumption]. intros Hin.
      assert (E : existsb (String.eqb a) l = true)
        by (apply existsb_exists; exists a; split; [assumption | apply String.eqb_refl]).
      congruence.
    + intros H. inversion H as [|x l' Hn Hd]; subst. split; [|assumption].
      destruct (existsb (String.eqb a) l) eqn:E; [|reflexivity].
      apply existsb_exists in E. destruct E as (x & Hx & Ex).
      apply String.eqb_eq in Ex. subst x. contradiction.
Qed.

Lemma dict_get_In (d : list (string * string)) (k v : string) :
  dict_get d k = Some v -> In (k, v) d.
Proof.
  induction d as [|[k' w] d IH]; simpl; [discriminate|].
  destruct (String.eqb_spec k' k) as [->|_]; [intros [= ->]; now left | auto].
Qed.

Lemma values_distinct_keys (d : list (string * string)) (k1 k2 v : string) :
  NoDup (map snd d) -> In (k1, v) d -> In (k2, v) d -> k1 = k2.
Proof.
  induction d as [|[k w] d IH]; simpl; [tauto|].
  intros H. inversion H as [|x l Hn Hd]; subst.
  intros [E1|H1] [E2|H2].
  - congruence.
  - injection E1 as -> ->. elim Hn. apply (in_map snd _ _ H2).
  - injection E2 as -> ->. elim Hn. apply (in_map snd _ _ H1).
  - auto.
Qed.

(** A renaming whose new names are pairwise different and start with
    neither prefix keeps the labels of a subset apart. *)
Lemma rename_keeps_distinct (d : list (string * string)) (labels : list string) :
  distinct (map snd d) = true ->
  forallb (fun v => negb (startswith "redox" v || startswith "temp" v)) (map snd d) = true ->
  (forall l, In l labels -> startswith "redox" l = true \/ startswith "temp" l = true) ->
  distinct labels = true ->
  distinct (map (rename_label (Some d)) labels) = true.
Proof.
  intros Hd Hv Hp Hl. apply distinct_NoDup in Hd, Hl. apply distinct_NoDup.
  rewrite forallb_forall in Hv.
  assert (Hr : forall l, rename_label (Some d) l
                         = match dict_get d l with Some v => v | None => l end)
    by (intros l; destruct d; reflexivity).
  assert (Hval : forall k v l, dict_get d k = Some v -> In l labels -> v <> l).
  { intros k v l Hg Hin ->. apply dict_get_In in Hg.
    specialize (Hv l (in_map snd _ _ Hg)). apply negb_true_iff in Hv.
    destruct (Hp l Hin) as [E|E]; rewrite E in Hv;
      [discriminate | now rewrite orb_true_r in Hv]. }
  apply NoDup_map_NoDup_ForallPairs; [|assumption].
  intros x y Hx Hy. rewrite !Hr.
  destruct (dict_get d x) as [v|] eqn:Ex; destruct (dict_get d y) as [w|] eqn:Ey.
  - intros <-. apply dict_get_In in Ex, Ey. eapply values_distinct_keys; eauto.
  - intros E. now elim (Hval x v y Ex Hy).
  - intros E. symmetry in E. now elim (Hval y w x Ey Hx).
  - auto.
Qed.

Section Outcomes.

Variable str_to_num : string -> option num.
Variable to_datetime : Cell -> option Timestamp.

Local Abbreviation clean_subsets := (clean_subsets str_to_num).
Local Abbreviation cleaned := (cleaned str_to_num).
Local Abbreviation time_column := (time_column to_datetime).
Local Abbreviation split := (split to_datetime).
Local Abbreviation raw_subsets := (raw_subsets to_datetime).
Local Abbreviation cleanup_with := (cleanup_with str_to_num to_datetime).
Local Abbreviation cleanup_redox := (cleanup_redox str_to_num to_datetime).
Local Abbreviation after_set_index := (after_set_index str_to_num to_datetime).
Local Abbreviation before_reindex := (before_reindex str_to_num to_datetime).

Lemma cleanup_with_raw offset p c rn r t :
  cleanup_with offset p c rn = Ok (r, t) ->
  exists df loc times redox temp,
    load p c = Ok (Some df) /\ locate df = Ok loc /\
    split loc = Ok (times, redox, temp) /\
    map fst (tcols r) = map (rename_label rn) (map fst redox) /\
    map fst (tcols t) = map (rename_label rn) (map fst temp) /\
    distinct (map fst (tcols r)) = true /\
    distinct (map fst (tcols t)) = true.
Proof.
  rewrite cleanup_with_stages. unfold raw_subsets.
  destruct (load p c) as [[df|]|e] eqn:El; cbn [bind lookup_local];
    try discriminate.
  destruct (locate df) as [loc|e] eqn:Eloc; cbn [bind]; try discriminate.
  destruct (split loc) as [[[times redox] temp]|e] eqn:Es; cbn [bind];
    try discriminate.
  intros H. inv_bind H. destruct a as [dr dt].
  destruct (regularize_stamped _ _ _ _ H) as (sr & st & -> & ->).
  pose proof (clean_subsets_distinct _ _ _ _ _ _ _ _ Ha) as (Dr & Dt).
  apply clean_subsets_Ok in Ha. destruct Ha as (_ & _ & -> & ->).
  apply regularize_Ok in H. destruct H as (lr & lt & _ & _ & Rr & Rt).
  apply reindex_Ok in Rr, Rt. destruct Rr as (_ & ->), Rt as (_ & ->).
  exists df, loc, times, redox, temp. cbn [tcols cleaned scols].
  rewrite !map_map. cbn [fst]. rewrite <- !(map_map fst (rename_label rn)).
  auto 10.
Qed.

Lemma cleanup_renamed offset p c rn r0 t0 :
  cleanup_with offset p c None = Ok (r0, t0) ->
  keeps_time rn (map fst (tcols r0)) = true ->
  keeps_time rn (map fst (tcols t0)) = true ->
  distinct (map (rename_label rn) (map fst (tcols r0))) = true ->
  distinct (map (rename_label rn) (map fst (tcols t0))) = true ->
  cleanup_with offset p c rn = Ok (relabel rn r0, relabel rn t0).
Proof.
  intros H. apply cleanup_with_Ok in H.
  destruct H as (df & loc & times & redox & temp & lr
                 & Hl & Hloc & Hs & _ & _ & Hr & Hu & -> & ->).
  assert (Elab : forall off cols,
             map fst (map (fun lc : string * list num =>
                             (fst lc, map (take times (snd lc)) lr))
                          (scols (cleaned off None times cols)))
             = map fst cols).
  { intros off cols. simpl. rewrite !map_map. reflexivity. }
  cbn [tcols]. rewrite !Elab. intros Kr Kt Dr Dt.
  rewrite cleanup_with_stages, Hl. unfold raw_subsets. cbn [bind lookup_local].
  rewrite Hloc. cbn [bind]. rewrite Hs. cbn [bind].
  rewrite (clean_subsets_keeps _ _ _ _ _ _ Kr Kt), Dr, Dt. cbn [andb bind].
  unfold regularize, index_range, reindex_subset, reindex. cbn [fst snd].
  unfold cleaned. cbn [sindex]. rewrite Hr. cbn [bind]. rewrite Hu. cbn [bind].
  unfold relabel. simpl. rewrite !map_map. reflexivity.
Qed.

(** X5. Renaming is label-only. If cleaning without a rename map returns
    two tables, cleaning with a map returns the same tables with every
    label sent through the map (a label that is no key keeps its name),
    provided the map leaves the label Time alone, gives it to no column,
    and within each table sends no two labels to the same name. *)
Theorem rename_is_label_only p c corr rn r0 t0 :
  cleanup_redox p c corr None = Ok (r0, t0) ->
  keeps_time rn (map fst (tcols r0)) = true ->
  keeps_time rn (map fst (tcols t0)) = true ->
  distinct (map (rename_label rn) (map fst (tcols r0))) = true ->
  distinct (map (rename_label rn) (map fst (tcols t0))) = true ->
  cleanup_redox p c corr rn = Ok (relabel rn r0, relabel rn t0).
Proof.
  intros H. unfold cleanup_redox in *. now apply cleanup_renamed.
Qed.

(** X6. With the renaming table of the pilot study, cleaning returns
    whenever it returns without renaming, and the tables are the same
    under the display names. *)
Theorem CW_rename_never_fails p c corr r0 t0 :
  cleanup_redox p c corr None = Ok (r0, t0) ->
  cleanup_redox p c corr (Some CW_rename)
  = Ok (relabel (Some CW_rename) r0, relabel (Some CW_rename) t0).
Proof.
  intros H. unfold cleanup_redox in *.
  pose proof (cleanup_with_Ok _ _ _ _ _ _ _ _ H)
    as (df0 & loc0 & times0 & redox0 & temp0 & lr0
        & _ & _ & _ & Kr & Kt & _ & _ & Er & Et).
  pose proof (cleanup_with_raw _ _ _ _ _ _ H)
    as (df & loc & times & redox & temp & _ & _ & Hs & Lr & Lt & Dr & Dt).
  assert (Kr0 : keeps_time None (map fst (tcols r0)) = true).
  { rewrite Er. cbn [tcols cleaned scols]. rewrite !map_map. cbn [fst].
    rewrite <- Kr. f_equal; try (now rewrite map_map). }
  assert (Kt0 : keeps_time None (map fst (tcols t0)) = true).
  { rewrite Et. cbn [tcols cleaned scols]. rewrite !map_map. cbn [fst].
    rewrite <- Kt. f_equal; try (now rewrite map_map). }
  apply split_Ok in Hs. destruct Hs as (_ & _ & Hr & Ht & _).
  rewrite map_id in Lr, Lt.
  apply (cleanup_renamed _ _ _ (Some CW_rename) _ _ H).
  - apply keeps_time_avoiding; [vm_compute; reflexivity .. | exact Kr0].
  - apply keeps_time_avoiding; [vm_compute; reflexivity .. | exact Kt0].
  - apply rename_keeps_distinct; [vm_compute; reflexivity .. | | exact Dr].
    intros l Hl. left. rewrite Lr, Hr in Hl. now apply header_labels_In in Hl.
  - apply rename_keeps_distinct; [vm_compute; reflexivity .. | | exact Dt].
    intros l Hl. right. rewrite Lt, Ht in Hl. now apply header_labels_In in Hl.
Qed.

Lemma after_set_index_kinds p c corr rn dr dt :
  after_set_index p c corr rn = Ok (dr, dt) ->
  rename_label rn "Time" = "Time" ->
  exists times,
    times <> [] /\
    (dr = TwoLevel \/ exists sr, dr = Stamped sr /\ sindex sr = times) /\
    (dt = TwoLevel \/ exists st, dt = Stamped st /\ sindex st = times).
Proof.
  intros H Ht. apply after_set_index_Ok in H.
  destruct H as (df & times & redox & temp & _ & Hraw & H).
  unfold raw_subsets in Hraw. inv_bind Hraw.
  apply locate_rows in Ha. apply split_Ok in Hraw.
  destruct Hraw as (_ & Hlen & _).
  exists times. split.
  { intros ->. destruct (rows a); [contradiction | discriminate]. }
  unfold clean_subsets in H. inv_bind H. inv_bind H. inv_bind H. inv_bind H.
  injection H as <- <-.
  assert (Hk : forall offset cols d,
             set_index_Time str_to_num offset rn times cols = Ok d ->
             d = TwoLevel \/ exists s, d = Stamped s /\ sindex s = times).
  { intros offset cols d. unfold set_index_Time. rewrite Ht, String.eqb_refl.
    destruct (count_label "Time" (renamed_labels rn cols)) as [|[|n]];
      [discriminate | |].
    - intros [= <-]. right. eauto.
    - intros [= <-]. now left. }
  split; eapply Hk; eassumption.
Qed.

(** X7. Let lines 38-77 have run with a rename map that leaves the label
    Time alone. A subset in which the map gave the label Time to a
    channel has a two-level index, and [date_range] raises TypeError on
    it: at line 79 for the redox subset, at line 80 for the temperature
    subset, after the redox range was computed. The subsets indexed by
    the stamps hold at least one row and the same stamps, and
    [cleanup_redox] returns exactly when no subset has a two-level index,
    the first and the last stamp are real stamps (not NaT) and no stamp
    occurs twice; a stamp that is NaT or occurs twice gives ValueError. *)
Theorem outcome_after_coercion p c corr rn dr dt :
  after_set_index p c corr rn = Ok (dr, dt) ->
  rename_label rn "Time" = "Time" ->
  exists times,
    times <> [] /\
    (forall sr, dr = Stamped sr -> sindex sr = times) /\
    (forall st, dt = Stamped st -> sindex st = times) /\
    dr <> ByCells /\ dt <> ByCells /\
    outcome (cleanup_redox p c corr rn)
    = match dr with
      | Stamped _ =>
          match hd_error times, last times NaT with
          | Some (At _), At _ =>
              match dt with
              | Stamped _ => if is_unique times then Ok tt else Raise ValueError
              | _ => Raise TypeError
              end
          | _, _ => Raise ValueError
          end
      | _ => Raise TypeError
      end.
Proof.
  intros H Ht.
  destruct (after_set_index_kinds _ _ _ _ _ _ H Ht) as (times & Hne & Kr & Kt).
  exists times. split; [exact Hne|].
  assert (E : cleanup_redox p c corr rn = regularize (dr, dt)).
  { unfold cleanup_redox, cleanup_with, clean_with.
    unfold after_set_index in H. revert H.
    destruct (load p c) as [[df|]|e]; cbn [bind lookup_local]; try discriminate.
    now intros ->. }
  rewrite E. clear E H.
  destruct times as [|first rest]; [contradiction|].
  destruct Kr as [->|(sr & -> & Er)]; destruct Kt as [->|(st & -> & Et)].
  - repeat (split; [congruence|]). reflexivity.
  - repeat (split; [congruence|]). reflexivity.
  - repeat (split; [congruence|]).
    unfold regularize, index_range, hourly_range. cbn [fst snd]. rewrite Er.
    cbn [hd_error]. destruct first as [|a0]; [reflexivity|].
    destruct (last (At a0 :: rest) NaT); reflexivity.
  - repeat (split; [congruence|]).
    unfold regularize, index_range, reindex_subset, hourly_range, reindex.
    cbn [fst snd]. rewrite Er, Et. cbn [hd_error].
    destruct first as [|a0]; [reflexivity|].
    destruct (last (At a0 :: rest) NaT); [reflexivity|]. cbn [bind].
    destruct (is_unique (At a0 :: rest)); reflexivity.
Qed.

(** X8. A log with a reading at every hour from its first to its last
    stamp is returned as it is after the coercion: same stamps, same
    columns, no marker added. *)
Theorem regular_log_unchanged p c corr rn sr st l :
  before_reindex p c corr rn = Ok (sr, st) ->
  sindex sr = map At l -> hourly l ->
  cleanup_redox p c corr rn = Ok (mkTable l (scols sr), mkTable l (scols st)).
Proof.
  intros H Hidx Hh. rewrite (cleanup_redox_after _ _ _ _ _ _ _ _ H).
  apply before_reindex_Ok in H.
  destruct H as (df & times & redox & temp & _ & Hraw & _ & _ & -> & ->).
  unfold raw_subsets in Hraw. inv_bind Hraw.
  apply locate_rows in Ha. apply split_Ok in Hraw.
  destruct Hraw as (_ & Hlen & _ & _ & Hcols).
  unfold cleaned in Hidx. cbn [sindex] in Hidx.
  subst times.
  destruct l as [|a0 l]; [destruct (rows a); [contradiction | discriminate]|].
  assert (Hnd : NoDup (a0 :: l)) by now apply increasing_NoDup, hourly_increasing.
  unfold regularize, index_range, reindex_subset, hourly_range, reindex. cbn [fst snd].
  unfold cleaned. cbn [sindex scols map].
  rewrite last_map_At. cbn [bind].
  rewrite (hourly_date_range a0 l Hh).
  change (At a0 :: map At l) with (map At (a0 :: l)).
  rewrite (lists_unique _ Hnd). cbn [bind].
  rewrite length_map in Hlen.
  rewrite !reindex_own; try assumption; [reflexivity | |];
    intros lc Hin; apply in_map_iff in Hin; destruct Hin as (lc0 & <- & Hin);
    cbn [snd]; rewrite length_map, Hlen; apply Hcols; auto.
Qed.

(** X9. A file whose header has no column batt_volt_Avg cannot be
    cleaned: once the header is found and the stamps are read, [drop]
    raises KeyError. *)
Theorem missing_battery_column_raises p c corr rn df loc times :
  load p c = Ok (Some df) -> locate df = Ok loc ->
  time_column loc = Ok times ->
  (List.length (positions "Time" (columns loc)) <= 1)%nat ->
  positions "batt_volt_Avg" (columns loc) = [] ->
  cleanup_redox p c corr rn = Raise KeyError.
Proof.
  intros Hl Hloc Ht Hn Hb. unfold cleanup_redox.
  rewrite cleanup_with_stages, Hl. unfold raw_subsets. cbn [bind lookup_local].
  rewrite Hloc. cbn [bind]. unfold split. rewrite Ht. cbn [bind].
  destruct (Nat.leb_spec 2 (List.length (positions "Time" (columns loc)))); [lia|].
  cbn [bind]. unfold drop_cols. cbn [forallb]. rewrite Hb. reflexivity.
Qed.

(** X10. A stamp that [pd.to_datetime] cannot read, in the first data row
    or any row after it, makes [cleanup_redox] raise ValueError. *)
Theorem unreadable_stamp_raises p c corr rn df loc j r :
  load p c = Ok (Some df) -> locate df = Ok loc ->
  loc_column "TIMESTAMP" (columns loc) = Ok j ->
  In r (rows loc) -> to_datetime (nth j r (Num NaN)) = None ->
  cleanup_redox p c corr rn = Raise ValueError.
Proof.
  intros Hl Hloc Hj Hr Hd. unfold cleanup_redox.
  rewrite cleanup_with_stages, Hl. unfold raw_subsets. cbn [bind lookup_local].
  rewrite Hloc. cbn [bind]. unfold split, time_column. rewrite Hj. cbn [bind].
  rewrite (mapM_fails _ _ ValueError); [reflexivity | |].
  - intros x e'. destruct (to_datetime x); [discriminate | now intros [= <-]].
  - exists (nth j r (Num NaN)). split.
    + unfold column. exact (in_map (fun r0 => nth j r0 (Num NaN)) _ _ Hr).
    + rewrite Hd. eauto.
Qed.

End Outcomes.

(** * Further properties of the plot functions *)

Lemma labelled_as_select (mask : list bool) (n : string)
    (cols : list (string * list num)) :
  labelled_as n (map (fun lc => (fst lc, select mask (snd lc))) cols)
  = map (select mask) (labelled_as n cols).
Proof.
  exact (labelled_as_map (g := select mask) n cols).
Qed.

Lemma labelled_as_present (n : string) (cols : list (string * list num)) :
  existsb (fun lc => String.eqb (fst lc) n) cols
  = negb (Nat.eqb (List.length (labelled_as n cols)) 0).
Proof.
  unfold labelled_as. induction cols as [|[l c] cols IH]; simpl; [reflexivity|].
  destruct (String.eqb l n); simpl; auto.
Qed.

Lemma labelled_as_absent (n : string) (cols : list (string * list num)) :
  ~ In n (map fst cols) -> labelled_as n cols = [].
Proof.
  unfold labelled_as. induction cols as [|[l c] cols IH]; simpl; [reflexivity|].
  intros H. destruct (String.eqb_spec l n) as [->|_]; [tauto|].
  apply IH. tauto.
Qed.

Lemma nodes_present_spec (df : Table) (nodes : list string) :
  nodes_present df nodes = true
  <-> forall n, In n nodes -> labelled_as n (tcols df) <> [].
Proof.
  unfold nodes_present. rewrite forallb_forall.
  split; intros H n Hn; specialize (H n Hn);
    rewrite labelled_as_present in *;
    destruct (labelled_as n (tcols df)); simpl in *; congruence.
Qed.

Lemma nodes_present_select (mask : list bool) (df : Table) (nodes : list string) :
  nodes_present (select_rows mask df) nodes = nodes_present df nodes.
Proof.
  unfold nodes_present. induction nodes as [|n nodes IH]; [reflexivity|].
  cbn [forallb]. rewrite IH. f_equal.
  rewrite !labelled_as_present. unfold select_rows. cbn [tcols].
  now rewrite labelled_as_select, length_map.
Qed.

Lemma mapM_getitem (df : Table) (nodes : list string) :
  mapM (getitem df) nodes
  = if nodes_present df nodes
    then Ok (map (fun n => labelled_as n (tcols df)) nodes)
    else Raise KeyError.
Proof.
  unfold nodes_present. induction nodes as [|n nodes IH]; [reflexivity|].
  cbn [mapM forallb map]. rewrite labelled_as_present. unfold getitem at 1.
  destruct (labelled_as n (tcols df)) as [|c cs] eqn:E; [reflexivity|].
  cbn [bind]. rewrite IH. simpl.
  now destruct (forallb _ nodes).
Qed.

Lemma plot_nodes_eq (df : Table) (nodes : list string) :
  plot_nodes df nodes
  = if nodes_present df nodes
    then Ok (List.concat
               (map (fun n => map (fun c => mkLine (index df) c n)
                                  (labelled_as n (tcols df))) nodes))
    else Raise KeyError.
Proof.
  unfold plot_nodes, nodes_present. induction nodes as [|n nodes IH]; [reflexivity|].
  cbn [mapM forallb map]. rewrite labelled_as_present. unfold getitem at 1.
  destruct (labelled_as n (tcols df)) as [|c cs] eqn:E; [reflexivity|].
  cbn [bind]. simpl negb. cbn [andb].
  destruct (forallb _ nodes).
  - destruct (mapM _ nodes) as [ls|e]; [|discriminate].
    cbn [bind] in IH |- *. injection IH as IH. cbn [List.concat]. now rewrite IH.
  - destruct (mapM _ nodes) as [ls|e]; [discriminate|].
    cbn [bind] in IH |- *. exact IH.
Qed.

Lemma draw_temp_mean (df : Table) (nodes : list string) :
  nodes_present df nodes = true ->
  (List.length (labelled_as "mean_temperature" (tcols df)) <= 1)%nat ->
  draw_temp df nodes true
  = Ok [mkLine (index df)
          (mean_axis1 (List.length (index df)) (named_columns nodes df))
          "Mean temperature"].
Proof.
  intros Hn Hm. unfold draw_temp.
  rewrite loc_nodes_named by (now apply nodes_present_spec). cbn [bind].
  destruct (getitem_setitem df "mean_temperature"
              (mean_axis1 (List.length (index df)) (named_columns nodes df)) Hm)
    as (Hg & Hi).
  rewrite Hg, Hi. reflexivity.
Qed.

Lemma getitem_after_setitem (df : Table) (n : string) (col : list num) :
  exists c cs, getitem (setitem df n col) n = Ok (c :: cs).
Proof.
  unfold getitem, setitem.
  destruct (labelled_as n (tcols df)) as [|c0 cs0] eqn:E; cbn [tcols].
  - rewrite labelled_as_app, E. unfold labelled_as. simpl.
    rewrite String.eqb_refl. simpl. eauto.
  - rewrite labelled_as_replace, E. simpl. eauto.
Qed.

Lemma draw_temp_outcome (df : Table) (nodes : list string) (mean : bool) :
  outcome (draw_temp df nodes mean) = outcome (plot_nodes df nodes).
Proof.
  destruct mean; [|reflexivity]. unfold draw_temp, loc_nodes.
  rewrite plot_nodes_eq, mapM_getitem.
  destruct (nodes_present df nodes); [|reflexivity]. cbn [bind].
  destruct (getitem_after_setitem df "mean_temperature"
              (mean_axis1 (List.length (index df))
                 (List.concat (map (fun n => labelled_as n (tcols df)) nodes))))
    as (c & cs & ->).
  reflexivity.
Qed.

Section MorePlots.

Variable str_to_datetime : string -> option Timestamp.

Local Abbreviation date_mask := (date_mask str_to_datetime).
Local Abbreviation plot_redox := (plot_redox str_to_datetime).
Local Abbreviation plot_temp := (plot_temp str_to_datetime).

(** X11. [plot_redox] raises TypeError when a date text cannot be read,
    KeyError when the dates are read and a node is no column of the
    table, and returns otherwise; [plot_temp] returns or raises in
    exactly the same cases, with or without [mean]. *)
Theorem plot_outcomes df nodes start_date end_date mean :
  outcome (plot_redox df nodes start_date end_date)
  = match str_to_datetime start_date, str_to_datetime end_date with
    | Some _, Some _ => if nodes_present df nodes then Ok tt else Raise KeyError
    | _, _ => Raise TypeError
    end /\
  outcome (plot_temp df nodes start_date end_date mean)
  = outcome (plot_redox df nodes start_date end_date).
Proof.
  unfold plot_redox, plot_temp, date_mask.
  destruct (str_to_datetime start_date) as [s|]; [|split; reflexivity].
  destruct (str_to_datetime end_date) as [e|]; [|split; reflexivity].
  cbn [bind]. rewrite draw_temp_outcome. split; [|reflexivity].
  rewrite plot_nodes_eq, nodes_present_select.
  now destruct (nodes_present df nodes).
Qed.

(** X12. When every node names exactly one column, [plot_redox] and
    [plot_temp] without [mean] draw one line per node, in the order of
    the nodes, each labelled with its node and holding the rows of that
    column whose stamp lies in the window. *)
Theorem one_line_per_node df nodes start_date end_date s e :
  str_to_datetime start_date = Some (At s) ->
  str_to_datetime end_date = Some (At e) ->
  (forall n, In n nodes -> List.length (labelled_as n (tcols df)) = 1%nat) ->
  plot_redox df nodes start_date end_date
  = Ok (map (fun n => mkLine (index (rows_in_window s e df))
                             (column_of n (rows_in_window s e df)) n) nodes) /\
  plot_temp df nodes start_date end_date false
  = plot_redox df nodes start_date end_date.
Proof.
  intros Hs He Hn. split; [|reflexivity].
  unfold plot_redox. rewrite (date_mask_window _ _ _ _ _ _ Hs He). cbn [bind].
  rewrite select_rows_window. set (W := rows_in_window s e df).
  assert (Hw : forall n, In n nodes ->
                 exists c, labelled_as n (tcols W) = [c]).
  { intros n Hin. unfold W. rewrite labelled_as_window.
    specialize (Hn n Hin).
    destruct (labelled_as n (tcols df)) as [|c [|c' cs]]; try discriminate.
    simpl. eauto. }
  rewrite plot_nodes_eq.
  replace (nodes_present W nodes) with true.
  - f_equal. clear Hn. induction nodes as [|n nodes IH]; [reflexivity|].
    cbn [map List.concat]. rewrite IH by (intros; apply Hw; simpl; auto).
    unfold column_of. destruct (Hw n (or_introl eq_refl)) as (c & ->). reflexivity.
  - symmetry. apply nodes_present_spec. intros n Hin.
    destruct (Hw n Hin) as (c & ->). discriminate.
Qed.

End MorePlots.

(** * Cleaning, then plotting *)

Lemma increasing_sorted (l : list Z) : strictly_increasing l -> StronglySorted Z.lt l.
Proof.
  induction l as [|a l IH]; intros H; constructor.
  - apply IH. intros i j Hij. apply (H (S i) (S j)). simpl. lia.
  - apply Forall_forall. intros x Hx.
    destruct (In_nth _ _ 0%Z Hx) as (i & Hi & <-).
    apply (H 0%nat (S i)). simpl. lia.
Qed.

Lemma sorted_increasing (l : list Z) : StronglySorted Z.lt l -> strictly_increasing l.
Proof.
  induction 1 as [|a l Hs IH Hf]; intros i j Hij; [simpl in Hij; lia|].
  simpl in Hij. destruct j as [|j]; [lia|]. destruct i as [|i]; simpl.
  - rewrite Forall_forall in Hf. apply Hf, nth_In. lia.
  - apply IH. lia.
Qed.

Lemma select_In {A} (mask : list bool) (l : list A) (x : A) :
  In x (select mask l) -> In x l.
Proof.
  revert mask. induction l as [|a l IH]; intros [|b mask]; simpl; try tauto.
  destruct b; simpl; intros H; [destruct H as [->|H]|]; eauto.
Qed.

Lemma select_sorted (mask : list bool) (l : list Z) :
  StronglySorted Z.lt l -> StronglySorted Z.lt (select mask l).
Proof.
  intros H. revert mask. induction H as [|a l Hs IH Hf]; intros [|b mask];
    simpl; try constructor.
  destruct b; [|apply IH]. constructor; [apply IH|].
  rewrite Forall_forall in *. intros x Hx. apply Hf. eapply select_In; eauto.
Qed.

Lemma select_length {A B} (mask : list bool) (l : list A) (l' : list B) :
  List.length l = List.length l' ->
  List.length (select mask l) = List.length (select mask l').
Proof.
  revert l l'. induction mask as [|b mask IH]; intros [|a l] [|a' l'];
    simpl; try discriminate; try reflexivity.
  intros [= H]. destruct b; simpl; auto.
Qed.

Lemma select_rows_rectangular (mask : list bool) (T : Table) :
  rectangular T -> rectangular (select_rows mask T).
Proof.
  unfold rectangular, select_rows. cbn [tcols index]. intros H.
  apply Forall_map. eapply Forall_impl; [|exact H].
  intros lc Hlc. cbn [snd]. now apply select_length.
Qed.

Lemma labelled_as_In (n : string) (cols : list (string * list num)) (c : list num) :
  In c (labelled_as n cols) -> In (n, c) cols.
Proof.
  unfold labelled_as. rewrite in_map_iff. intros ([l c'] & <- & H).
  apply filter_In in H. destruct H as (H & E). simpl in E.
  apply String.eqb_eq in E. now subst.
Qed.

Lemma plot_nodes_lines (T : Table) (nodes : list string) (lines : list Line) :
  plot_nodes T nodes = Ok lines ->
  forall ln, In ln lines ->
    xs ln = index T /\ In (label ln) nodes /\ In (label ln, ys ln) (tcols T).
Proof.
  rewrite plot_nodes_eq. destruct (nodes_present T nodes); [|discriminate].
  intros [= <-] ln Hin. apply in_concat in Hin. destruct Hin as (ls & Hls & Hin).
  apply in_map_iff in Hls. destruct Hls as (n & <- & Hn).
  apply in_map_iff in Hin. destruct Hin as (c & <- & Hc). cbn [xs ys label].
  auto using labelled_as_In.
Qed.

Lemma setitem_columns (df : Table) (n : string) (col : list num) (c : list num) :
  In c (labelled_as n (tcols (setitem df n col))) -> c = col.
Proof.
  unfold setitem.
  destruct (labelled_as n (tcols df)) as [|c0 cs0] eqn:E; cbn [tcols].
  - rewrite labelled_as_app, E. unfold labelled_as. simpl.
    rewrite String.eqb_refl. simpl. intros [<-|[]]. reflexivity.
  - rewrite labelled_as_replace. rewrite in_map_iff. now intros (_ & <- & _).
Qed.

Lemma setitem_index (df : Table) (n : string) (col : list num) :
  index (setitem df n col) = index df.
Proof.
  unfold setitem. now destruct (labelled_as n (tcols df)).
Qed.

Lemma draw_temp_lines (T : Table) (nodes : list string) (mean : bool)
    (lines : list Line) :
  rectangular T -> draw_temp T nodes mean = Ok lines ->
  forall ln, In ln lines ->
    xs ln = index T /\ List.length (ys ln) = List.length (xs ln).
Proof.
  intros Hrect H ln Hin. destruct mean.
  - unfold draw_temp in H. inv_bind H. inv_bind H. injection H as <-.
    apply in_map_iff in Hin. destruct Hin as (c & <- & Hc). cbn [xs ys].
    rewrite setitem_index. split; [reflexivity|].
    unfold getitem in Ha0.
    destruct (labelled_as _ _) as [|c0 cs0] eqn:E in Ha0; [discriminate|].
    injection Ha0 as <-. rewrite <- E in Hc. apply setitem_columns in Hc.
    subst c. unfold mean_axis1. now rewrite length_map, length_seq.
  - destruct (plot_nodes_lines _ _ _ H ln Hin) as (Hx & _ & Hc).
    split; [assumption|]. rewrite Hx. unfold rectangular in Hrect.
    rewrite Forall_forall in Hrect. apply (Hrect _ Hc).
Qed.

Section CleanThenPlot.

Variable str_to_num : string -> option num.
Variable to_datetime : Cell -> option Timestamp.
Variable str_to_datetime : string -> option Timestamp.

Local Abbreviation cleanup_with := (cleanup_with str_to_num to_datetime).
Local Abbreviation cleanup_redox := (cleanup_redox str_to_num to_datetime).
Local Abbreviation plot_redox := (plot_redox str_to_datetime).
Local Abbreviation plot_temp := (plot_temp str_to_datetime).

Lemma cleanup_shape offset p c rn r t :
  cleanup_with offset p c rn = Ok (r, t) ->
  rectangular r /\ rectangular t /\ index t = index r /\
  StronglySorted Z.lt (index r) /\
  (forall l, In l (map fst (tcols t)) ->
     exists l0, startswith "temp" l0 = true /\ l = rename_label rn l0).
Proof.
  intros H. apply cleanup_with_Ok in H.
  destruct H as (df & loc & times & redox & temp & lr
                 & _ & _ & Hs & _ & _ & Hr & _ & -> & ->).
  apply hourly_range_Ok in Hr. destruct Hr as (a & b & _ & _ & ->).
  apply split_Ok in Hs. destruct Hs as (_ & _ & _ & Ht & _).
  unfold rectangular. cbn [index tcols].
  split; [|split; [|split; [|split]]].
  - apply Forall_map, Forall_forall. intros lc _. apply length_map.
  - apply Forall_map, Forall_forall. intros lc _. apply length_map.
  - reflexivity.
  - apply increasing_sorted, date_range_increasing.
  - intros l. simpl. rewrite !map_map. simpl. rewrite <- (map_map fst), Ht.
    rewrite in_map_iff. intros (l0 & <- & Hl0).
    exists l0. split; [|reflexivity]. eapply header_labels_In; eauto.
Qed.

(** X13. Every line the plot functions draw from a table returned by
    [cleanup_redox] has as many y values as x values; its x values are
    stamps of the table, strictly increasing. *)
Theorem cleaned_tables_plot_well p c corr rn r t nodes start_date end_date mean lines :
  cleanup_redox p c corr rn = Ok (r, t) ->
  plot_redox r nodes start_date end_date = Ok lines
  \/ plot_temp t nodes start_date end_date mean = Ok lines ->
  forall ln, In ln lines ->
    List.length (ys ln) = List.length (xs ln) /\
    strictly_increasing (xs ln) /\
    forall x, In x (xs ln) -> In x (index r).
Proof.
  intros H Hp ln Hin. apply cleanup_shape in H.
  destruct H as (Rr & Rt & Ei & Hs & _).
  assert (Hgen : exists mask T m,
             rectangular T /\ index T = index r /\
             draw_temp (select_rows mask T) nodes m = Ok lines).
  { destruct Hp as [Hp|Hp].
    - unfold plot_redox in Hp. inv_bind Hp. exists a, r, false. auto.
    - unfold plot_temp in Hp. inv_bind Hp. exists a, t, mean. auto. }
  destruct Hgen as (mask & T & m & RT & ET & Hd).
  destruct (draw_temp_lines _ _ _ _ (select_rows_rectangular mask T RT) Hd ln Hin)
    as (Hx & Hl).
  split; [assumption|]. rewrite Hx. unfold select_rows. cbn [index]. rewrite ET.
  split; [now apply sorted_increasing, select_sorted|].
  intros x. apply select_In.
Qed.

Lemma plot_temp_mean_cleaned offset p c rn r t nodes start_date end_date mask :
  cleanup_with offset p c rn = Ok (r, t) ->
  avoids "mean_temperature" rn = true ->
  date_mask str_to_datetime (index t) start_date end_date = Ok mask ->
  nodes_present t nodes = true ->
  plot_temp t nodes start_date end_date true
  = Ok [mkLine (select mask (index t))
          (mean_axis1 (List.length (select mask (index t)))
                      (named_columns nodes (select_rows mask t)))
          "Mean temperature"].
Proof.
  intros H Ha Hm Hn. apply cleanup_shape in H.
  destruct H as (_ & _ & _ & _ & Hl).
  unfold plot_temp. rewrite Hm. cbn [bind].
  rewrite draw_temp_mean; [reflexivity | now rewrite nodes_present_select|].
  unfold select_rows. cbn [tcols]. rewrite labelled_as_select, length_map.
  rewrite labelled_as_absent; [simpl; lia|].
  intros Hin. destruct (Hl _ Hin) as (l0 & Hp & E). symmetry in E.
  apply (avoids_rename_label _ _ _ Ha) in E. subst l0. discriminate.
Qed.

(** X14. On the temperature table [cleanup_redox] returns, [plot_temp]
    with [mean] draws exactly one line, labelled Mean temperature,
    whenever the dates are read, every node is a column and the rename map
    names no column mean_temperature. *)
Theorem cleaned_table_one_mean_line p c corr rn r t nodes start_date end_date ds de :
  cleanup_redox p c corr rn = Ok (r, t) ->
  avoids "mean_temperature" rn = true ->
  str_to_datetime start_date = Some ds ->
  str_to_datetime end_date = Some de ->
  nodes_present t nodes = true ->
  exists x y, plot_temp t nodes start_date end_date true
              = Ok [mkLine x y "Mean temperature"].
Proof.
  intros H Ha Hs He Hn. unfold cleanup_redox in H. do 2 eexists.
  eapply plot_temp_mean_cleaned; eauto.
  unfold date_mask. now rewrite Hs, He.
Qed.

Lemma plot_temp_Ok_present t nodes start_date end_date lines :
  plot_temp t nodes start_date end_date false = Ok lines ->
  exists mask,
    date_mask str_to_datetime (index t) start_date end_date = Ok mask /\
    nodes_present t nodes = true /\
    plot_nodes (select_rows mask t) nodes = Ok lines.
Proof.
  unfold plot_temp. intros H. inv_bind H. exists a.
  split; [assumption|]. split; [|exact H].
  unfold draw_temp in H. rewrite plot_nodes_eq, nodes_present_select in H.
  now destruct (nodes_present t nodes).
Qed.

(** X15. When the script CW_redox.py runs through, its third figure
    holds the lines of the first followed by exactly one line, labelled
    Mean temperature; the lines of the first figure are labelled with
    nodes of the group CW2_80cm, those of the second with nodes of the
    script's temperature list, and all lines have the same x values. *)
Theorem script_figures content figs :
  CW_redox str_to_num to_datetime str_to_datetime content = Ok figs ->
  exists fig1 fig2 x y,
    figs = [fig1; fig2; fig1 ++ [mkLine x y "Mean temperature"]] /\
    (forall ln, In ln fig1 ->
       In (label ln) ["CW2S1-4"; "CW2S2-4"; "CW2S3-4"; "CW2S4-4"] /\ xs ln = x) /\
    (forall ln, In ln fig2 -> In (label ln) Script.temp_nodes /\ xs ln = x).
Proof.
  unfold CW_redox. intros H.
  destruct (cleanup_redox _ _ _ _) as [[r t]|e] eqn:Hc; [|discriminate].
  cbn [bind fst snd] in H. inv_bind H. vm_compute in Ha. injection Ha as <-.
  destruct (plot_redox r _ _ _) as [fig1|e] eqn:H1; [|discriminate].
  cbn [bind] in H.
  destruct (plot_temp t _ _ _ false) as [fig2|e] eqn:H2; [|discriminate].
  cbn [bind] in H.
  destruct (plot_temp_Ok_present _ _ _ _ _ H2) as (mask & Hm & Hn & Hl2).
  unfold cleanup_redox in Hc.
  rewrite (plot_temp_mean_cleaned _ _ _ _ _ _ _ _ _ _ Hc eq_refl Hm Hn) in H.
  cbn [bind] in H. injection H as <-.
  do 4 eexists. split; [reflexivity|].
  apply cleanup_shape in Hc. destruct Hc as (_ & _ & Ei & _).
  unfold plot_redox in H1. rewrite <- Ei, Hm in H1. cbn [bind] in H1.
  split; intros ln Hin.
  - destruct (plot_nodes_lines _ _ _ H1 ln Hin) as (Hx & Hlab & _).
    split; [exact Hlab|]. rewrite Hx. unfold select_rows. cbn [index].
    now rewrite Ei.
  - destruct (plot_nodes_lines _ _ _ Hl2 ln Hin) as (Hx & Hlab & _).
    split; [exact Hlab|]. now rewrite Hx.
Qed.

End CleanThenPlot.

(** * The further properties on the sample files *)

(** The gap file: the header is row 0 of the frame, RECORD is column 1,
    three preamble rows are dropped. *)
Lemma locate_drops_preamble_witness :
  exists df loc,
    load "log.dat" Sample.gap_file = Ok (Some df) /\
    locate df = Ok loc /\
    exists h,
      header_row df h (columns loc) /\
      (exists j, nth_error (columns loc) j = Some (Str "RECORD")) /\
      forall j, record_column (columns loc) j ->
        exists pre first rest,
          rows df = pre ++ first :: rest /\
          rows loc = first :: rest /\
          nth j first (Num NaN) = Str "0" /\
          forall r, In r pre -> nth j r (Num NaN) <> Str "0".
Proof.
  do 2 eexists. split; [vm_compute; reflexivity|].
  split; [vm_compute; reflexivity|].
  apply locate_drops_preamble. vm_compute. reflexivity.
Defined.

Lemma cleanup_redox_labels_witness :
  exists r t,
    cleanup_redox Logger.str_to_num Logger.to_datetime
      "log.dat" pilot_file (Val 200) (Some CW_rename) = Ok (r, t) /\
    exists df loc,
      load "log.dat" pilot_file = Ok (Some df) /\ locate df = Ok loc /\
      map fst (tcols r)
      = map (rename_label (Some CW_rename)) (header_labels "redox" (columns loc)) /\
      map fst (tcols t)
      = map (rename_label (Some CW_rename)) (header_labels "temp" (columns loc)).
Proof.
  do 2 eexists. split; [vm_compute; reflexivity|].
  apply (cleanup_redox_labels Logger.str_to_num Logger.to_datetime
           "log.dat" pilot_file (Val 200) (Some CW_rename)).
  vm_compute. reflexivity.
Defined.

Lemma cleanup_redox_row_count_witness :
  exists r t,
    cleanup_redox Logger.str_to_num Logger.to_datetime
      "log.dat" Sample.gap_file (Val 200) None = Ok (r, t) /\
    exists sr st a b,
      before_reindex Logger.str_to_num Logger.to_datetime
        "log.dat" Sample.gap_file (Val 200) None = Ok (sr, st) /\
      hd_error (sindex sr) = Some (At a) /\ last (sindex sr) NaT = At b /\
      Z.of_nat (List.length (index r))
      = (if (b <? a)%Z then 0 else (b - a) / hour + 1)%Z /\
      List.length (index t) = List.length (index r).
Proof.
  do 2 eexists. split; [vm_compute; reflexivity|].
  apply (cleanup_redox_row_count Logger.str_to_num Logger.to_datetime
           "log.dat" Sample.gap_file (Val 200) None).
  vm_compute. reflexivity.
Defined.

(** A map that renames the redox channel of the gap file. *)
Lemma rename_is_label_only_witness :
  exists r0 t0,
    cleanup_redox Logger.str_to_num Logger.to_datetime
      "log.dat" Sample.gap_file (Val 200) None = Ok (r0, t0) /\
    keeps_time (Some [("redox_raw_Avg(1)", "top")]) (map fst (tcols r0)) = true /\
    keeps_time (Some [("redox_raw_Avg(1)", "top")]) (map fst (tcols t0)) = true /\
    distinct (map (rename_label (Some [("redox_raw_Avg(1)", "top")]))
                  (map fst (tcols r0))) = true /\
    distinct (map (rename_label (Some [("redox_raw_Avg(1)", "top")]))
                  (map fst (tcols t0))) = true /\
    cleanup_redox Logger.str_to_num Logger.to_datetime
      "log.dat" Sample.gap_file (Val 200) (Some [("redox_raw_Avg(1)", "top")])
    = Ok (relabel (Some [("redox_raw_Avg(1)", "top")]) r0,
          relabel (Some [("redox_raw_Avg(1)", "top")]) t0).
Proof.
  do 2 eexists. split; [vm_compute; reflexivity|].
  do 4 (split; [vm_compute; reflexivity|]).
  apply (rename_is_label_only Logger.str_to_num Logger.to_datetime
           "log.dat" Sample.gap_file (Val 200)
           (Some [("redox_raw_Avg(1)", "top")]));
    vm_compute; reflexivity.
Defined.

Lemma CW_rename_never_fails_witness :
  exists r0 t0,
    cleanup_redox Logger.str_to_num Logger.to_datetime
      "log.dat" Sample.gap_file (Val 200) None = Ok (r0, t0) /\
    cleanup_redox Logger.str_to_num Logger.to_datetime
      "log.dat" Sample.gap_file (Val 200) (Some CW_rename)
    = Ok (relabel (Some CW_rename) r0, relabel (Some CW_rename) t0).
Proof.
  do 2 eexists. split; [vm_compute; reflexivity|].
  apply (CW_rename_never_fails Logger.str_to_num Logger.to_datetime
           "log.dat" Sample.gap_file (Val 200)).
  vm_compute. reflexivity.
Defined.

(** The gap file with its redox channel renamed to Time: the redox
    subset gets a two-level index, and line 79 raises TypeError. *)
Lemma outcome_after_coercion_witness :
  exists dr dt,
    after_set_index Logger.str_to_num Logger.to_datetime
      "log.dat" Sample.gap_file (Val 200) (Some [("redox_raw_Avg(1)", "Time")])
    = Ok (dr, dt) /\
    rename_label (Some [("redox_raw_Avg(1)", "Time")]) "Time" = "Time" /\
    dr = TwoLevel /\
    exists times,
      times <> [] /\
      (forall sr, dr = Stamped sr -> sindex sr = times) /\
      (forall st, dt = Stamped st -> sindex st = times) /\
      dr <> ByCells /\ dt <> ByCells /\
      outcome (cleanup_redox Logger.str_to_num Logger.to_datetime
                 "log.dat" Sample.gap_file (Val 200)
                 (Some [("redox_raw_Avg(1)", "Time")]))
      = match dr with
        | Stamped _ =>
            match hd_error times, last times NaT with
            | Some (At _), At _ =>
                match dt with
                | Stamped _ => if is_unique times then Ok tt else Raise ValueError
                | _ => Raise TypeError
                end
            | _, _ => Raise ValueError
            end
        | _ => Raise TypeError
        end.
Proof.
  do 2 eexists. split; [vm_compute; reflexivity|].
  split; [reflexivity|]. split; [reflexivity|].
  apply (outcome_after_coercion Logger.str_to_num Logger.to_datetime
           "log.dat" Sample.gap_file (Val 200)
           (Some [("redox_raw_Avg(1)", "Time")])).
  - vm_compute. reflexivity.
  - reflexivity.
Defined.

Lemma regular_log_unchanged_witness :
  exists sr st,
    before_reindex Logger.str_to_num Logger.to_datetime
      "log.dat" regular_file (Val 200) None = Ok (sr, st) /\
    sindex sr = map At [Sample.t0; Sample.t0 + hour; Sample.t0 + 2 * hour]%Z /\
    hourly [Sample.t0; Sample.t0 + hour; Sample.t0 + 2 * hour]%Z /\
    cleanup_redox Logger.str_to_num Logger.to_datetime
      "log.dat" regular_file (Val 200) None
    = Ok (mkTable [Sample.t0; Sample.t0 + hour; Sample.t0 + 2 * hour]%Z (scols sr),
          mkTable [Sample.t0; Sample.t0 + hour; Sample.t0 + 2 * hour]%Z (scols st)).
Proof.
  assert (Hh : hourly [Sample.t0; Sample.t0 + hour; Sample.t0 + 2 * hour]%Z).
  { intros [|[|i]] Hi; simpl in Hi; try lia; vm_compute; reflexivity. }
  do 2 eexists. split; [vm_compute; reflexivity|].
  split; [vm_compute; reflexivity|]. split; [exact Hh|].
  apply (regular_log_unchanged Logger.str_to_num Logger.to_datetime
           "log.dat" regular_file (Val 200) None _ _
           [Sample.t0; Sample.t0 + hour; Sample.t0 + 2 * hour]%Z);
    [vm_compute; reflexivity | vm_compute; reflexivity | exact Hh].
Defined.

Lemma missing_battery_column_raises_witness :
  exists df loc times,
    load "log.dat" no_battery_file = Ok (Some df) /\
    locate df = Ok loc /\
    time_column Logger.to_datetime loc = Ok times /\
    (List.length (positions "Time" (columns loc)) <= 1)%nat /\
    positions "batt_volt_Avg" (columns loc) = [] /\
    cleanup_redox Logger.str_to_num Logger.to_datetime
      "log.dat" no_battery_file (Val 200) None = Raise KeyError.
Proof.
  do 3 eexists. split; [vm_compute; reflexivity|].
  split; [vm_compute; reflexivity|]. split; [vm_compute; reflexivity|].
  split; [vm_compute; lia|]. split; [vm_compute; reflexivity|].
  eapply (missing_battery_column_raises Logger.str_to_num Logger.to_datetime
            "log.dat" no_battery_file (Val 200) None);
    [vm_compute; reflexivity | vm_compute; reflexivity | vm_compute; reflexivity
     | vm_compute; lia | vm_compute; reflexivity].
Defined.

Lemma unreadable_stamp_raises_witness :
  exists df loc,
    load "log.dat" bad_stamp_file = Ok (Some df) /\
    locate df = Ok loc /\
    loc_column "TIMESTAMP" (columns loc) = Ok 0%nat /\
    In [Str "yesterday"; Str "1"; Str "12.5"; Str "-231"; Str "18.0"] (rows loc) /\
    Logger.to_datetime (Str "yesterday") = None /\
    cleanup_redox Logger.str_to_num Logger.to_datetime
      "log.dat" bad_stamp_file (Val 200) None = Raise ValueError.
Proof.
  do 2 eexists. split; [vm_compute; reflexivity|].
  split; [vm_compute; reflexivity|]. split; [vm_compute; reflexivity|].
  split; [simpl; auto|]. split; [vm_compute; reflexivity|].
  eapply (unreadable_stamp_raises Logger.str_to_num Logger.to_datetime
            "log.dat" bad_stamp_file (Val 200) None _ _ 0%nat
            [Str "yesterday"; Str "1"; Str "12.5"; Str "-231"; Str "18.0"]);
    [vm_compute; reflexivity | vm_compute; reflexivity | vm_compute; reflexivity
     | simpl; auto | vm_compute; reflexivity].
Defined.

Lemma one_line_per_node_witness :
  (forall n, In n ["CW1S3"; "CW1S1"] ->
     List.length (labelled_as n (tcols Sample.temperatures)) = 1%nat) /\
  plot_redox Logger.str_to_datetime Sample.temperatures ["CW1S3"; "CW1S1"]
    "2024-09-01" "2024-09-01 03:00:00"
  = Ok [mkLine [Sample.t0 + hour; Sample.t0 + 2 * hour; Sample.t0 + 3 * hour]%Z
          [Val 18; NaN; Val 15] "CW1S3";
        mkLine [Sample.t0 + hour; Sample.t0 + 2 * hour; Sample.t0 + 3 * hour]%Z
          [Val 17; NaN; Val 16] "CW1S1"].
Proof.
  assert (Hn : forall n, In n ["CW1S3"; "CW1S1"] ->
                 List.length (labelled_as n (tcols Sample.temperatures)) = 1%nat).
  { intros n [<-|[<-|[]]]; vm_compute; reflexivity. }
  split; [exact Hn|].
  pose proof (one_line_per_node Logger.str_to_datetime Sample.temperatures
                ["CW1S3"; "CW1S1"] "2024-09-01" "2024-09-01 03:00:00"
                Sample.t0 (Sample.t0 + 3 * hour)%Z
                ltac:(vm_compute; reflexivity) ltac:(vm_compute; reflexivity) Hn)
    as (Hp & _).
  rewrite Hp. vm_compute. reflexivity.
Defined.

Lemma cleaned_tables_plot_well_witness :
  exists r t lines ln,
    cleanup_redox Logger.str_to_num Logger.to_datetime
      "log.dat" Sample.gap_file (Val 200) None = Ok (r, t) /\
    plot_redox Logger.str_to_datetime r ["redox_raw_Avg(1)"]
      "2024-09-01" "2024-09-02" = Ok lines /\
    In ln lines /\
    List.length (ys ln) = List.length (xs ln) /\
    strictly_increasing (xs ln) /\
    forall x, In x (xs ln) -> In x (index r).
Proof.
  do 4 eexists. split; [vm_compute; reflexivity|].
  split; [vm_compute; reflexivity|]. split; [left; reflexivity|].
  eapply (cleaned_tables_plot_well Logger.str_to_num Logger.to_datetime
            Logger.str_to_datetime "log.dat" Sample.gap_file (Val 200) None
            _ _ ["redox_raw_Avg(1)"] "2024-09-01" "2024-09-02" false);
    [vm_compute; reflexivity | left; vm_compute; reflexivity | left; reflexivity].
Defined.

Lemma cleaned_table_one_mean_line_witness :
  exists r t,
    cleanup_redox Logger.str_to_num Logger.to_datetime
      "log.dat" pilot_file (Val 200) (Some CW_rename) = Ok (r, t) /\
    nodes_present t Script.temp_nodes = true /\
    exists x y,
      plot_temp Logger.str_to_datetime t Script.temp_nodes
        "2024-09-01" "2025-03-04" true
      = Ok [mkLine x y "Mean temperature"].
Proof.
  do 2 eexists. split; [vm_compute; reflexivity|].
  split; [vm_compute; reflexivity|].
  eapply (cleaned_table_one_mean_line Logger.str_to_num Logger.to_datetime
            Logger.str_to_datetime "log.dat" pilot_file (Val 200) (Some CW_rename));
    vm_compute; reflexivity.
Defined.

Lemma script_figures_witness :
  exists figs,
    CW_redox Logger.str_to_num Logger.to_datetime Logger.str_to_datetime pilot_file
    = Ok figs /\
    exists fig1 fig2 x y,
      figs = [fig1; fig2; fig1 ++ [mkLine x y "Mean temperature"]] /\
      (forall ln, In ln fig1 ->
         In (label ln) ["CW2S1-4"; "CW2S2-4"; "CW2S3-4"; "CW2S4-4"] /\ xs ln = x) /\
      (forall ln, In ln fig2 -> In (label ln) Script.temp_nodes /\ xs ln = x).
Proof.
  eexists. split; [vm_compute; reflexivity|].
  apply (script_figures Logger.str_to_num Logger.to_datetime Logger.str_to_datetime
           pilot_file).
  vm_compute. reflexivity.
Defined.

(** * Values, empty windows, one-node means, node groups *)

Lemma select_none {A B} (f : A -> bool) (idx : list A) (col : list B) :
  (forall x, In x idx -> f x = false) -> select (map f idx) col = [].
Proof.
  revert col. induction idx as [|a idx IH]; intros [|b col] H; simpl; try reflexivity.
  rewrite (H a) by (simpl; auto). apply IH. intros x Hx. apply H. simpl. auto.
Qed.

Lemma nanmean_one (v : num) : num_eq (nanmean [v]) v.
Proof.
  destruct v as [|q]; [exact I|].
  unfold nanmean, count_valid, nansum. simpl.
  unfold Qdiv. change (/ inject_Z 1)%Q with 1%Q. ring.
Qed.

Lemma dict_getitem_In {V} (d : list (string * V)) (k : string) (v : V) :
  dict_getitem d k = Ok v -> In (k, v) d.
Proof.
  induction d as [|[k' v'] d IH]; simpl; [discriminate|].
  destruct (String.eqb_spec k' k) as [->|_]; [intros [= ->]; auto | auto].
Qed.

Lemma header_labels_intro (p s : string) (labels : list Cell) :
  In (Str s) labels -> startswith p s = true -> In s (header_labels p labels).
Proof.
  intros Hin Hp. unfold header_labels. apply in_flat_map.
  exists (Str s). split; [assumption|]. rewrite Hp. simpl. auto.
Qed.

Lemma labelled_as_nonempty (n : string) (cols : list (string * list num)) :
  In n (map fst cols) -> labelled_as n cols <> [].
Proof.
  unfold labelled_as. induction cols as [|[l c] cols IH]; simpl; [tauto|].
  destruct (String.eqb_spec l n) as [->|Hne]; [discriminate|].
  intros [E|H]; [contradiction | auto].
Qed.

Lemma groups_are_renamed_channels (group n : string) (nodes : list string) :
  dict_getitem node_dictionary group = Ok nodes -> In n nodes ->
  exists k, In k (map fst CW_rename) /\ startswith "redox" k = true /\
            rename_label (Some CW_rename) k = n.
Proof.
  intros Hg Hn. apply dict_getitem_In in Hg.
  assert (Hchk : forallb (fun gn : string * list string =>
                   forallb (fun m =>
                     existsb (fun kv : string * string =>
                                startswith "redox" (fst kv)
                                && String.eqb (rename_label (Some CW_rename) (fst kv)) m)
                             CW_rename) (snd gn)) node_dictionary = true)
    by (vm_compute; reflexivity).
  rewrite forallb_forall in Hchk. specialize (Hchk _ Hg). cbn [snd] in Hchk.
  rewrite forallb_forall in Hchk. specialize (Hchk _ Hn).
  apply existsb_exists in Hchk. destruct Hchk as ([k v] & Hin & Hk).
  apply andb_prop in Hk. destruct Hk as (Hp & He). cbn [fst] in *.
  apply String.eqb_eq in He. exists k. split; [|auto].
  apply in_map_iff. exists (k, v). auto.
Qed.

Section Values.

Variable str_to_num : string -> option num.
Variable to_datetime : Cell -> option Timestamp.
Variable str_to_datetime : string -> option Timestamp.

Local Abbreviation to_numeric := (to_numeric str_to_num).
Local Abbreviation cleaned := (cleaned str_to_num).
Local Abbreviation raw_subsets := (raw_subsets to_datetime).
Local Abbreviation cleanup_redox := (cleanup_redox str_to_num to_datetime).
Local Abbreviation parsed_raw := (parsed_raw str_to_num to_datetime).
Local Abbreviation plot_redox := (plot_redox str_to_datetime).
Local Abbreviation plot_temp := (plot_temp str_to_datetime).

Lemma reindexed_value offset rn times cols lr k j i ts cell :
  is_unique times = true ->
  nth_error times j = Some (At ts) -> nth_error lr i = Some ts ->
  cell_at cols k j = Some cell ->
  value_at (map (fun lc : string * list num =>
                   (fst lc, map (take times (snd lc)) lr))
                (scols (cleaned offset rn times cols))) k i
  = Some (offset (to_numeric cell)).
Proof.
  intros Hu Hj Hi Hc.
  assert (R : reindex (cleaned offset rn times cols) lr
              = Ok (mkTable lr
                      (map (fun lc : string * list num =>
                              (fst lc, map (take times (snd lc)) lr))
                           (scols (cleaned offset rn times cols))))).
  { unfold reindex, cleaned. cbn [sindex].
    now rewrite Hu. }
  apply reindex_reindexed in R. destruct R as (_ & R). cbn [index tcols] in R.
  assert (Hk : (k < List.length (scols (cleaned offset rn times cols)))%nat).
  { unfold cleaned. cbn [scols]. rewrite length_map. unfold cell_at in Hc.
    apply nth_error_Some. destruct (nth_error cols k); discriminate. }
  apply (proj2 (R k i ts Hk Hi) j); [exact Hj|].
  now apply cleaned_value.
Qed.

(** X16. In the tables [cleanup_redox] returns, the entry of a redox
    column at a stamp of the source is the number read from the source
    cell plus the correction, and the entry of a temperature column is
    the number read from the source cell. *)
Theorem cleaned_values p c corr rn r t :
  cleanup_redox p c corr rn = Ok (r, t) ->
  exists df times redox temp,
    load p c = Ok (Some df) /\
    raw_subsets df = Ok (times, redox, temp) /\
    forall k j i ts cell,
      nth_error times j = Some (At ts) ->
      (cell_at redox k j = Some cell -> nth_error (index r) i = Some ts ->
       value_at (tcols r) k i = Some (num_add (to_numeric cell) corr)) /\
      (cell_at temp k j = Some cell -> nth_error (index t) i = Some ts ->
       value_at (tcols t) k i = Some (to_numeric cell)).
Proof.
  intros H. apply cleanup_with_Ok in H.
  destruct H as (df & loc & times & redox & temp & lr
                 & Hl & Hloc & Hs & _ & _ & _ & Hu & -> & ->).
  exists df, times, redox, temp. split; [assumption|]. split.
  - unfold raw_subsets. rewrite Hloc. exact Hs.
  - intros k j i ts cell Hj. cbn [index tcols]. split; intros Hc Hi.
    + now apply (reindexed_value (fun v => num_add v corr)) with (j := j) (ts := ts).
    + now apply (reindexed_value (fun v => v)) with (j := j) (ts := ts).
Qed.

(** C3. [cleanup_redox] adds the correction to every value of the redox
    table and to no value of the temperature table. At a stamp of the
    source, the entry of a redox column is the number read from the source
    cell plus the correction (the marker when the cell is no number), and
    the entry of a temperature column is the number read from the source
    cell. With correction 0 the function returns as well, the same
    temperature table, and every such redox entry is numerically equal to
    the number read from the cell. As a whole, the result is the pair of
    tables of parsed raw values with the redox one shifted. *)
Theorem cleanup_redox_correction p c corr rn r t :
  cleanup_redox p c corr rn = Ok (r, t) ->
  exists df times redox temp,
    load p c = Ok (Some df) /\
    raw_subsets df = Ok (times, redox, temp) /\
    (forall k j i ts cell,
        nth_error times j = Some (At ts) ->
        (cell_at redox k j = Some cell -> nth_error (index r) i = Some ts ->
         value_at (tcols r) k i
         = Some (match to_numeric cell, corr with
                 | Val q, Val d => Val (q + d)
                 | _, _ => NaN
                 end)) /\
        (cell_at temp k j = Some cell -> nth_error (index t) i = Some ts ->
         value_at (tcols t) k i = Some (to_numeric cell))) /\
    (exists r0,
        cleanup_redox p c (Val 0) rn = Ok (r0, t) /\
        index r0 = index r /\
        forall k j i ts cell,
          nth_error times j = Some (At ts) ->
          cell_at redox k j = Some cell -> nth_error (index r0) i = Some ts ->
          exists v, value_at (tcols r0) k i = Some v /\ num_eq v (to_numeric cell)) /\
    exists R, parsed_raw p c rn = Ok (R, t) /\ r = shift corr R.
Proof.
  intros H.
  pose proof (cleanup_redox_shift str_to_num to_datetime p c corr rn) as Hshift.
  pose proof (cleanup_redox_shift str_to_num to_datetime p c (Val 0) rn) as Hzero.
  rewrite H in Hshift.
  destruct (parsed_raw p c rn) as [[R T]|e]; [|discriminate].
  injection Hshift as Er0 ->.
  pose proof (cleanup_with_Ok _ _ _ _ _ _ _ _ H)
    as (df & loc & times & redox & temp & lr
        & Hl & Hloc & Hs & _ & _ & _ & Hu & Er & Et).
  exists df, times, redox, temp. split; [assumption|].
  split; [unfold raw_subsets; rewrite Hloc; exact Hs|].
  assert (Hv : forall corr' r' t',
             cleanup_redox p c corr' rn = Ok (r', t') ->
             forall k j i ts cell,
               nth_error times j = Some (At ts) ->
               cell_at redox k j = Some cell -> nth_error (index r') i = Some ts ->
               value_at (tcols r') k i = Some (num_add (to_numeric cell) corr')).
  { intros corr' r' t' H'. apply cleanup_with_Ok in H'.
    destruct H' as (df' & loc' & times' & redox' & temp' & lr'
                    & Hl' & Hloc' & Hs' & _ & _ & _ & Hu' & Er' & _).
    rewrite Hl in Hl'. injection Hl' as <-.
    rewrite Hloc in Hloc'. injection Hloc' as <-.
    rewrite Hs in Hs'. injection Hs' as <- <- <-.
    intros k j i ts cell Hj Hc Hi. rewrite Er' in Hi |- *.
    cbn [index tcols] in Hi |- *.
    now apply (reindexed_value (fun v => num_add v corr')) with (j := j) (ts := ts). }
  split; [|split].
  - intros k j i ts cell Hj. split; intros Hc Hi.
    + rewrite (Hv corr r T H k j i ts cell Hj Hc Hi). reflexivity.
    + rewrite Et in Hi |- *. cbn [index tcols] in Hi |- *.
      now apply (reindexed_value (fun v => v)) with (j := j) (ts := ts).
  - exists (shift (Val 0) R). split; [exact Hzero|].
    split; [rewrite Er0; reflexivity|].
    intros k j i ts cell Hj Hc Hi.
    exists (num_add (to_numeric cell) (Val 0)).
    split; [apply (Hv (Val 0) _ T Hzero k j i ts cell Hj Hc Hi) | apply num_add_0].
  - exists R. split; [reflexivity | exact Er0].
Qed.

(** X17. When the end date is not after the start date, every line the
    plot functions draw is empty: no x value, no y value. *)
Theorem empty_window_empty_lines df nodes start_date end_date mean s e lines :
  str_to_datetime start_date = Some (At s) ->
  str_to_datetime end_date = Some (At e) ->
  (e <= s)%Z ->
  plot_redox df nodes start_date end_date = Ok lines
  \/ plot_temp df nodes start_date end_date mean = Ok lines ->
  forall ln, In ln lines -> xs ln = [] /\ ys ln = [].
Proof.
  intros Hs He Hle Hp ln Hin.
  set (f := fun t => after (At s) t && not_after (At e) t).
  assert (Hf : forall x, In x (index df) -> f x = false).
  { intros x _. unfold f. simpl.
    destruct (Z.ltb_spec s x); destruct (Z.leb_spec x e); try reflexivity. lia. }
  set (W := select_rows (map f (index df)) df).
  assert (HW : index W = [] /\ rectangular W).
  { unfold W, select_rows, rectangular. cbn [index tcols].
    rewrite (select_none f) by assumption. split; [reflexivity|].
    apply Forall_map, Forall_forall. intros lc _. cbn [snd].
    now rewrite (select_none f). }
  destruct HW as (Hi & Hr).
  assert (Hd : exists m, draw_temp W nodes m = Ok lines).
  { destruct Hp as [Hp|Hp].
    - unfold plot_redox, date_mask in Hp. rewrite Hs, He in Hp. now exists false.
    - unfold plot_temp, date_mask in Hp. rewrite Hs, He in Hp. now exists mean. }
  destruct Hd as (m & Hd).
  destruct (draw_temp_lines _ _ _ _ Hr Hd ln Hin) as (Hx & Hl).
  rewrite Hi in Hx. split; [assumption|].
  rewrite Hx in Hl. now destruct (ys ln).
Qed.

(** X18. The mean over a single node is that node: with [mean] set and
    one node that names exactly one column, the line of [plot_temp] is
    numerically equal, row by row, to that column over the window. *)
Theorem mean_of_one_node df n start_date end_date s e :
  str_to_datetime start_date = Some (At s) ->
  str_to_datetime end_date = Some (At e) ->
  List.length (labelled_as n (tcols df)) = 1%nat ->
  (List.length (labelled_as "mean_temperature" (tcols df)) <= 1)%nat ->
  exists y,
    plot_temp df [n] start_date end_date true
    = Ok [mkLine (index (rows_in_window s e df)) y "Mean temperature"] /\
    forall i, (i < List.length (index (rows_in_window s e df)))%nat ->
      num_eq (nth i y NaN) (nth i (column_of n (rows_in_window s e df)) NaN).
Proof.
  intros Hs He Hn Hm. set (W := rows_in_window s e df).
  assert (Hc : exists c, labelled_as n (tcols W) = [c]).
  { unfold W. rewrite labelled_as_window.
    destruct (labelled_as n (tcols df)) as [|c [|c' cs]]; try discriminate.
    simpl. eauto. }
  destruct Hc as (c & Hc).
  exists (mean_axis1 (List.length (index W)) (named_columns [n] W)). split.
  - rewrite (plot_temp_window _ _ _ _ _ _ _ _ Hs He). fold W.
    apply draw_temp_mean.
    + apply nodes_present_spec. intros m [<-|[]]. rewrite Hc. discriminate.
    + unfold W. now rewrite labelled_as_window, length_map.
  - intros i Hi. unfold mean_axis1. rewrite nth_map_seq by assumption.
    unfold named_columns, column_of. cbn [map List.concat]. rewrite Hc. simpl.
    apply nanmean_one.
Qed.

(** X19. When the header carries every channel the renaming table of the
    pilot study names, every group of [node_dictionary] can be plotted
    from the redox table cleaned with that renaming: each of its nodes
    is a column. *)
Theorem node_groups_are_columns p c corr r t df loc group nodes :
  cleanup_redox p c corr (Some CW_rename) = Ok (r, t) ->
  load p c = Ok (Some df) -> locate df = Ok loc ->
  (forall k, In k (map fst CW_rename) -> In (Str k) (columns loc)) ->
  dict_getitem node_dictionary group = Ok nodes ->
  nodes_present r nodes = true.
Proof.
  intros H Hl Hloc Hall Hg. apply cleanup_with_Ok in H.
  destruct H as (df' & loc' & times & redox & temp & lr
                 & Hl' & Hloc' & Hs & _ & _ & _ & _ & -> & _).
  rewrite Hl in Hl'. injection Hl' as <-.
  rewrite Hloc in Hloc'. injection Hloc' as <-.
  apply split_Ok in Hs. destruct Hs as (_ & _ & Hr & _).
  apply nodes_present_spec. intros n Hn. apply labelled_as_nonempty.
  cbn [tcols]. rewrite !map_map. cbn [fst]. unfold cleaned. cbn [scols].
  rewrite map_map. cbn [fst].
  destruct (groups_are_renamed_channels _ _ _ Hg Hn) as (k & Hk & Hp & <-).
  rewrite <- (map_map fst (rename_label (Some CW_rename))), Hr.
  apply in_map. apply header_labels_intro; auto.
Qed.

End Values.

Lemma labels_carried (ks : list string) (cols : list Cell) :
  forallb (fun k => existsb (cell_is k) cols) ks = true ->
  forall k, In k ks -> In (Str k) cols.
Proof.
  rewrite forallb_forall. intros H k Hk. specialize (H k Hk).
  apply existsb_exists in H. destruct H as (c & Hc & E).
  apply cell_is_true in E. now subst.
Qed.

Lemma cleaned_values_witness :
  exists r t,
    cleanup_redox Logger.str_to_num Logger.to_datetime
      "log.dat" Sample.gap_file (Val 200) None = Ok (r, t) /\
    exists df times redox temp,
      load "log.dat" Sample.gap_file = Ok (Some df) /\
      raw_subsets Logger.to_datetime df = Ok (times, redox, temp) /\
      forall k j i ts cell,
        nth_error times j = Some (At ts) ->
        (cell_at redox k j = Some cell -> nth_error (index r) i = Some ts ->
         value_at (tcols r) k i
         = Some (num_add (to_numeric Logger.str_to_num cell) (Val 200))) /\
        (cell_at temp k j = Some cell -> nth_error (index t) i = Some ts ->
         value_at (tcols t) k i = Some (to_numeric Logger.str_to_num cell)).
Proof.
  do 2 eexists. split; [vm_compute; reflexivity|].
  apply (cleaned_values Logger.str_to_num Logger.to_datetime
           "log.dat" Sample.gap_file (Val 200) None).
  vm_compute. reflexivity.
Defined.

(** The gap file with correction 200. *)
Lemma cleanup_redox_correction_witness :
  exists r t,
    cleanup_redox Logger.str_to_num Logger.to_datetime
      "log.dat" Sample.gap_file (Val 200) None = Ok (r, t) /\
    exists df times redox temp,
      load "log.dat" Sample.gap_file = Ok (Some df) /\
      raw_subsets Logger.to_datetime df = Ok (times, redox, temp) /\
      (forall k j i ts cell,
          nth_error times j = Some (At ts) ->
          (cell_at redox k j = Some cell -> nth_error (index r) i = Some ts ->
           value_at (tcols r) k i
           = Some (match to_numeric Logger.str_to_num cell, Val 200 with
                   | Val q, Val d => Val (q + d)
                   | _, _ => NaN
                   end)) /\
          (cell_at temp k j = Some cell -> nth_error (index t) i = Some ts ->
           value_at (tcols t) k i = Some (to_numeric Logger.str_to_num cell))) /\
      (exists r0,
          cleanup_redox Logger.str_to_num Logger.to_datetime
            "log.dat" Sample.gap_file (Val 0) None = Ok (r0, t) /\
          index r0 = index r /\
          forall k j i ts cell,
            nth_error times j = Some (At ts) ->
            cell_at redox k j = Some cell -> nth_error (index r0) i = Some ts ->
            exists v, value_at (tcols r0) k i = Some v
                      /\ num_eq v (to_numeric Logger.str_to_num cell)) /\
      exists R, parsed_raw Logger.str_to_num Logger.to_datetime
                  "log.dat" Sample.gap_file None = Ok (R, t)
                /\ r = shift (Val 200) R.
Proof.
  do 2 eexists. split; [vm_compute; reflexivity|].
  apply (cleanup_redox_correction Logger.str_to_num Logger.to_datetime
           "log.dat" Sample.gap_file (Val 200) None).
  vm_compute. reflexivity.
Defined.

(** The window ends where it starts. *)
Lemma empty_window_empty_lines_witness :
  exists lines ln,
    plot_redox Logger.str_to_datetime Sample.temperatures ["CW1S1"]
      "2024-09-01 01:00:00" "2024-09-01 01:00:00" = Ok lines /\
    In ln lines /\ xs ln = [] /\ ys ln = [].
Proof.
  do 2 eexists. split; [vm_compute; reflexivity|].
  split; [left; reflexivity|].
  eapply (empty_window_empty_lines Logger.str_to_datetime Sample.temperatures
            ["CW1S1"] "2024-09-01 01:00:00" "2024-09-01 01:00:00" false
            (Sample.t0 + hour)%Z (Sample.t0 + hour)%Z);
    [vm_compute; reflexivity | vm_compute; reflexivity | lia
     | left; vm_compute; reflexivity | left; reflexivity].
Defined.

Lemma mean_of_one_node_witness :
  exists y,
    plot_temp Logger.str_to_datetime Sample.temperatures ["CW1S2"]
      "2024-09-01" "2024-09-01 03:00:00" true
    = Ok [mkLine (index (rows_in_window Sample.t0 (Sample.t0 + 3 * hour)
                           Sample.temperatures)) y "Mean temperature"] /\
    forall i,
      (i < List.length (index (rows_in_window Sample.t0 (Sample.t0 + 3 * hour)
                                 Sample.temperatures)))%nat ->
      num_eq (nth i y NaN)
             (nth i (column_of "CW1S2"
                       (rows_in_window Sample.t0 (Sample.t0 + 3 * hour)
                          Sample.temperatures)) NaN).
Proof.
  apply (mean_of_one_node Logger.str_to_datetime Sample.temperatures "CW1S2"
           "2024-09-01" "2024-09-01 03:00:00" Sample.t0 (Sample.t0 + 3 * hour)%Z);
    [vm_compute; reflexivity | vm_compute; reflexivity | vm_compute; reflexivity
     | vm_compute; lia].
Defined.

(** The file with all channels: the group CW2_80cm can be plotted. *)
Lemma node_groups_are_columns_witness :
  exists r t df loc nodes,
    cleanup_redox Logger.str_to_num Logger.to_datetime
      "log.dat" full_file (Val 200) (Some CW_rename) = Ok (r, t) /\
    load "log.dat" full_file = Ok (Some df) /\ locate df = Ok loc /\
    (forall k, In k (map fst CW_rename) -> In (Str k) (columns loc)) /\
    dict_getitem node_dictionary "CW2_80cm" = Ok nodes /\
    nodes_present r nodes = true.
Proof.
  do 5 eexists. split; [vm_compute; reflexivity|].
  split; [vm_compute; reflexivity|]. split; [vm_compute; reflexivity|].
  assert (Hall : forall k, In k (map fst CW_rename) -> In (Str k) full_header)
    by (apply labels_carried; vm_compute; reflexivity).
  split; [exact Hall|]. split; [vm_compute; reflexivity|].
  eapply (node_groups_are_columns Logger.str_to_num Logger.to_datetime
            "log.dat" full_file (Val 200) _ _ _ _ "CW2_80cm");
    [vm_compute; reflexivity | vm_compute; reflexivity | vm_compute; reflexivity
     | exact Hall | vm_compute; reflexivity].
Defined.

(** * The stamps of a table *)

Lemma date_range_In (a b ts : Z) :
  In ts (date_range a b) <-> (a <= ts <= b)%Z /\ ((ts - a) mod hour = 0)%Z.
Proof.
  pose proof hour_pos as Hh. unfold date_range.
  destruct (Z.ltb_spec b a) as [Hlt|Hle].
  - simpl. split; [tauto | lia].
  - pose proof (Z.div_mod (b - a) hour ltac:(lia)) as Hdm.
    pose proof (Z.mod_pos_bound (b - a) hour Hh) as Hb.
    assert (Hq : (0 <= (b - a) / hour)%Z) by (apply Z.div_pos; lia).
    rewrite in_map_iff. split.
    + intros (k & <- & Hk). apply in_seq in Hk.
      assert (Hkn : (Z.of_nat k <= (b - a) / hour)%Z) by lia.
      split; [nia|].
      replace (a + Z.of_nat k * hour - a)%Z with (Z.of_nat k * hour)%Z by lia.
      apply Z.mod_mul. lia.
    + intros (Hr & Hm).
      pose proof (Z.div_mod (ts - a) hour ltac:(lia)) as Hts.
      rewrite Hm in Hts.
      assert (Hq' : (0 <= (ts - a) / hour <= (b - a) / hour)%Z).
      { split; [apply Z.div_pos; lia | apply Z.div_le_mono; lia]. }
      exists (Z.to_nat ((ts - a) / hour)). split.
      * rewrite Z2Nat.id by lia. lia.
      * apply in_seq. lia.
Qed.

Section Stamps.

Variable str_to_num : string -> option num.
Variable to_datetime : Cell -> option Timestamp.

Local Abbreviation cleanup_redox := (cleanup_redox str_to_num to_datetime).
Local Abbreviation before_reindex := (before_reindex str_to_num to_datetime).

(** X20. A stamp is in the index of a returned table exactly when it lies
    between the first and the last stamp of the source and a whole number
    of hours after the first. *)
Theorem stamps_on_the_grid p c corr rn r t :
  cleanup_redox p c corr rn = Ok (r, t) ->
  exists sr st a b,
    before_reindex p c corr rn = Ok (sr, st) /\
    hd_error (sindex sr) = Some (At a) /\ last (sindex sr) NaT = At b /\
    forall ts, In ts (index r)
               <-> (a <= ts <= b)%Z /\ ((ts - a) mod hour = 0)%Z.
Proof.
  intros H. apply cleanup_redox_Ok in H. destruct H as (sr & st & Ha & H).
  apply regularize_Ok in H. destruct H as (lr & lt & Hr & _ & Rr & _).
  apply reindex_Ok in Rr. destruct Rr as (_ & ->).
  apply hourly_range_Ok in Hr. destruct Hr as (a & b & Hh & Hl & ->).
  exists sr, st, a, b. cbn [index].
  split; [assumption|]. split; [assumption|]. split; [assumption|].
  intros ts. apply date_range_In.
Qed.

End Stamps.

Lemma stamps_on_the_grid_witness :
  exists r t,
    cleanup_redox Logger.str_to_num Logger.to_datetime
      "log.dat" Sample.offgrid_file (Val 200) None = Ok (r, t) /\
    exists sr st a b,
      before_reindex Logger.str_to_num Logger.to_datetime
        "log.dat" Sample.offgrid_file (Val 200) None = Ok (sr, st) /\
      hd_error (sindex sr) = Some (At a) /\ last (sindex sr) NaT = At b /\
      forall ts, In ts (index r)
                 <-> (a <= ts <= b)%Z /\ ((ts - a) mod hour = 0)%Z.
Proof.
  do 2 eexists. split; [vm_compute; reflexivity|].
  eapply (stamps_on_the_grid Logger.str_to_num Logger.to_datetime
            "log.dat" Sample.offgrid_file (Val 200) None).
  vm_compute. reflexivity.
Defined.

(** * Rename maps and files at the edges *)

(** A later line with more fields than the first parsed one: the text
    reader raises, the bare [except] drops it, and line 48 finds no
    frame. *)
Example ragged_file_unbound :
  load "log.dat" ragged_file = Ok None /\
  cleanup_redox Logger.str_to_num Logger.to_datetime
    "log.dat" ragged_file (Val 200) None = Raise UnboundLocalError.
Proof. split; vm_compute; reflexivity. Qed.

(** Empty lines of a delimited file are no rows. *)
Example blank_lines_dropped :
  load "log.dat" blank_line_file = load "log.dat" Sample.gap_file.
Proof. vm_compute. reflexivity. Qed.

(** Two channels renamed to one name: the assignment of line 71 raises. *)
Example two_channels_one_name :
  cleanup_redox Logger.str_to_num Logger.to_datetime "log.dat" pilot_file (Val 200)
    (Some [("redox_raw_Avg(20)", "top"); ("redox_raw_Avg(24)", "top")])
  = Raise ValueError.
Proof. vm_compute. reflexivity. Qed.

(** A channel renamed to Time: lines 71-77 run, the index has two levels,
    and line 79 raises. *)
Example channel_renamed_Time :
  after_set_index Logger.str_to_num Logger.to_datetime "log.dat" Sample.gap_file
    (Val 200) (Some [("redox_raw_Avg(1)", "Time")])
  = Ok (TwoLevel,
        Stamped (mkSeries [At Sample.t0; At (Sample.t0 + hour); At (Sample.t0 + 4 * hour)]
                          [("temp_C_Avg(1)", [Val (91 # 5); Val 18; NaN])])) /\
  cleanup_redox Logger.str_to_num Logger.to_datetime "log.dat" Sample.gap_file
    (Val 200) (Some [("redox_raw_Avg(1)", "Time")])
  = Raise TypeError.
Proof. split; vm_compute; reflexivity. Qed.

(** Time renamed away and a redox channel renamed to Time: the redox
    subset is indexed by that channel, the temperature subset has no
    column called Time, and line 76 raises. *)
Example Time_renamed_away :
  cleanup_redox Logger.str_to_num Logger.to_datetime "log.dat" Sample.gap_file
    (Val 200) (Some [("Time", "when"); ("redox_raw_Avg(1)", "Time")])
  = Raise KeyError.
Proof. vm_compute. reflexivity. Qed.
